(** * GamePad Tester: sampling, metrics and signal-visualisation pipeline

    A shallow embedding of [src/script.js].  JavaScript numbers are IEEE 754
    binary64 values, modelled by Rocq's primitive [float]; the global
    [GamepadTester] object and the parts of the document the script writes to
    are threaded explicitly as a [World]. *)

From Stdlib Require Import ZArith List String Ascii Bool Arith Lia Sorted.
From Stdlib Require Import PrimFloat FloatOps SpecFloat FloatAxioms.
From Stdlib Require Uint63.
Import ListNotations.

Set Warnings "-inexact-float".

Open Scope string_scope.
Open Scope nat_scope.
Open Scope list_scope.

Infix "+++" := String.append (right associativity, at level 60).

(* ================================================================== *)
(** ** JavaScript values and number builtins                           *)
(* ================================================================== *)

Module Js.

(** A value read from an array slot: [undefined] when the index is out of
    range, a number otherwise. *)
Inductive jsval : Type :=
| JUndefined
| JNum (v : float).

(** [ToNumber]: [undefined] converts to NaN. *)
Definition ToNumber (v : jsval) : float :=
  match v with
  | JUndefined => nan
  | JNum f => f
  end.

(** [arr[i]] on an array of numbers. *)
Definition index (arr : list float) (i : nat) : jsval :=
  match nth_error arr i with
  | Some f => JNum f
  | None => JUndefined
  end.

(** [arr.length] as a number. *)
Definition of_nat (n : nat) : float :=
  of_uint63 (Uint63.of_Z (Z.of_nat n)).

(** [a > b] on numbers (false as soon as one side is NaN). *)
Definition gt (a b : float) : bool := ltb b a.

(** [arr.reduce((a, b) => a + b, 0)] *)
Definition sum (l : list float) : float :=
  fold_left add l zero.

(** [arr.reduce((a, b) => a + b, 0) / arr.length] *)
Definition mean (l : list float) : float :=
  div (sum l) (of_nat (List.length l)).

(** [arr.push(v)] followed by [if (arr.length > max) arr.shift()]. *)
Definition push_shift {A : Type} (max : nat) (arr : list A) (v : A) : list A :=
  let arr' := arr ++ [v] in
  if max <? List.length arr' then tl arr' else arr'.

(** Exact value of a finite non-zero double as [(negative, m, e)], standing
    for [m * 2^e]. *)
Definition decompose (x : float) : option (bool * positive * Z) :=
  match Prim2SF x with
  | S754_finite s m e => Some (s, m, e)
  | _ => None
  end.

(** [Math.min] of two numbers. *)
Definition Math_min (a b : float) : float :=
  if is_nan a || is_nan b then nan
  else if ltb a b then a
  else if ltb b a then b
  else if get_sign a then a else b.

(** The integer [floor(q + 1/2)] for the rational [q = n * 2^e]. *)
Definition round_half_up (n : Z) (e : Z) : Z :=
  if (0 <=? e)%Z then (n * 2 ^ e)%Z
  else ((2 * n + 2 ^ (- e)) / 2 ^ (1 - e))%Z.

(** [Math.round]: the nearest integer, ties towards +infinity; a result of
    zero keeps the sign of the argument. *)
Definition Math_round (x : float) : float :=
  match decompose x with
  | None => x
  | Some (s, m, e) =>
      if (0 <=? e)%Z then x
      else
        let n := round_half_up (if s then Z.neg m else Z.pos m) e in
        if (n =? 0)%Z then (if s then neg_zero else zero)
        else if (n <? 0)%Z then opp (of_uint63 (Uint63.of_Z (- n)))
        else of_uint63 (Uint63.of_Z n)
  end.

(** *** Decimal rendering *)

Definition digit_char (d : Z) : ascii :=
  ascii_of_nat (48 + Z.to_nat d).

Fixpoint digits_aux (fuel : nat) (n : Z) (acc : string) : string :=
  match fuel with
  | O => acc
  | S fuel' =>
      let acc' := String (digit_char (n mod 10)) acc in
      if (n <? 10)%Z then acc' else digits_aux fuel' (n / 10) acc'
  end.

(** Decimal digits of a non-negative integer. *)
Definition digits (n : Z) : string :=
  digits_aux (S (Z.to_nat (Z.log2 n))) n "".

Definition string_of_nat (n : nat) : string := digits (Z.of_nat n).

Fixpoint zeros (n : nat) : string :=
  match n with
  | O => ""
  | S n' => String "0" (zeros n')
  end.

Definition take (n : nat) (s : string) : string := substring 0 n s.
Definition drop (n : nat) (s : string) : string := substring n (String.length s - n) s.

(** Comparison of the rationals [a * 10^p] and [b * 2^e]. *)
Definition cmp_dec_bin (a p b e : Z) : comparison :=
  let l := (a * 10 ^ (Z.max 0 p) * 2 ^ (Z.max 0 (- e)))%Z in
  let r := (b * 2 ^ (Z.max 0 e) * 10 ^ (Z.max 0 (- p)))%Z in
  (l ?= r)%Z.

(** Does the real [s * 10^p] round (to nearest, ties to even) to the double
    [m * 2^e]? *)
Definition rounds_to (m : positive) (e : Z) (s p : Z) : bool :=
  let lo_n := if (Pos.eqb m (2 ^ 52)%positive && (-1074 <? e)%Z)
              then (4 * Z.pos m - 1)%Z else (4 * Z.pos m - 2)%Z in
  let hi_n := (4 * Z.pos m + 2)%Z in
  let incl := Z.even (Z.pos m) in
  match cmp_dec_bin s p lo_n (e - 2), cmp_dec_bin s p hi_n (e - 2) with
  | Gt, Lt => true
  | Eq, _ => incl
  | _, Eq => incl
  | _, _ => false
  end.

(** The [n] with [10^(n-1) <= m * 2^e < 10^n]. *)
Fixpoint magnitude_from (fuel : nat) (m : positive) (e : Z) (n : Z) : Z :=
  match fuel with
  | O => n
  | S fuel' =>
      match cmp_dec_bin 1 n (Z.pos m) e with
      | Gt => n
      | _ => magnitude_from fuel' m e (n + 1)
      end
  end.

Definition magnitude (m : positive) (e : Z) : Z :=
  let est := ((Z.log2 (Z.pos m) + e) * 30103 / 100000)%Z in
  magnitude_from 8 m e (est - 1).

(** [floor (m * 2^e / 10^p)] *)
Definition scaled_floor (m : positive) (e p : Z) : Z :=
  ((Z.pos m * 2 ^ (Z.max 0 e) * 10 ^ (Z.max 0 (- p)))
   / (2 ^ (Z.max 0 (- e)) * 10 ^ (Z.max 0 p)))%Z.

(** Shortest digit string [s] (as an integer of [k] digits) and position [n]
    with [s * 10^(n-k)] rounding to the double; among two candidates of the
    same length the one closer to the double is taken. *)
Fixpoint shortest_from (fuel : nat) (m : positive) (e n0 k : Z) : Z * Z :=
  let p := (n0 - k)%Z in
  let lo := scaled_floor m e p in
  let hi := (lo + 1)%Z in
  let ok_lo := rounds_to m e lo p in
  let ok_hi := rounds_to m e hi p in
  let closer_hi :=
    (* hi*10^p - v < v - lo*10^p  iff  (2*lo + 1) * 10^p < 2 * v *)
    match cmp_dec_bin (2 * lo + 1) p (2 * Z.pos m) e with
    | Lt => true
    | Eq => Z.odd lo
    | Gt => false
    end in
  let pick := if ok_lo && ok_hi then (if closer_hi then hi else lo)
              else if ok_lo then lo else hi in
  match fuel with
  | O => (lo, k)
  | S fuel' =>
      if ok_lo || ok_hi then (pick, k)
      else shortest_from fuel' m e n0 (k + 1)
  end.

(** [Number::toString] of a positive finite double [m * 2^e]. *)
Definition positive_to_string (m : positive) (e : Z) : string :=
  let n0 := magnitude m e in
  let (s, k) := shortest_from 17 m e n0 1 in
  let '(ds, k, n) :=
    if (s =? 10 ^ k)%Z then ("1", 1%Z, (n0 + 1)%Z) else (digits s, k, n0) in
  if ((k <=? n) && (n <=? 21))%Z then
    ds +++ zeros (Z.to_nat (n - k))
  else if ((0 <? n) && (n <=? 21))%Z then
    take (Z.to_nat n) ds +++ "." +++ drop (Z.to_nat n) ds
  else if ((-6 <? n) && (n <=? 0))%Z then
    "0." +++ zeros (Z.to_nat (- n)) +++ ds
  else
    let ex := (n - 1)%Z in
    let sign := if (ex <? 0)%Z then "-" else "+" in
    let mant := if (k =? 1)%Z then ds else take 1 ds +++ "." +++ drop 1 ds in
    mant +++ "e" +++ sign +++ digits (Z.abs ex).

(** [Number::toString(x)] (radix 10), as used by template literals. *)
Definition Number_toString (x : float) : string :=
  if is_nan x then "NaN"
  else if is_zero x then "0"
  else if is_infinity x then (if get_sign x then "-Infinity" else "Infinity")
  else
    match decompose x with
    | Some (s, m, e) => (if s then "-" else "") +++ positive_to_string m e
    | None => "0"
    end.

(** [Number.prototype.toFixed(f)] *)
Definition toFixed (f : nat) (x : float) : string :=
  if is_nan x then "NaN"
  else if leb 1e21 (abs x) then Number_toString x
  else
    let sign := if ltb x zero then "-" else "" in
    let n :=
      match decompose x with
      | Some (_, m, e) =>
          if (0 <=? e)%Z then (Z.pos m * 2 ^ e * 10 ^ Z.of_nat f)%Z
          else round_half_up (Z.pos m * 10 ^ Z.of_nat f) e
      | None => 0%Z
      end in
    let ds := digits n in
    if (f =? 0)%nat then sign +++ ds
    else
      let ds := zeros (S f - String.length ds) +++ ds in
      let k := (String.length ds - f)%nat in
      sign +++ take k ds +++ "." +++ drop k ds.

End Js.

(* ================================================================== *)
(** ** Data model                                                      *)
(* ================================================================== *)

(** A [GamepadButton] of the Gamepad API. *)
Record GamepadButton : Type := mkButton {
  pressed : bool;
  value : float
}.

(** One snapshot of a controller, as [navigator.getGamepads()] hands it out.
    The two actuator fields only record whether the property is truthy. *)
Record Gamepad : Type := mkGamepad {
  index : nat;
  id : string;
  mapping : string;
  timestamp : float;
  axes : list float;
  buttons : list GamepadButton;
  vibrationActuator : bool;
  hapticActuators : bool
}.

(** The value of the stick selectors ('left' or 'right'). *)
Inductive Stick : Type := StickLeft | StickRight.

(** A JavaScript [Set] of numbers: its elements in insertion order, without
    duplicates under SameValueZero. *)
Module JsSet.

Definition t : Type := list float.

Definition same_value_zero (a b : float) : bool :=
  eqb a b || (is_nan a && is_nan b).

Definition has (s : t) (v : float) : bool :=
  existsb (same_value_zero v) s.

Definition add (s : t) (v : float) : t :=
  if has s v then s else s ++ [v].

Definition size (s : t) : nat := List.length s.

Definition clear (s : t) : t := [].

End JsSet.

(** A JavaScript object whose keys are array indices: [Object.keys] lists
    them in ascending order, so the entries are kept sorted by key. *)
Module JsObj.

Section Obj.
Variable V : Type.

Definition t : Type := list (nat * V).

Fixpoint get (o : t) (k : nat) : option V :=
  match o with
  | [] => None
  | (k', v) :: o' => if k' =? k then Some v else get o' k
  end.

Fixpoint set (o : t) (k : nat) (v : V) : t :=
  match o with
  | [] => [(k, v)]
  | (k', v') :: o' =>
      if k =? k' then (k, v) :: o'
      else if k <? k' then (k, v) :: (k', v') :: o'
      else (k', v') :: set o' k v
  end.

Fixpoint delete (o : t) (k : nat) : t :=
  match o with
  | [] => []
  | (k', v') :: o' => if k' =? k then delete o' k else (k', v') :: delete o' k
  end.

Definition keys (o : t) : list nat := map fst o.

End Obj.

Arguments get {V} o k.
Arguments set {V} o k v.
Arguments delete {V} o k.
Arguments keys {V} o.

End JsObj.

Record Performance : Type := mkPerformance {
  lastTimestamp : float;
  frameDeltas : list float;
  pollingRates : list float
}.

Record TriggerTracking : Type := mkTriggerTracking {
  tt_left : JsSet.t;
  tt_right : JsSet.t
}.

(** [{ x: [], y: [] }] *)
Record ScopeTrace : Type := mkScopeTrace {
  trace_x : list Js.jsval;
  trace_y : list Js.jsval
}.

Record OscilloscopeData : Type := mkOscilloscopeData {
  osc_left : ScopeTrace;
  osc_right : ScopeTrace;
  osc_maxPoints : nat;
  osc_timeOffset : float
}.

(** [{ x: xValue, y: yValue }] *)
Record Point : Type := mkPoint {
  point_x : Js.jsval;
  point_y : Js.jsval
}.

Record CircularityData : Type := mkCircularityData {
  circ_left : list Point;
  circ_right : list Point;
  circ_maxPoints : nat
}.

(** The global [GamepadTester] object. *)
Record GamepadTester : Type := mkGamepadTester {
  gamepads : JsObj.t Gamepad;
  activeGamepadIndex : option nat;
  animationFrameId : option nat;
  performance : Performance;
  triggerTracking : TriggerTracking;
  oscilloscopeData : OscilloscopeData;
  circularityData : CircularityData;
  selectedScope : Stick;
  selectedCircle : Stick
}.

(** The object literal the script starts from. *)
Definition GamepadTester_init : GamepadTester :=
  {| gamepads := [];
     activeGamepadIndex := None;
     animationFrameId := None;
     performance := {| lastTimestamp := zero; frameDeltas := []; pollingRates := [] |};
     triggerTracking := {| tt_left := []; tt_right := [] |};
     oscilloscopeData :=
       {| osc_left := {| trace_x := []; trace_y := [] |};
          osc_right := {| trace_x := []; trace_y := [] |};
          osc_maxPoints := 200;
          osc_timeOffset := zero |};
     circularityData := {| circ_left := []; circ_right := []; circ_maxPoints := 1000 |};
     selectedScope := StickLeft;
     selectedCircle := StickLeft |}.

(** [GamepadTester.oscilloscopeData[stick]] and its assignment. *)
Definition osc_get (d : OscilloscopeData) (s : Stick) : ScopeTrace :=
  match s with
  | StickLeft => osc_left d
  | StickRight => osc_right d
  end.

Definition osc_set (d : OscilloscopeData) (s : Stick) (t : ScopeTrace) : OscilloscopeData :=
  match s with
  | StickLeft =>
      {| osc_left := t; osc_right := osc_right d;
         osc_maxPoints := osc_maxPoints d; osc_timeOffset := osc_timeOffset d |}
  | StickRight =>
      {| osc_left := osc_left d; osc_right := t;
         osc_maxPoints := osc_maxPoints d; osc_timeOffset := osc_timeOffset d |}
  end.

(** [GamepadTester.circularityData[stick]] and its assignment. *)
Definition circ_get (d : CircularityData) (s : Stick) : list Point :=
  match s with
  | StickLeft => circ_left d
  | StickRight => circ_right d
  end.

Definition circ_set (d : CircularityData) (s : Stick) (l : list Point) : CircularityData :=
  match s with
  | StickLeft =>
      {| circ_left := l; circ_right := circ_right d; circ_maxPoints := circ_maxPoints d |}
  | StickRight =>
      {| circ_left := circ_left d; circ_right := l; circ_maxPoints := circ_maxPoints d |}
  end.

(** *** The document *)

(** A call on (or a property assignment to) a 2D canvas context. *)
Inductive CanvasOp : Type :=
| SetFillStyle (s : string)
| SetStrokeStyle (s : string)
| SetLineWidth (w : float)
| SetFont (s : string)
| SetImageSmoothingEnabled (b : bool)
| FillRect (x y w h : float)
| StrokeRect (x y w h : float)
| BeginPath
| MoveTo (x y : float)
| LineTo (x y : float)
| Arc (x y r a0 a1 : float)
| Stroke
| Fill
| FillText (s : string) (x y : float).

(** A canvas element: its size and the calls its context has received. *)
Record Canvas : Type := mkCanvas {
  canvas_width : float;
  canvas_height : float;
  canvas_ops : list CanvasOp
}.

Definition draw (c : Canvas) (ops : list CanvasOp) : Canvas :=
  {| canvas_width := canvas_width c;
     canvas_height := canvas_height c;
     canvas_ops := canvas_ops c ++ ops |}.

(** A row of the raw-data table: name, formatted value, state. *)
Record RawRow : Type := mkRawRow {
  row_name : string;
  row_value : string;
  row_state : string
}.

(** A tab of the controller-tabs container. *)
Record Tab : Type := mkTab {
  tab_index : nat;
  tab_text : string;
  tab_active : bool
}.

(** The part of the page the script reads and writes.  Elements are named
    by their id; the paragraph inside the connection banner is
    ["connection-status p"]. *)
Record Document : Type := mkDocument {
  text : string -> string;             (* textContent, by element *)
  style : string -> string -> string;  (* string assigned to a style property *)
  class : string -> string -> bool;    (* classList membership *)
  data_button : list (nat * bool);     (* [data-button] elements and their 'active' class *)
  raw_data_table : list RawRow;        (* rows written into #raw-data-table *)
  controller_tabs : list Tab;          (* children of #controller-tabs *)
  toast_container : list (string * string);  (* toasts shown: message, type *)
  oscilloscope_canvas : Canvas;
  circularity_canvas : Canvas
}.

(** The script's whole mutable environment. *)
Record World : Type := mkWorld {
  tester : GamepadTester;
  doc : Document;
  raf_next : nat  (* handle the next requestAnimationFrame call returns *)
}.

(** *** Field updates *)

Definition upd1 {B : Type} (f : string -> B) (k : string) (v : B) : string -> B :=
  fun k' => if String.eqb k' k then v else f k'.

Definition upd2 {B : Type} (f : string -> string -> B) (k1 k2 : string) (v : B)
  : string -> string -> B :=
  fun k1' k2' => if String.eqb k1' k1 && String.eqb k2' k2 then v else f k1' k2'.

Definition set_text (el v : string) (d : Document) : Document :=
  {| text := upd1 (text d) el v; style := style d; class := class d;
     data_button := data_button d; raw_data_table := raw_data_table d;
     controller_tabs := controller_tabs d; toast_container := toast_container d;
     oscilloscope_canvas := oscilloscope_canvas d;
     circularity_canvas := circularity_canvas d |}.

Definition set_style (el prop v : string) (d : Document) : Document :=
  {| text := text d; style := upd2 (style d) el prop v; class := class d;
     data_button := data_button d; raw_data_table := raw_data_table d;
     controller_tabs := controller_tabs d; toast_container := toast_container d;
     oscilloscope_canvas := oscilloscope_canvas d;
     circularity_canvas := circularity_canvas d |}.

Definition set_class (el cls : string) (v : bool) (d : Document) : Document :=
  {| text := text d; style := style d; class := upd2 (class d) el cls v;
     data_button := data_button d; raw_data_table := raw_data_table d;
     controller_tabs := controller_tabs d; toast_container := toast_container d;
     oscilloscope_canvas := oscilloscope_canvas d;
     circularity_canvas := circularity_canvas d |}.

Definition set_data_button (v : list (nat * bool)) (d : Document) : Document :=
  {| text := text d; style := style d; class := class d;
     data_button := v; raw_data_table := raw_data_table d;
     controller_tabs := controller_tabs d; toast_container := toast_container d;
     oscilloscope_canvas := oscilloscope_canvas d;
     circularity_canvas := circularity_canvas d |}.

Definition set_raw_data_table (v : list RawRow) (d : Document) : Document :=
  {| text := text d; style := style d; class := class d;
     data_button := data_button d; raw_data_table := v;
     controller_tabs := controller_tabs d; toast_container := toast_container d;
     oscilloscope_canvas := oscilloscope_canvas d;
     circularity_canvas := circularity_canvas d |}.

Definition set_controller_tabs (v : list Tab) (d : Document) : Document :=
  {| text := text d; style := style d; class := class d;
     data_button := data_button d; raw_data_table := raw_data_table d;
     controller_tabs := v; toast_container := toast_container d;
     oscilloscope_canvas := oscilloscope_canvas d;
     circularity_canvas := circularity_canvas d |}.

Definition set_toast_container (v : list (string * string)) (d : Document) : Document :=
  {| text := text d; style := style d; class := class d;
     data_button := data_button d; raw_data_table := raw_data_table d;
     controller_tabs := controller_tabs d; toast_container := v;
     oscilloscope_canvas := oscilloscope_canvas d;
     circularity_canvas := circularity_canvas d |}.

Definition set_oscilloscope_canvas (v : Canvas) (d : Document) : Document :=
  {| text := text d; style := style d; class := class d;
     data_button := data_button d; raw_data_table := raw_data_table d;
     controller_tabs := controller_tabs d; toast_container := toast_container d;
     oscilloscope_canvas := v;
     circularity_canvas := circularity_canvas d |}.

Definition set_circularity_canvas (v : Canvas) (d : Document) : Document :=
  {| text := text d; style := style d; class := class d;
     data_button := data_button d; raw_data_table := raw_data_table d;
     controller_tabs := controller_tabs d; toast_container := toast_container d;
     oscilloscope_canvas := oscilloscope_canvas d;
     circularity_canvas := v |}.

Definition set_gamepads (v : JsObj.t Gamepad) (g : GamepadTester) : GamepadTester :=
  {| gamepads := v; activeGamepadIndex := activeGamepadIndex g;
     animationFrameId := animationFrameId g; performance := performance g;
     triggerTracking := triggerTracking g; oscilloscopeData := oscilloscopeData g;
     circularityData := circularityData g; selectedScope := selectedScope g;
     selectedCircle := selectedCircle g |}.

Definition set_activeGamepadIndex (v : option nat) (g : GamepadTester) : GamepadTester :=
  {| gamepads := gamepads g; activeGamepadIndex := v;
     animationFrameId := animationFrameId g; performance := performance g;
     triggerTracking := triggerTracking g; oscilloscopeData := oscilloscopeData g;
     circularityData := circularityData g; selectedScope := selectedScope g;
     selectedCircle := selectedCircle g |}.

Definition set_animationFrameId (v : option nat) (g : GamepadTester) : GamepadTester :=
  {| gamepads := gamepads g; activeGamepadIndex := activeGamepadIndex g;
     animationFrameId := v; performance := performance g;
     triggerTracking := triggerTracking g; oscilloscopeData := oscilloscopeData g;
     circularityData := circularityData g; selectedScope := selectedScope g;
     selectedCircle := selectedCircle g |}.

Definition set_performance (v : Performance) (g : GamepadTester) : GamepadTester :=
  {| gamepads := gamepads g; activeGamepadIndex := activeGamepadIndex g;
     animationFrameId := animationFrameId g; performance := v;
     triggerTracking := triggerTracking g; oscilloscopeData := oscilloscopeData g;
     circularityData := circularityData g; selectedScope := selectedScope g;
     selectedCircle := selectedCircle g |}.

Definition set_triggerTracking (v : TriggerTracking) (g : GamepadTester) : GamepadTester :=
  {| gamepads := gamepads g; activeGamepadIndex := activeGamepadIndex g;
     animationFrameId := animationFrameId g; performance := performance g;
     triggerTracking := v; oscilloscopeData := oscilloscopeData g;
     circularityData := circularityData g; selectedScope := selectedScope g;
     selectedCircle := selectedCircle g |}.

Definition set_oscilloscopeData (v : OscilloscopeData) (g : GamepadTester) : GamepadTester :=
  {| gamepads := gamepads g; activeGamepadIndex := activeGamepadIndex g;
     animationFrameId := animationFrameId g; performance := performance g;
     triggerTracking := triggerTracking g; oscilloscopeData := v;
     circularityData := circularityData g; selectedScope := selectedScope g;
     selectedCircle := selectedCircle g |}.

Definition set_circularityData (v : CircularityData) (g : GamepadTester) : GamepadTester :=
  {| gamepads := gamepads g; activeGamepadIndex := activeGamepadIndex g;
     animationFrameId := animationFrameId g; performance := performance g;
     triggerTracking := triggerTracking g; oscilloscopeData := oscilloscopeData g;
     circularityData := v; selectedScope := selectedScope g;
     selectedCircle := selectedCircle g |}.

Definition set_selectedScope (v : Stick) (g : GamepadTester) : GamepadTester :=
  {| gamepads := gamepads g; activeGamepadIndex := activeGamepadIndex g;
     animationFrameId := animationFrameId g; performance := performance g;
     triggerTracking := triggerTracking g; oscilloscopeData := oscilloscopeData g;
     circularityData := circularityData g; selectedScope := v;
     selectedCircle := selectedCircle g |}.

Definition set_selectedCircle (v : Stick) (g : GamepadTester) : GamepadTester :=
  {| gamepads := gamepads g; activeGamepadIndex := activeGamepadIndex g;
     animationFrameId := animationFrameId g; performance := performance g;
     triggerTracking := triggerTracking g; oscilloscopeData := oscilloscopeData g;
     circularityData := circularityData g; selectedScope := selectedScope g;
     selectedCircle := v |}.

(** Apply an update to the tester or to the document of a world. *)
Definition on_tester (f : GamepadTester -> GamepadTester) (w : World) : World :=
  {| tester := f (tester w); doc := doc w; raf_next := raf_next w |}.

Definition on_doc (f : Document -> Document) (w : World) : World :=
  {| tester := tester w; doc := f (doc w); raf_next := raf_next w |}.

(** Sequencing of effects, in source order. *)
Notation "w |> f" := (f w) (at level 45, left associativity, only parsing).

(* ================================================================== *)
(** ** The script                                                      *)
(* ================================================================== *)

(** *** STANDARD GAMEPAD BUTTON MAPPING (W3C) *)

Definition BUTTON_MAPPING (i : nat) : option string :=
  match i with
  | 0 => Some "A / Cross"
  | 1 => Some "B / Circle"
  | 2 => Some "X / Square"
  | 3 => Some "Y / Triangle"
  | 4 => Some "LB / L1"
  | 5 => Some "RB / R1"
  | 6 => Some "LT / L2"
  | 7 => Some "RT / R2"
  | 8 => Some "Select / Share"
  | 9 => Some "Start / Options"
  | 10 => Some "L3 (Left Stick)"
  | 11 => Some "R3 (Right Stick)"
  | 12 => Some "D-Pad Up"
  | 13 => Some "D-Pad Down"
  | 14 => Some "D-Pad Left"
  | 15 => Some "D-Pad Right"
  | 16 => Some "Home / Guide"
  | 17 => Some "Touchpad / Misc"
  | _ => None
  end.

Definition AXIS_MAPPING (i : nat) : option string :=
  match i with
  | 0 => Some "Left Stick X"
  | 1 => Some "Left Stick Y"
  | 2 => Some "Right Stick X"
  | 3 => Some "Right Stick Y"
  | _ => None
  end.

(** [arr.forEach((v, i) => ...)] / an indexed [for] loop building a list. *)
Fixpoint mapi_from {A B : Type} (i : nat) (f : nat -> A -> B) (l : list A) : list B :=
  match l with
  | [] => []
  | a :: l' => f i a :: mapi_from (S i) f l'
  end.

Definition mapi {A B : Type} (f : nat -> A -> B) (l : list A) : list B :=
  mapi_from 0 f l.

(** *** UI update functions *)

Definition updateConnectionStatus (connected : bool) (w : World) : World :=
  if connected then
    w |> on_doc (set_class "connection-status" "connected" true)
      |> on_doc (set_text "connection-status p"
                   "Controller Connected - Ready for Testing")
  else
    w |> on_doc (set_class "connection-status" "connected" false)
      |> on_doc (set_text "connection-status p"
                   "No controller detected. Press any button on your gamepad to connect.").

Definition showAppContent (w : World) : World :=
  w |> on_doc (set_class "app-content" "hidden" false).

Definition hideAppContent (w : World) : World :=
  w |> on_doc (set_class "app-content" "hidden" true).

Definition createControllerTabs (w : World) : World :=
  let gamepadIndices := JsObj.keys (gamepads (tester w)) in
  if List.length gamepadIndices =? 0 then
    w |> on_doc (set_class "controller-tabs" "hidden" true)
  else if List.length gamepadIndices =? 1 then
    w |> on_doc (set_class "controller-tabs" "hidden" true)
  else
    w |> on_doc (set_class "controller-tabs" "hidden" false)
      |> on_doc (set_controller_tabs
           (map (fun index =>
                   {| tab_index := index;
                      tab_text := "Controller " +++ Js.string_of_nat (index + 1);
                      tab_active := match activeGamepadIndex (tester w) with
                                    | Some a => index =? a
                                    | None => false
                                    end |})
                gamepadIndices)).

(** The click listener [createControllerTabs] attaches to the tab of
    controller [index]. *)
Definition tab_click (index : nat) (w : World) : World :=
  w |> on_tester (set_activeGamepadIndex (Some index))
    |> createControllerTabs
    (* Reset trigger tracking when switching controllers *)
    |> on_tester (fun g =>
         set_triggerTracking
           {| tt_left := JsSet.clear (tt_left (triggerTracking g));
              tt_right := JsSet.clear (tt_right (triggerTracking g)) |} g).

(** The toast is appended; its removal three seconds later is not modelled. *)
Definition showToast (message type : string) (w : World) : World :=
  w |> on_doc (fun d => set_toast_container (toast_container d ++ [(message, type)]) d).

Definition showCompatibilityModal (w : World) : World :=
  w |> on_doc (set_class "compatibility-modal" "hidden" false).

Definition checkVibrationSupport (gamepad : Gamepad) (w : World) : World :=
  if vibrationActuator gamepad || hapticActuators gamepad then
    w |> on_doc (set_style "vibration-notice" "display" "none")
      |> on_doc (set_style "vibration-sliders" "display" "flex")
  else
    w |> on_doc (set_text "vibration-notice"
           "⚠️ This controller does not support vibration, or your browser does not support the Gamepad Haptics API.")
      |> on_doc (set_style "vibration-notice" "display" "block")
      |> on_doc (set_style "vibration-sliders" "display" "none").

(** *** Gamepad connection handlers *)

Definition handleGamepadConnected (gamepad : Gamepad) (w : World) : World :=
  w (* Store the gamepad *)
    |> on_tester (fun g => set_gamepads (JsObj.set (gamepads g) (index gamepad) gamepad) g)
    (* If this is the first gamepad, make it active *)
    |> on_tester (fun g =>
         match activeGamepadIndex g with
         | None => set_activeGamepadIndex (Some (index gamepad)) g
         | Some _ => g
         end)
    |> updateConnectionStatus true
    |> showAppContent
    |> createControllerTabs
    |> showToast ("Controller Connected: " +++ id gamepad) "success"
    |> checkVibrationSupport gamepad.

Definition handleGamepadDisconnected (gamepad : Gamepad) (w : World) : World :=
  let w1 :=
    w (* Remove the gamepad *)
      |> on_tester (fun g => set_gamepads (JsObj.delete (gamepads g) (index gamepad)) g)
      |> showToast ("Controller Disconnected: " +++ id gamepad) "error" in
  let w2 :=
    (* If the active gamepad was disconnected, switch to another or hide UI *)
    match activeGamepadIndex (tester w1) with
    | Some a =>
        if a =? index gamepad then
          match JsObj.keys (gamepads (tester w1)) with
          | first :: _ =>
              w1 |> on_tester (set_activeGamepadIndex (Some first))
          | [] =>
              w1 |> on_tester (set_activeGamepadIndex None)
                 |> hideAppContent
                 |> updateConnectionStatus false
          end
        else w1
    | None => w1
    end in
  w2 |> createControllerTabs.

(** [gamepads] is what [navigator.getGamepads()] returned: one slot per
    controller index, [None] for an empty slot. *)
Definition checkExistingGamepads (pads : list (option Gamepad)) (w : World) : World :=
  fold_left (fun w slot =>
               match slot with
               | Some g => handleGamepadConnected g w
               | None => w
               end) pads w.

(** *** Performance metrics *)

Definition updatePerformanceMetrics (currentTime gamepadTimestamp : float) (w : World)
  : World :=
  let lastTime := lastTimestamp (performance (tester w)) in
  let w1 :=
    if Js.gt lastTime 0 then
      let frameDelta := sub currentTime lastTime in
      (* Keep only last 60 frames for averaging *)
      let deltas := Js.push_shift 60 (frameDeltas (performance (tester w))) frameDelta in
      let avgFrameDelta := Js.mean deltas in
      let pollingRate := div 1000 avgFrameDelta in
      (* Keep only last 60 samples *)
      let rates := Js.push_shift 60 (pollingRates (performance (tester w))) pollingRate in
      let avgPollingRate := Js.mean rates in
      w |> on_tester (set_performance
             {| lastTimestamp := lastTime; frameDeltas := deltas; pollingRates := rates |})
        |> on_doc (set_text "polling-rate"
             (Js.Number_toString (Js.Math_round avgPollingRate) +++ " Hz"))
        |> on_doc (set_text "frame-delta" (Js.toFixed 2 avgFrameDelta +++ " ms"))
    else w in
  w1 |> on_tester (fun g =>
          set_performance
            {| lastTimestamp := currentTime;
               frameDeltas := frameDeltas (performance g);
               pollingRates := pollingRates (performance g) |} g)
     |> on_doc (set_text "timestamp-display" (Js.toFixed 2 gamepadTimestamp)).

(** *** Visual controller update *)

(** [document.querySelector('[data-button=i]')] followed by a class change:
    the first matching element, if any, is updated. *)
Fixpoint set_data_button_class (i : nat) (active : bool) (els : list (nat * bool))
  : list (nat * bool) :=
  match els with
  | [] => []
  | (j, a) :: els' =>
      if j =? i then (j, active) :: els'
      else (j, a) :: set_data_button_class i active els'
  end.

Definition DEADZONE : float := 0.05.

(** [Math.abs(v) > DEADZONE ? v : 0] *)
Definition deadzone (v : Js.jsval) : float :=
  if Js.gt (abs (Js.ToNumber v)) DEADZONE then Js.ToNumber v else 0.

(** [gamepad.buttons[i] ? gamepad.buttons[i].value : 0] *)
Definition trigger_value (gamepad : Gamepad) (i : nat) : float :=
  match nth_error (buttons gamepad) i with
  | Some b => value b
  | None => 0
  end.

Definition updateVisualController (gamepad : Gamepad) (w : World) : World :=
  (* Update buttons *)
  let els :=
    fold_left (fun els '(i, button) =>
                 (* A button is "pressed" when its value > 0.5 or pressed property is true *)
                 set_data_button_class i (pressed button || Js.gt (value button) 0.5) els)
              (mapi (fun i b => (i, b)) (buttons gamepad))
              (data_button (doc w)) in
  (* Left stick (axes 0 and 1) *)
  let leftX := deadzone (Js.index (axes gamepad) 0) in
  let leftY := deadzone (Js.index (axes gamepad) 1) in
  (* Right stick (axes 2 and 3) *)
  let rightX := deadzone (Js.index (axes gamepad) 2) in
  let rightY := deadzone (Js.index (axes gamepad) 3) in
  let stickRange := 15%float in
  let translate x y :=
    "translate(" +++ Js.Number_toString (mul x stickRange) +++ "px, "
                 +++ Js.Number_toString (mul y stickRange) +++ "px)" in
  (* Standard mapping: LT = button[6], RT = button[7] *)
  let leftTrigger := trigger_value gamepad 6 in
  let rightTrigger := trigger_value gamepad 7 in
  w |> on_doc (set_data_button els)
    |> on_doc (set_style "stick-left" "transform" (translate leftX leftY))
    |> on_doc (set_style "stick-right" "transform" (translate rightX rightY))
    |> on_doc (set_style "trigger-left-fill" "height"
                 (Js.Number_toString (mul leftTrigger 100) +++ "%"))
    |> on_doc (set_text "trigger-left-value" (Js.toFixed 2 leftTrigger))
    |> on_doc (set_style "trigger-right-fill" "height"
                 (Js.Number_toString (mul rightTrigger 100) +++ "%"))
    |> on_doc (set_text "trigger-right-value" (Js.toFixed 2 rightTrigger)).

(** *** Raw data table and controller info *)

Definition updateRawDataTable (gamepad : Gamepad) (w : World) : World :=
  let axis_rows :=
    mapi (fun index v =>
            {| row_name := match AXIS_MAPPING index with
                           | Some name => name
                           | None => "Axis " +++ Js.string_of_nat index
                           end;
               row_value := Js.toFixed 5 v;
               row_state := if Js.gt (abs v) 0.05 then "Active" else "Neutral" |})
         (axes gamepad) in
  let button_rows :=
    mapi (fun index button =>
            {| row_name := match BUTTON_MAPPING index with
                           | Some name => name
                           | None => "Button " +++ Js.string_of_nat index
                           end;
               row_value := Js.toFixed 5 (value button);
               row_state := if pressed button then "Pressed" else "Released" |})
         (buttons gamepad) in
  w |> on_doc (set_raw_data_table (axis_rows ++ button_rows)).

Definition updateControllerInfo (gamepad : Gamepad) (w : World) : World :=
  w |> on_doc (set_text "controller-name" (id gamepad))
    |> on_doc (set_text "controller-mapping"
         (if String.eqb (mapping gamepad) "" then "Unknown" else mapping gamepad)).

(** *** Trigger pressure analyser *)

Definition updateTriggerPressure (gamepad : Gamepad) (w : World) : World :=
  (* Get trigger values *)
  let leftTrigger := trigger_value gamepad 6 in
  let rightTrigger := trigger_value gamepad 7 in
  (* Track unique values for resolution calculation *)
  let track (s : JsSet.t) (v : float) : JsSet.t :=
    if Js.gt v 0 then JsSet.add s v else s in
  let tt := triggerTracking (tester w) in
  let tt' := {| tt_left := track (tt_left tt) leftTrigger;
                tt_right := track (tt_right tt) rightTrigger |} in
  let leftSteps := JsSet.size (tt_left tt') in
  let rightSteps := JsSet.size (tt_right tt') in
  let steps n := if 0 <? n then "~" +++ Js.string_of_nat n +++ " steps" else "- steps" in
  w |> on_doc (set_style "pressure-bar-left" "width"
                 (Js.Number_toString (mul leftTrigger 100) +++ "%"))
    |> on_doc (set_text "pressure-label-left" (Js.toFixed 5 leftTrigger))
    |> on_doc (set_style "pressure-bar-right" "width"
                 (Js.Number_toString (mul rightTrigger 100) +++ "%"))
    |> on_doc (set_text "pressure-label-right" (Js.toFixed 5 rightTrigger))
    |> on_tester (set_triggerTracking tt')
    |> on_doc (set_text "resolution-left" (steps leftSteps))
    |> on_doc (set_text "resolution-right" (steps rightSteps)).

(** *** Oscilloscope (analog stick tracking) *)

(** [Math.PI] *)
Definition Math_PI : float := 0x1.921fb54442d18p+1.

(** One grid line per [i] in [0 .. n], as the two [for] loops draw them. *)
Definition grid_lines (n : nat) (line : float -> list CanvasOp) : list CanvasOp :=
  flat_map (fun i => line (Js.of_nat i)) (seq 0 (S n)).

Definition drawOscilloscopeGrid (width height : float) : list CanvasOp :=
  (* Clear *)
  [SetFillStyle "#0f0f12"; FillRect 0 0 width height;
   (* Grid lines *)
   SetStrokeStyle "rgba(0, 243, 255, 0.1)"; SetLineWidth 1]
  (* Horizontal lines *)
  ++ grid_lines 4 (fun i =>
       let y := mul (div height 4) i in
       [BeginPath; MoveTo 0 y; LineTo width y; Stroke])
  (* Vertical lines *)
  ++ grid_lines 10 (fun i =>
       let x := mul (div width 10) i in
       [BeginPath; MoveTo x 0; LineTo x height; Stroke])
  (* Center line (0 value) *)
  ++ [SetStrokeStyle "rgba(0, 243, 255, 0.3)"; SetLineWidth 2;
      BeginPath; MoveTo 0 (div height 2); LineTo width (div height 2); Stroke;
      (* Labels *)
      SetFillStyle "#a0a0a8"; SetFont "12px Share Tech Mono";
      FillText "+1.0" 10 20;
      FillText "0.0" 10 (sub (div height 2) 10);
      FillText "-1.0" 10 (sub height 10)].

(** The polyline of one trace. *)
Definition trace_path (maxPoints : nat) (width height : float) (values : list Js.jsval)
  : list CanvasOp :=
  let pointSpacing := div width (Js.of_nat maxPoints) in
  let midY := div height 2 in
  let scale := div height 2 in
  let len := Js.of_nat (List.length values) in
  mapi (fun i v =>
          let x := sub width (mul (sub len (Js.of_nat i)) pointSpacing) in
          let y := sub midY (mul (Js.ToNumber v) scale) in
          if i =? 0 then MoveTo x y else LineTo x y)
       values.

Definition drawOscilloscopeGraph (maxPoints : nat) (width height : float) (data : ScopeTrace)
  : list CanvasOp :=
  (* Redraw grid *)
  drawOscilloscopeGrid width height
  ++ (if List.length (trace_x data) <? 2 then []
      else
        (* Draw X-axis line (Cyan) *)
        [SetStrokeStyle "#00f3ff"; SetLineWidth 2; BeginPath]
        ++ trace_path maxPoints width height (trace_x data)
        ++ [Stroke;
            (* Draw Y-axis line (Pink) *)
            SetStrokeStyle "#ff00ff"; SetLineWidth 2; BeginPath]
        ++ trace_path maxPoints width height (trace_y data)
        ++ [Stroke;
            (* Legend *)
            SetFillStyle "#00f3ff"; FillText "X-Axis" (sub width 70) 20;
            SetFillStyle "#ff00ff"; FillText "Y-Axis" (sub width 70) 40]).

Definition axisOffset (s : Stick) : nat :=
  match s with
  | StickLeft => 0
  | StickRight => 2
  end.

Definition updateOscilloscope (gamepad : Gamepad) (timestamp : float) (w : World) : World :=
  (* Determine which stick to track *)
  let sel := selectedScope (tester w) in
  let xValue := Js.index (axes gamepad) (axisOffset sel) in
  let yValue := Js.index (axes gamepad) (axisOffset sel + 1) in
  (* Add data points *)
  let data := osc_get (oscilloscopeData (tester w)) sel in
  let xs := trace_x data ++ [xValue] in
  let ys := trace_y data ++ [yValue] in
  (* Limit array size *)
  let data' :=
    if osc_maxPoints (oscilloscopeData (tester w)) <? List.length xs
    then {| trace_x := tl xs; trace_y := tl ys |}
    else {| trace_x := xs; trace_y := ys |} in
  w |> on_tester (fun g => set_oscilloscopeData (osc_set (oscilloscopeData g) sel data') g)
    (* Redraw *)
    |> on_doc (fun d =>
         let canvas := oscilloscope_canvas d in
         set_oscilloscope_canvas
           (draw canvas
              (drawOscilloscopeGraph (osc_maxPoints (oscilloscopeData (tester w)))
                 (canvas_width canvas) (canvas_height canvas) data')) d).

Definition clearOscilloscope (w : World) : World :=
  w |> on_tester (fun g =>
         set_oscilloscopeData
           {| osc_left := {| trace_x := []; trace_y := [] |};
              osc_right := {| trace_x := []; trace_y := [] |};
              osc_maxPoints := osc_maxPoints (oscilloscopeData g);
              osc_timeOffset := osc_timeOffset (oscilloscopeData g) |} g)
    |> on_doc (fun d =>
         let canvas := oscilloscope_canvas d in
         set_oscilloscope_canvas
           (draw canvas (drawOscilloscopeGrid (canvas_width canvas) (canvas_height canvas))) d).

(** *** Circularity test (dead zone visualisation) *)

Definition drawCircularityGrid (width height : float) : list CanvasOp :=
  let centerX := div width 2 in
  let centerY := div height 2 in
  let radius := sub (div (Js.Math_min width height) 2) 20 in
  (* Clear *)
  [SetFillStyle "#0f0f12"; FillRect 0 0 width height;
   (* Draw grid *)
   SetStrokeStyle "rgba(0, 243, 255, 0.1)"; SetLineWidth 1;
   (* Vertical and horizontal center lines *)
   BeginPath; MoveTo centerX 0; LineTo centerX height;
   MoveTo 0 centerY; LineTo width centerY; Stroke;
   (* Perfect circle overlay (ideal stick movement) *)
   SetStrokeStyle "rgba(0, 243, 255, 0.3)"; SetLineWidth 2;
   BeginPath; Arc centerX centerY radius 0 (mul Math_PI 2); Stroke;
   (* Square boundary (maximum stick range) *)
   SetStrokeStyle "rgba(255, 0, 255, 0.2)";
   StrokeRect 20 20 (sub width 40) (sub height 40);
   (* Labels *)
   SetFillStyle "#a0a0a8"; SetFont "12px Share Tech Mono";
   FillText "+1" (add centerX 5) 25;
   FillText "-1" (add centerX 5) (sub height 10);
   FillText "-1" 10 (sub centerY 5);
   FillText "+1" (sub width 30) (sub centerY 5)].

(** [Math.sqrt(point.x * point.x + point.y * point.y)] *)
Definition distance (point : Point) : float :=
  let x := Js.ToNumber (point_x point) in
  let y := Js.ToNumber (point_y point) in
  sqrt (add (mul x x) (mul y y)).

(** The accumulation loop of the circularity error: [totalError] after
    visiting the points of [data] in order. *)
Definition totalError (data : list Point) : float :=
  fold_left (fun total point =>
               let distance := distance point in
               (* Only check points far from center *)
               if Js.gt distance 0.5 then
                 (* Error is the difference from 1.0 (perfect circle edge) *)
                 let error := abs (sub distance 1.0) in
                 add total error
               else total)
            data zero.

(** [(totalError / data.length) * 100] *)
Definition avgError (data : list Point) : float :=
  mul (div (totalError data) (Js.of_nat (List.length data))) 100.

Definition drawCircularityTest (w : World) : World :=
  let canvas := circularity_canvas (doc w) in
  let width := canvas_width canvas in
  let height := canvas_height canvas in
  let data := circ_get (circularityData (tester w)) (selectedCircle (tester w)) in
  (* Redraw grid *)
  let w1 := w |> on_doc (set_circularity_canvas
                           (draw canvas (drawCircularityGrid width height))) in
  if List.length data =? 0 then w1
  else
    let centerX := div width 2 in
    let centerY := div height 2 in
    let scale := sub (div (Js.Math_min width height) 2) 20 in
    (* Draw data points *)
    let dots :=
      [SetFillStyle "#00ff88"]
      ++ flat_map (fun point =>
           let x := add centerX (mul (Js.ToNumber (point_x point)) scale) in
           let y := add centerY (mul (Js.ToNumber (point_y point)) scale) in
           [BeginPath; Arc x y 2 0 (mul Math_PI 2); Fill]) data in
    let w2 := w1 |> on_doc (fun d =>
                set_circularity_canvas (draw (circularity_canvas d) dots) d) in
    (* Calculate circularity error *)
    if 10 <? List.length data then
      w2 |> on_doc (set_text "circularity-error" (Js.toFixed 2 (avgError data) +++ "%"))
    else w2.

(** The test guarding the push in [updateCircularity]:
    [Math.abs(xValue) > 0.1 || Math.abs(yValue) > 0.1]. *)
Definition moved_significantly (xValue yValue : Js.jsval) : bool :=
  Js.gt (abs (Js.ToNumber xValue)) 0.1 || Js.gt (abs (Js.ToNumber yValue)) 0.1.

Definition updateCircularity (gamepad : Gamepad) (w : World) : World :=
  (* Determine which stick to track *)
  let sel := selectedCircle (tester w) in
  let xValue := Js.index (axes gamepad) (axisOffset sel) in
  let yValue := Js.index (axes gamepad) (axisOffset sel + 1) in
  let w1 :=
    (* Only add point if stick is moved significantly *)
    if moved_significantly xValue yValue then
      w |> on_tester (fun g =>
             let cd := circularityData g in
             set_circularityData
               (circ_set cd sel
                  (Js.push_shift (circ_maxPoints cd) (circ_get cd sel)
                     {| point_x := xValue; point_y := yValue |})) g)
    else w in
  (* Redraw *)
  w1 |> drawCircularityTest.

Definition clearCircularity (w : World) : World :=
  w |> on_tester (fun g =>
         set_circularityData
           {| circ_left := []; circ_right := [];
              circ_maxPoints := circ_maxPoints (circularityData g) |} g)
    |> on_doc (fun d =>
         let canvas := circularity_canvas d in
         set_circularity_canvas
           (draw canvas (drawCircularityGrid (canvas_width canvas) (canvas_height canvas))) d)
    |> on_doc (set_text "circularity-error" "0.00%").

(** The 'change' listeners of the two radio groups. *)
Definition scope_axis_change (v : Stick) (w : World) : World :=
  w |> on_tester (set_selectedScope v).

Definition circle_axis_change (v : Stick) (w : World) : World :=
  w |> on_tester (set_selectedCircle v)
    |> clearCircularity.

(** *** Canvas setup *)

Definition setupCanvases (w : World) : World :=
  w |> on_doc (fun d =>
         set_oscilloscope_canvas
           (draw (oscilloscope_canvas d) [SetImageSmoothingEnabled false]) d)
    |> on_doc (fun d =>
         set_circularity_canvas
           (draw (circularity_canvas d) [SetImageSmoothingEnabled false]) d)
    (* Draw initial state *)
    |> on_doc (fun d =>
         let c := oscilloscope_canvas d in
         set_oscilloscope_canvas
           (draw c (drawOscilloscopeGrid (canvas_width c) (canvas_height c))) d)
    |> on_doc (fun d =>
         let c := circularity_canvas d in
         set_circularity_canvas
           (draw c (drawCircularityGrid (canvas_width c) (canvas_height c))) d).

(** *** Main polling loop *)

(** [requestAnimationFrame(pollGamepads)]: the handle is stored. *)
Definition requestAnimationFrame (w : World) : World :=
  {| tester := set_animationFrameId (Some (raf_next w)) (tester w);
     doc := doc w;
     raf_next := S (raf_next w) |}.

(** The first loop of [pollGamepads]: every non-empty slot is stored under
    its own index. *)
Definition store_snapshots (pads : list (option Gamepad)) (w : World) : World :=
  fold_left (fun w slot =>
               match slot with
               | Some g =>
                   w |> on_tester (fun t =>
                          set_gamepads (JsObj.set (gamepads t) (index g) g) t)
               | None => w
               end) pads w.

(** One run of [pollGamepads(timestamp)]: [frameTime] is the timestamp
    argument and [pads] what [navigator.getGamepads()] returns in that
    frame. *)
Definition pollGamepads (frameTime : float) (pads : list (option Gamepad)) (w : World)
  : World :=
  (* Update our stored gamepads with fresh data *)
  let w1 := store_snapshots pads w in
  (* Process the active gamepad *)
  let w2 :=
    match activeGamepadIndex (tester w1) with
    | Some active =>
        match JsObj.get (gamepads (tester w1)) active with
        | Some gamepad =>
            w1 |> updatePerformanceMetrics frameTime (timestamp gamepad)
               |> updateVisualController gamepad
               |> updateRawDataTable gamepad
               |> updateControllerInfo gamepad
               |> updateTriggerPressure gamepad
               |> updateOscilloscope gamepad frameTime
               |> updateCircularity gamepad
        | None => w1
        end
    | None => w1
    end in
  (* Continue the loop *)
  w2 |> requestAnimationFrame.

Definition startPolling (w : World) : World :=
  w |> requestAnimationFrame.

(** *** Initialisation *)

(** [navigator_getGamepads] is [None] when the browser has no Gamepad API,
    and otherwise what the call returns at page load. *)
Definition initializeApp (navigator_getGamepads : option (list (option Gamepad)))
  (w : World) : World :=
  match navigator_getGamepads with
  | None => w |> showCompatibilityModal
  | Some pads =>
      w |> setupCanvases
        |> startPolling
        |> checkExistingGamepads pads
  end.

(** *** Events *)

(** What the browser can deliver once the listeners are installed.  The
    haptics controls ([setupVibrationControls], [testVibration]) neither read
    nor write anything modelled here and are left out, as is console
    output. *)
Inductive Event : Type :=
| GamepadConnectedEvent (gamepad : Gamepad)
| GamepadDisconnectedEvent (gamepad : Gamepad)
| TabClick (index : nat)
| ScopeAxisChange (v : Stick)
| ClearScopeClick
| CircleAxisChange (v : Stick)
| ClearCircleClick
| AnimationFrame (timestamp : float) (pads : list (option Gamepad)).

(** A tab can be clicked when it exists and its container is shown. *)
Definition tab_exists (index : nat) (w : World) : bool :=
  negb (class (doc w) "controller-tabs" "hidden")
  && existsb (fun t => tab_index t =? index) (controller_tabs (doc w)).

Definition step (w : World) (e : Event) : World :=
  match e with
  | GamepadConnectedEvent g => handleGamepadConnected g w
  | GamepadDisconnectedEvent g => handleGamepadDisconnected g w
  | TabClick i => if tab_exists i w then tab_click i w else w
  | ScopeAxisChange v => scope_axis_change v w
  | ClearScopeClick => clearOscilloscope w
  | CircleAxisChange v => circle_axis_change v w
  | ClearCircleClick => clearCircularity w
  | AnimationFrame ts pads => pollGamepads ts pads w
  end.

Definition run (w : World) (es : list Event) : World :=
  fold_left step es w.

(** The world at script load, over a given page. *)
Definition World_init (d : Document) : World :=
  {| tester := GamepadTester_init; doc := d; raf_next := 1 |}.

(** A browsing session: the page [d] loads, [initializeApp] runs, and the
    events [es] are delivered in order. *)
Definition session (navigator_getGamepads : option (list (option Gamepad)))
  (d : Document) (es : list Event) : World :=
  run (initializeApp navigator_getGamepads (World_init d)) es.

(* ================================================================== *)
(** ** Notions used to state the properties                            *)
(* ================================================================== *)

(** The last [n] entries of a sequence: a sliding window. *)
Definition window (n : nat) {A : Type} (l : list A) : list A :=
  skipn (List.length l - n) l.

(** The Rate Estimator alone: [updatePerformanceMetrics] run on a sequence
    of (host timestamp, device timestamp) pairs. *)
Definition feed (w : World) (ticks : list (float * float)) : World :=
  fold_left (fun w '(currentTime, gamepadTimestamp) =>
               updatePerformanceMetrics currentTime gamepadTimestamp w) ticks w.

(** Frame deltas of a sequence of host timestamps following [prev]. *)
Fixpoint deltas_of (prev : float) (ts : list float) : list float :=
  match ts with
  | [] => []
  | t :: ts' => sub t prev :: deltas_of t ts'
  end.

(** The rate sample of each tick: 1000 over the mean of the delta window
    as it stood at that tick. *)
Definition rate_samples (deltas : list float) : list float :=
  map (fun k => div 1000 (Js.mean (window 60 (firstn k deltas))))
      (seq 1 (List.length deltas)).

(** The average rate as the specification words it:
    [1000 / mean(last 60 deltas)]. *)
Definition spec_avgRate (deltas : list float) : float :=
  div 1000 (Js.mean (window 60 deltas)).

(** The distance of a sample from the centre as the specification words
    it: [sqrt(x^2 + y^2)] of its two coordinates, read as numbers. *)
Definition spec_distance (p : Point) : float :=
  sqrt (add (mul (Js.ToNumber (point_x p)) (Js.ToNumber (point_x p)))
            (mul (Js.ToNumber (point_y p)) (Js.ToNumber (point_y p)))).

(** The circularity error as the specification words it: the sum, over the
    samples whose distance [sqrt(x^2 + y^2)] is above 0.5, of
    [|distance - 1.0|], divided by the number of all samples, times 100. *)
Definition spec_circularity_error (data : list Point) : float :=
  mul (div (Js.sum (map (fun p => abs (sub (spec_distance p) 1.0))
                        (filter (fun p => ltb 0.5 (spec_distance p)) data)))
           (Js.of_nat (List.length data)))
      100.

(** Two worlds that differ at most in their documents. *)
Definition same_session (w1 w2 : World) : Prop :=
  tester w1 = tester w2 /\ raf_next w1 = raf_next w2.

Definition other_stick (s : Stick) : Stick :=
  match s with
  | StickLeft => StickRight
  | StickRight => StickLeft
  end.

(** A value that is an infinity or NaN. *)
Definition non_finite (x : float) : bool := is_nan x || is_infinity x.

(** Bounds every reachable tester state satisfies. *)
Record bounded (g : GamepadTester) : Prop := mkBounded {
  bounded_deltas : List.length (frameDeltas (performance g)) <= 60;
  bounded_rates : List.length (pollingRates (performance g)) <= 60;
  bounded_osc_max : osc_maxPoints (oscilloscopeData g) = 200;
  bounded_osc : forall s,
      List.length (trace_x (osc_get (oscilloscopeData g) s)) <= 200
      /\ List.length (trace_y (osc_get (oscilloscopeData g) s))
         = List.length (trace_x (osc_get (oscilloscopeData g) s));
  bounded_circ_max : circ_maxPoints (circularityData g) = 1000;
  bounded_circ : forall s, List.length (circ_get (circularityData g) s) <= 1000
}.

(* ================================================================== *)
(** ** Sample pages, controllers and sessions                          *)
(* ================================================================== *)

Module Sample.

(** A page with empty read-outs and two canvases of the default size. *)
Definition page : Document :=
  {| text := fun _ => "";
     style := fun _ _ => "";
     class := fun _ _ => false;
     data_button := [];
     raw_data_table := [];
     controller_tabs := [];
     toast_container := [];
     oscilloscope_canvas := {| canvas_width := 300; canvas_height := 150; canvas_ops := [] |};
     circularity_canvas := {| canvas_width := 300; canvas_height := 300; canvas_ops := [] |} |}.

Definition button (v : float) : GamepadButton :=
  {| pressed := Js.gt v 0; value := v |}.

(** A standard-mapping pad: four axes, eighteen buttons, the two triggers
    at [lt] and [rt]. *)
Definition pad (i : nat) (ax : list float) (lt rt : float) : Gamepad :=
  {| index := i;
     id := "Pad";
     mapping := "standard";
     timestamp := 0;
     axes := ax;
     buttons := repeat (button 0) 6 ++ [button lt; button rt] ++ repeat (button 0) 10;
     vibrationActuator := false;
     hapticActuators := false |}.

(** A non-standard device that reports no axes and no buttons. *)
Definition bare_pad (i : nat) : Gamepad :=
  {| index := i; id := "Bare"; mapping := ""; timestamp := 0;
     axes := []; buttons := [];
     vibrationActuator := false; hapticActuators := false |}.

(** A world whose selected (left) stick retains [data]. *)
Definition with_circle (data : list Point) : World :=
  World_init page
    |> on_tester (set_circularityData
                    {| circ_left := data; circ_right := []; circ_maxPoints := 1000 |}).

Definition at_half : Point := {| point_x := Js.JNum 0.5; point_y := Js.JNum 0 |}.

(** A sample off both axes at distance exactly 0.5 (in binary64,
    [sqrt(0.3*0.3 + 0.4*0.4)] is 0.5), one well outside the 0.5 circle and
    one well inside it. *)
Definition half_off_axis : Point := {| point_x := Js.JNum 0.3; point_y := Js.JNum 0.4 |}.
Definition outer_off_axis : Point := {| point_x := Js.JNum 0.3; point_y := Js.JNum 0.7 |}.
Definition outer_flat : Point := {| point_x := Js.JNum 0.6; point_y := Js.JNum 0.2 |}.
Definition inner_off_axis : Point := {| point_x := Js.JNum 0.1; point_y := Js.JNum 0.2 |}.

(** Two standard pads connect and pad 0, the active one, is polled once
    with its left trigger half pressed. *)
Definition two_pads_session : list Event :=
  [GamepadConnectedEvent (pad 0 [0; 0; 0; 0]%float 0 0);
   GamepadConnectedEvent (pad 1 [0; 0; 0; 0]%float 0 0);
   AnimationFrame 16 [Some (pad 0 [0; 0; 0; 0]%float 0.5 0);
                      Some (pad 1 [0; 0; 0; 0]%float 0 0)]].

(** A device without axes or buttons connects and is polled once. *)
Definition bare_session : list Event :=
  [GamepadConnectedEvent (bare_pad 0);
   AnimationFrame 16 [Some (bare_pad 0)]].

(** A device with a single axis, pushed half way, connects and is polled. *)
Definition one_axis_session : list Event :=
  [GamepadConnectedEvent (pad 0 [0.5]%float 0 0);
   AnimationFrame 16 [Some (pad 0 [0.5]%float 0 0)]].

(** A pad whose left stick is held half way to the right connects and is
    polled once. *)
Definition half_left_session : list Event :=
  [GamepadConnectedEvent (pad 0 [0.5; 0; 0; 0]%float 0 0);
   AnimationFrame 16 [Some (pad 0 [0.5; 0; 0; 0]%float 0 0)]].

(** A pad whose left stick rests slightly off centre, inside the deadzone. *)
Definition drifting_pad : Gamepad := pad 0 [0.03; 0.5; 0; 0]%float 0.5 0.

(** The same resting offset with the left trigger barely touched: a value
    below the display deadzone of 0.05. *)
Definition light_touch_pad : Gamepad := pad 0 [0.03; 0.5; 0; 0]%float 0.03 0.

(** Host timestamps 10 ms apart for 61 frames, then one frame 1000 ms late:
    61 frame deltas in all. *)
Definition stall_ticks : list float :=
  map (fun k => mul 10 (Js.of_nat k)) (seq 1 61) ++ [1610%float].

End Sample.

(* ================================================================== *)
(** ** Further notions                                                 *)
(* ================================================================== *)

(** The controllers a snapshot array actually holds, in slot order. *)
Definition present (pads : list (option Gamepad)) : list Gamepad :=
  flat_map (fun slot => match slot with Some g => [g] | None => [] end) pads.

(** The indices under which controllers are stored. *)
Definition stored (w : World) : list nat := JsObj.keys (gamepads (tester w)).

(** The tab strip as the user can reach it: empty while the container
    carries the 'hidden' class. *)
Definition shown_tabs (d : Document) : list Tab :=
  if class d "controller-tabs" "hidden" then [] else controller_tabs d.

(** What the connection logic works on: the stored controllers, the active
    index and the reachable tabs. *)
Definition roster_of (w : World) : JsObj.t Gamepad * option nat * list Tab :=
  (gamepads (tester w), activeGamepadIndex (tester w), shown_tabs (doc w)).

(** The stored indices ascend, and the active index and every reachable tab
    name a stored controller. *)
Record roster_ok (w : World) : Prop := mkRosterOk {
  roster_sorted : StronglySorted lt (stored w);
  roster_active : forall a, activeGamepadIndex (tester w) = Some a -> In a (stored w);
  roster_tabs : forall t, In t (shown_tabs (doc w)) -> In (tab_index t) (stored w)
}.

(** The tracker's conditional insertion:
    [if (trigger > 0) set.add(trigger)]. *)
Definition track (s : JsSet.t) (v : float) : JsSet.t :=
  if Js.gt v 0 then JsSet.add s v else s.

(** No entry of [newest_first] equals, under SameValueZero, an entry
    inserted before it. *)
Fixpoint no_repeat (newest_first : list float) : bool :=
  match newest_first with
  | [] => true
  | v :: older => negb (JsSet.has older v) && no_repeat older
  end.

(** A trigger set holds positive values only, each once. *)
Definition tracked_ok (s : JsSet.t) : bool :=
  forallb (fun v => Js.gt v 0) s && no_repeat (rev s).

(** The controller snapshot a tick processes, if any: the stored snapshot
    of the active controller, looked up after the fresh snapshots have been
    stored. *)
Definition processed (pads : list (option Gamepad)) (w : World) : option Gamepad :=
  let w1 := store_snapshots pads w in
  match activeGamepadIndex (tester w1) with
  | Some active => JsObj.get (gamepads (tester w1)) active
  | None => None
  end.

(** The snapshots processed since the trigger sets were last emptied,
    oldest first: a click on an existing controller tab starts the record
    afresh, a tick that processes a snapshot extends it, and no other event
    touches it. *)
Definition observe (w : World) (e : Event) (seen : list Gamepad) : list Gamepad :=
  match e with
  | TabClick i => if tab_exists i w then [] else seen
  | AnimationFrame _ pads =>
      match processed pads w with
      | Some g => seen ++ [g]
      | None => seen
      end
  | _ => seen
  end.

Fixpoint since_reset (w : World) (es : list Event) (seen : list Gamepad)
  : list Gamepad :=
  match es with
  | [] => seen
  | e :: es' => since_reset (step w e) es' (observe w e seen)
  end.

(** A set holds exactly the values greater than 0 among [seen], each
    once. *)
Definition distinct_positive_of (seen : list float) (s : JsSet.t) : Prop :=
  NoDup s /\ forall v, In v s <-> In v seen /\ ltb 0 v = true.

(** The highlight a button's element is given:
    [button.pressed || button.value > 0.5]. *)
Definition highlighted (b : GamepadButton) : bool :=
  pressed b || Js.gt (value b) 0.5.

(** The sample page with elements for buttons 0, 6 and 20. *)
Definition page_with_buttons : Document :=
  set_data_button [(0, false); (6, false); (20, true)] Sample.page.

(** *** Utility functions of the script *)

(** [Math.max] of two numbers. *)
Definition Math_max (a b : float) : float :=
  if is_nan a || is_nan b then nan
  else if ltb a b then b
  else if ltb b a then a
  else if get_sign a then b else a.

(** [clamp(value, min, max)]: [Math.min(Math.max(value, min), max)]. *)
Definition clamp (value min max : float) : float :=
  Js.Math_min (Math_max value min) max.

(** [lerp(start, end, amount)]: [start + (end - start) * amount]. *)
Definition lerp (start end_ amount : float) : float :=
  add start (mul (sub end_ start) amount).

(** What the connection banner logic works on: the active index, whether
    the app content is hidden and whether the banner is marked connected. *)
Definition chrome_of (w : World) : option nat * bool * bool :=
  (activeGamepadIndex (tester w),
   class (doc w) "app-content" "hidden",
   class (doc w) "connection-status" "connected").

(** With no controller active, the app content is hidden and the banner is
    not marked connected. *)
Definition idle_chrome (w : World) : Prop :=
  activeGamepadIndex (tester w) = None ->
  class (doc w) "app-content" "hidden" = true
  /\ class (doc w) "connection-status" "connected" = false.

(** The circularity updates of a run of ticks, one processed controller
    snapshot per tick. *)
Definition circularity_ticks (w : World) (snapshots : list Gamepad) : World :=
  fold_left (fun w g => updateCircularity g w) snapshots w.

(* ================================================================== *)
(** ** Basic facts about the building blocks                           *)
(* ================================================================== *)

Section Lists.
Context {A : Type}.

Lemma push_shift_length_le (n : nat) (l : list A) (v : A) :
  List.length l <= n -> List.length (Js.push_shift n l v) <= n.
Proof.
  intros Hl. unfold Js.push_shift.
  destruct (Nat.ltb_spec n (List.length (l ++ [v]))) as [Hlt | Hge].
  - destruct (l ++ [v]) eqn:E; simpl in *; [lia |].
    assert (List.length (l ++ [v]) = S (List.length l0)) by (rewrite E; reflexivity).
    rewrite length_app in H. simpl in H. lia.
  - exact Hge.
Qed.

(** Below the bound the value is appended; at the bound the oldest entry
    leaves as the new one enters. *)
Lemma push_shift_eq (n : nat) (l : list A) (v : A) :
  0 < n -> List.length l <= n ->
  Js.push_shift n l v = if List.length l =? n then tl l ++ [v] else l ++ [v].
Proof.
  intros Hn Hl. unfold Js.push_shift. rewrite length_app. simpl.
  destruct (Nat.eqb_spec (List.length l) n) as [He | Hne];
    destruct (Nat.ltb_spec n (List.length l + 1)) as [Hlt | Hge]; try lia.
  - destruct l; [simpl in He; lia | reflexivity].
  - reflexivity.
Qed.

Lemma window_all (n : nat) (l : list A) :
  List.length l <= n -> window n l = l.
Proof.
  intros H. unfold window. replace (List.length l - n) with 0 by lia. reflexivity.
Qed.

Lemma window_length (n : nat) (l : list A) :
  List.length (window n l) = Nat.min n (List.length l).
Proof. unfold window. rewrite length_skipn. lia. Qed.

(** Pushing onto a window gives the window of the extended sequence. *)
Lemma push_shift_window (n : nat) (l : list A) (v : A) :
  0 < n -> Js.push_shift n (window n l) v = window n (l ++ [v]).
Proof.
  intros Hn. rewrite push_shift_eq by (try rewrite window_length; lia).
  rewrite window_length. unfold window. rewrite length_app. simpl.
  destruct (Nat.eqb_spec (Nat.min n (List.length l)) n) as [E | E].
  - assert (Hle : n <= List.length l) by lia.
    replace (List.length l + 1 - n) with (S (List.length l - n)) by lia.
    rewrite skipn_app.
    replace (S (List.length l - n) - List.length l) with 0 by lia. simpl.
    f_equal.
    remember (List.length l - n) as k eqn:Hk.
    assert (Hk' : k < List.length l) by lia.
    clear - Hk'. revert k Hk'.
    induction l as [| a l IH]; intros k Hk'; simpl in *; [lia |].
    destruct k as [| k]; [reflexivity |].
    simpl. destruct l as [| b l'].
    + simpl in Hk'. lia.
    + specialize (IH k). simpl in IH. apply IH. simpl in Hk'. lia.
  - assert (Hlt : List.length l < n) by lia.
    replace (List.length l - n) with 0 by lia.
    replace (List.length l + 1 - n) with 0 by lia.
    reflexivity.
Qed.

End Lists.

(** *** What each function leaves alone *)

Section Frames.
Implicit Types (w : World) (g : Gamepad).

Lemma tester_updateConnectionStatus w (b : bool) :
  tester (updateConnectionStatus b w) = tester w.
Proof. destruct b; reflexivity. Qed.

Lemma tester_createControllerTabs w : tester (createControllerTabs w) = tester w.
Proof.
  unfold createControllerTabs.
  destruct (_ =? 0); [reflexivity |]. destruct (_ =? 1); reflexivity.
Qed.

Lemma tester_checkVibrationSupport w (g : Gamepad) :
  tester (checkVibrationSupport g w) = tester w.
Proof. unfold checkVibrationSupport. destruct (_ || _); reflexivity. Qed.

(** The visual controller, where the deadzone lives, writes to the page only. *)
Lemma tester_updateVisualController w (g : Gamepad) :
  tester (updateVisualController g w) = tester w.
Proof. reflexivity. Qed.

Lemma tester_updateRawDataTable w (g : Gamepad) :
  tester (updateRawDataTable g w) = tester w.
Proof. reflexivity. Qed.

Lemma tester_updateControllerInfo w (g : Gamepad) :
  tester (updateControllerInfo g w) = tester w.
Proof. reflexivity. Qed.

Lemma tester_drawCircularityTest w : tester (drawCircularityTest w) = tester w.
Proof.
  unfold drawCircularityTest.
  destruct (_ =? 0); [reflexivity |]. destruct (10 <? _); reflexivity.
Qed.

Lemma tester_handleGamepadConnected w (g : Gamepad) :
  tester (handleGamepadConnected g w)
  = set_activeGamepadIndex
      (match activeGamepadIndex (tester w) with
       | None => Some (index g)
       | Some a => Some a
       end)
      (set_gamepads (JsObj.set (gamepads (tester w)) (index g) g) (tester w)).
Proof.
  unfold handleGamepadConnected.
  rewrite tester_checkVibrationSupport.
  unfold showToast. cbn [on_doc tester].
  rewrite tester_createControllerTabs.
  unfold showAppContent. cbn [on_doc tester].
  rewrite tester_updateConnectionStatus.
  cbn [on_tester tester].
  unfold set_activeGamepadIndex, set_gamepads. cbn.
  destruct (activeGamepadIndex (tester w)) eqn:E; cbn; rewrite ?E; reflexivity.
Qed.

Lemma tester_handleGamepadDisconnected w (g : Gamepad) :
  tester (handleGamepadDisconnected g w)
  = let remaining := JsObj.delete (gamepads (tester w)) (index g) in
    set_activeGamepadIndex
      (match activeGamepadIndex (tester w) with
       | Some a =>
           if a =? index g then
             match JsObj.keys remaining with
             | first :: _ => Some first
             | [] => None
             end
           else Some a
       | None => None
       end)
      (set_gamepads remaining (tester w)).
Proof.
  unfold handleGamepadDisconnected.
  rewrite tester_createControllerTabs.
  cbn [showToast on_doc on_tester tester set_gamepads activeGamepadIndex gamepads].
  unfold set_activeGamepadIndex, set_gamepads. cbn.
  destruct (activeGamepadIndex (tester w)) as [a |] eqn:E; cbn; rewrite ?E;
    [| reflexivity].
  destruct (a =? index g); cbn; rewrite ?E; [| reflexivity].
  destruct (JsObj.keys _); reflexivity.
Qed.

Lemma tester_tab_click w (i : nat) :
  tester (tab_click i w)
  = set_triggerTracking {| tt_left := []; tt_right := [] |}
      (set_activeGamepadIndex (Some i) (tester w)).
Proof.
  unfold tab_click. cbn [on_tester tester].
  rewrite tester_createControllerTabs. reflexivity.
Qed.

Lemma tester_updatePerformanceMetrics w (currentTime gamepadTimestamp : float) :
  tester (updatePerformanceMetrics currentTime gamepadTimestamp w)
  = let p := performance (tester w) in
    set_performance
      (if Js.gt (lastTimestamp p) 0 then
         let deltas := Js.push_shift 60 (frameDeltas p) (sub currentTime (lastTimestamp p)) in
         {| lastTimestamp := currentTime;
            frameDeltas := deltas;
            pollingRates :=
              Js.push_shift 60 (pollingRates p) (div 1000 (Js.mean deltas)) |}
       else
         {| lastTimestamp := currentTime;
            frameDeltas := frameDeltas p;
            pollingRates := pollingRates p |})
      (tester w).
Proof.
  unfold updatePerformanceMetrics. cbn zeta.
  destruct (Js.gt (lastTimestamp (performance (tester w))) 0); reflexivity.
Qed.

Lemma tester_updateTriggerPressure w (g : Gamepad) :
  tester (updateTriggerPressure g w)
  = let tt := triggerTracking (tester w) in
    let track (s : JsSet.t) (v : float) := if Js.gt v 0 then JsSet.add s v else s in
    set_triggerTracking
      {| tt_left := track (tt_left tt) (trigger_value g 6);
         tt_right := track (tt_right tt) (trigger_value g 7) |}
      (tester w).
Proof. reflexivity. Qed.

Lemma tester_updateOscilloscope w (g : Gamepad) (ts : float) :
  tester (updateOscilloscope g ts w)
  = let sel := selectedScope (tester w) in
    let od := oscilloscopeData (tester w) in
    let xs := trace_x (osc_get od sel) ++ [Js.index (axes g) (axisOffset sel)] in
    let ys := trace_y (osc_get od sel) ++ [Js.index (axes g) (axisOffset sel + 1)] in
    set_oscilloscopeData
      (osc_set od sel
         (if osc_maxPoints od <? List.length xs
          then {| trace_x := tl xs; trace_y := tl ys |}
          else {| trace_x := xs; trace_y := ys |}))
      (tester w).
Proof. reflexivity. Qed.

Lemma tester_updateCircularity w (g : Gamepad) :
  tester (updateCircularity g w)
  = let sel := selectedCircle (tester w) in
    let cd := circularityData (tester w) in
    let xValue := Js.index (axes g) (axisOffset sel) in
    let yValue := Js.index (axes g) (axisOffset sel + 1) in
    if moved_significantly xValue yValue
    then set_circularityData
           (circ_set cd sel
              (Js.push_shift (circ_maxPoints cd) (circ_get cd sel)
                 {| point_x := xValue; point_y := yValue |}))
           (tester w)
    else tester w.
Proof.
  unfold updateCircularity. cbn zeta.
  rewrite tester_drawCircularityTest.
  destruct (moved_significantly _ _); reflexivity.
Qed.

End Frames.

(** *** The bounds are kept by every handler *)

Section Bounds.
Implicit Types (w : World) (g : Gamepad) (t : GamepadTester).

Lemma bounded_same t t' :
  performance t' = performance t ->
  oscilloscopeData t' = oscilloscopeData t ->
  circularityData t' = circularityData t ->
  bounded t -> bounded t'.
Proof.
  intros Hp Ho Hc [H1 H2 H3 H4 H5 H6].
  constructor; rewrite ?Hp, ?Ho, ?Hc; assumption.
Qed.

Lemma bounded_init (d : Document) : bounded (tester (World_init d)).
Proof.
  constructor; cbn; try lia; try reflexivity.
  - intros []; cbn; split; (lia || reflexivity).
  - intros []; cbn; lia.
Qed.

Lemma bounded_updatePerformanceMetrics w (c gts : float) :
  bounded (tester w) -> bounded (tester (updatePerformanceMetrics c gts w)).
Proof.
  intros [H1 H2 H3 H4 H5 H6]. rewrite tester_updatePerformanceMetrics. cbn zeta.
  constructor; try assumption;
    cbn [set_performance performance];
    destruct (Js.gt _ 0); cbn [frameDeltas pollingRates]; try assumption;
    apply push_shift_length_le; assumption.
Qed.

Lemma bounded_updateTriggerPressure w g :
  bounded (tester w) -> bounded (tester (updateTriggerPressure g w)).
Proof. rewrite tester_updateTriggerPressure. apply bounded_same; reflexivity. Qed.

Lemma osc_get_set (d : OscilloscopeData) (s s' : Stick) (tr : ScopeTrace) :
  osc_get (osc_set d s tr) s' = if match s, s' with
                                   | StickLeft, StickLeft | StickRight, StickRight => true
                                   | _, _ => false
                                   end then tr else osc_get d s'.
Proof. destruct s, s'; reflexivity. Qed.

Lemma circ_get_set (d : CircularityData) (s s' : Stick) (l : list Point) :
  circ_get (circ_set d s l) s' = if match s, s' with
                                    | StickLeft, StickLeft | StickRight, StickRight => true
                                    | _, _ => false
                                    end then l else circ_get d s'.
Proof. destruct s, s'; reflexivity. Qed.

Lemma osc_maxPoints_set (d : OscilloscopeData) (s : Stick) (tr : ScopeTrace) :
  osc_maxPoints (osc_set d s tr) = osc_maxPoints d.
Proof. destruct s; reflexivity. Qed.

Lemma circ_maxPoints_set (d : CircularityData) (s : Stick) (l : list Point) :
  circ_maxPoints (circ_set d s l) = circ_maxPoints d.
Proof. destruct s; reflexivity. Qed.

Lemma length_tl {A : Type} (l : list A) : List.length (tl l) = List.length l - 1.
Proof. destruct l; simpl; lia. Qed.

Lemma bounded_updateOscilloscope w g (ts : float) :
  bounded (tester w) -> bounded (tester (updateOscilloscope g ts w)).
Proof.
  intros [H1 H2 H3 H4 H5 H6]. rewrite tester_updateOscilloscope. cbn zeta.
  constructor; cbn [set_oscilloscopeData performance oscilloscopeData circularityData];
    try assumption.
  - rewrite osc_maxPoints_set. assumption.
  - intros s'. rewrite osc_get_set.
    destruct (match selectedScope (tester w) with StickLeft => _ | StickRight => _ end);
      [| apply H4].
    destruct (H4 (selectedScope (tester w))) as [Hx Hy].
    rewrite H3.
    destruct (Nat.ltb_spec 200
                (List.length (trace_x (osc_get (oscilloscopeData (tester w))
                                               (selectedScope (tester w)))
                              ++ [Js.index (axes g) (axisOffset (selectedScope (tester w)))])))
      as [Hlt | Hge]; cbn [trace_x trace_y];
      rewrite ?length_tl, ?length_app in *; simpl in *; lia.
Qed.

Lemma bounded_updateCircularity w g :
  bounded (tester w) -> bounded (tester (updateCircularity g w)).
Proof.
  intros H. rewrite tester_updateCircularity. cbn zeta.
  destruct (moved_significantly _ _); [| assumption].
  destruct H as [H1 H2 H3 H4 H5 H6].
  constructor; cbn [set_circularityData performance oscilloscopeData circularityData];
    try assumption.
  - rewrite circ_maxPoints_set. assumption.
  - intros s'. rewrite circ_get_set.
    destruct (match selectedCircle (tester w) with StickLeft => _ | StickRight => _ end);
      [| apply H6].
    rewrite H5. apply push_shift_length_le. apply H6.
Qed.

Lemma bounded_clearOscilloscope w :
  bounded (tester w) -> bounded (tester (clearOscilloscope w)).
Proof.
  intros [H1 H2 H3 H4 H5 H6].
  constructor; cbn; try assumption.
  intros []; cbn; split; (lia || reflexivity).
Qed.

Lemma bounded_clearCircularity w :
  bounded (tester w) -> bounded (tester (clearCircularity w)).
Proof.
  intros [H1 H2 H3 H4 H5 H6].
  constructor; cbn; try assumption.
  intros []; cbn; lia.
Qed.

(** Storing the frame's snapshots only touches [gamepads]. *)
Lemma tester_store_snapshots (pads : list (option Gamepad)) w :
  exists o, tester (store_snapshots pads w) = set_gamepads o (tester w).
Proof.
  unfold store_snapshots.
  revert w. induction pads as [| [g |] pads IH]; intros w; cbn [fold_left].
  - exists (gamepads (tester w)). destruct (tester w); reflexivity.
  - destruct (IH (on_tester (fun t => set_gamepads (JsObj.set (gamepads t) (index g) g) t) w))
      as [o Ho].
    exists o. rewrite Ho. reflexivity.
  - apply IH.
Qed.

Lemma bounded_pollGamepads w (ts : float) (pads : list (option Gamepad)) :
  bounded (tester w) -> bounded (tester (pollGamepads ts pads w)).
Proof.
  intros H. unfold pollGamepads. cbn zeta.
  destruct (tester_store_snapshots pads w) as [o Ho].
  set (w1 := store_snapshots pads w) in *.
  assert (H1 : bounded (tester w1)).
  { rewrite Ho. revert H. apply bounded_same; reflexivity. }
  assert (Hraf : forall w', bounded (tester w') -> bounded (tester (requestAnimationFrame w'))).
  { intros w'. apply bounded_same; reflexivity. }
  apply Hraf.
  destruct (activeGamepadIndex (tester w1)) as [a |]; [| assumption].
  destruct (JsObj.get (gamepads (tester w1)) a) as [g |]; [| assumption].
  apply bounded_updateCircularity, bounded_updateOscilloscope,
    bounded_updateTriggerPressure.
  rewrite tester_updateControllerInfo, tester_updateRawDataTable,
    tester_updateVisualController.
  apply bounded_updatePerformanceMetrics. assumption.
Qed.

Lemma bounded_step w (e : Event) :
  bounded (tester w) -> bounded (tester (step w e)).
Proof.
  intros H. destruct e as [g | g | i | v | | v | | ts pads]; cbn [step].
  - rewrite tester_handleGamepadConnected. revert H. apply bounded_same; reflexivity.
  - rewrite tester_handleGamepadDisconnected. revert H. apply bounded_same; reflexivity.
  - destruct (tab_exists i w); [| assumption].
    rewrite tester_tab_click. revert H. apply bounded_same; reflexivity.
  - revert H. apply bounded_same; reflexivity.
  - apply bounded_clearOscilloscope. assumption.
  - unfold circle_axis_change. apply bounded_clearCircularity.
    revert H. apply bounded_same; reflexivity.
  - apply bounded_clearCircularity. assumption.
  - apply bounded_pollGamepads. assumption.
Qed.

Lemma bounded_run (es : list Event) w :
  bounded (tester w) -> bounded (tester (run w es)).
Proof.
  revert w. induction es as [| e es IH]; intros w H; cbn [run fold_left].
  - assumption.
  - apply IH. apply bounded_step. assumption.
Qed.

Lemma bounded_checkExistingGamepads (pads : list (option Gamepad)) w :
  bounded (tester w) -> bounded (tester (checkExistingGamepads pads w)).
Proof.
  unfold checkExistingGamepads.
  revert w. induction pads as [| [g |] pads IH]; intros w H; cbn [fold_left].
  - assumption.
  - apply IH. rewrite tester_handleGamepadConnected.
    revert H. apply bounded_same; reflexivity.
  - apply IH, H.
Qed.

Lemma bounded_initializeApp (nav : option (list (option Gamepad))) w :
  bounded (tester w) -> bounded (tester (initializeApp nav w)).
Proof.
  intros H. destruct nav as [pads |]; cbn [initializeApp].
  - apply bounded_checkExistingGamepads.
    revert H. apply bounded_same; reflexivity.
  - assumption.
Qed.

(** Every state of every session, on any page, is within bounds. *)
Lemma bounded_session (nav : option (list (option Gamepad))) (d : Document)
  (es : list Event) :
  bounded (tester (session nav d es)).
Proof. apply bounded_run, bounded_initializeApp, bounded_init. Qed.

End Bounds.

(* ================================================================== *)
(** ** Connection handling                                             *)
(* ================================================================== *)

(** C10.  Handling a controller-connected event makes the newly connected
    controller the active one when no controller is active, and leaves the
    active selection as it is when one already is. *)
Theorem handleGamepadConnected_active (gamepad : Gamepad) (w : World) :
  activeGamepadIndex (tester (handleGamepadConnected gamepad w))
  = match activeGamepadIndex (tester w) with
    | None => Some (index gamepad)
    | Some active => Some active
    end.
Proof. rewrite tester_handleGamepadConnected. reflexivity. Qed.

(* ================================================================== *)
(** ** Circularity buffer                                              *)
(* ================================================================== *)

(** C6.  In every state of every session, [updateCircularity]
    appends the sample (x, y) of the selected stick exactly when |x| > 0.1 or
    |y| > 0.1, dropping the oldest entry when 1000 are already retained;
    (0.05, 0.03) is rejected and (0.12, 0.0) accepted; and no scatter set ever
    holds more than 1000 entries. *)
Theorem circularity_buffer_accepts
  (nav : option (list (option Gamepad))) (d : Document) (es : list Event)
  (gamepad : Gamepad) :
  let w := session nav d es in
  let sel := selectedCircle (tester w) in
  let xValue := Js.index (axes gamepad) (axisOffset sel) in
  let yValue := Js.index (axes gamepad) (axisOffset sel + 1) in
  let sample := {| point_x := xValue; point_y := yValue |} in
  let old := circ_get (circularityData (tester w)) sel in
  let new := circ_get (circularityData (tester (updateCircularity gamepad w))) sel in
  (moved_significantly xValue yValue = true
   <-> ltb 0.1 (abs (Js.ToNumber xValue)) = true
       \/ ltb 0.1 (abs (Js.ToNumber yValue)) = true)
  /\ new = (if moved_significantly xValue yValue
            then (if List.length old =? 1000 then tl old ++ [sample] else old ++ [sample])
            else old)
  /\ List.length new <= 1000
  /\ (forall s, List.length (circ_get (circularityData (tester w)) s) <= 1000)
  /\ moved_significantly (Js.JNum 0.05) (Js.JNum 0.03) = false
  /\ moved_significantly (Js.JNum 0.12) (Js.JNum 0.0) = true.
Proof.
  intros w sel xValue yValue sample old new.
  pose proof (bounded_session nav d es) as Hb. fold w in Hb.
  pose proof (bounded_updateCircularity w gamepad Hb) as Hb'.
  destruct Hb as [_ _ _ _ Hmax Hlen].
  split.
  { unfold moved_significantly, Js.gt. apply orb_true_iff. }
  split.
  { subst new. rewrite tester_updateCircularity. cbn zeta.
    fold sel xValue yValue sample.
    destruct (moved_significantly xValue yValue); [| reflexivity].
    cbn [set_circularityData circularityData]. rewrite circ_get_set.
    replace (match sel with StickLeft => _ | StickRight => _ end) with true
      by (destruct sel; reflexivity).
    rewrite Hmax. apply push_shift_eq; [lia | apply Hlen]. }
  split.
  { subst new sel.
    replace (selectedCircle (tester w))
      with (selectedCircle (tester (updateCircularity gamepad w))).
    - apply Hb'.
    - rewrite tester_updateCircularity. cbn zeta.
      destruct (moved_significantly _ _); reflexivity. }
  split; [exact Hlen |].
  split; vm_compute; reflexivity.
Qed.

(* ================================================================== *)
(** ** Oscilloscope buffer                                             *)
(* ================================================================== *)

(** C7.  In every state of every session, the X and Y sequences of
    each stick's oscilloscope trace have the same length, at most 200; and
    [updateOscilloscope] appends to both, dropping the oldest sample of both
    together when 200 are already retained. *)
Theorem oscilloscope_buffers_lockstep
  (nav : option (list (option Gamepad))) (d : Document) (es : list Event)
  (gamepad : Gamepad) (timestamp : float) :
  let w := session nav d es in
  let sel := selectedScope (tester w) in
  let xValue := Js.index (axes gamepad) (axisOffset sel) in
  let yValue := Js.index (axes gamepad) (axisOffset sel + 1) in
  let old := osc_get (oscilloscopeData (tester w)) sel in
  let new := osc_get (oscilloscopeData (tester (updateOscilloscope gamepad timestamp w))) sel in
  (forall s,
      List.length (trace_x (osc_get (oscilloscopeData (tester w)) s)) <= 200
      /\ List.length (trace_y (osc_get (oscilloscopeData (tester w)) s))
         = List.length (trace_x (osc_get (oscilloscopeData (tester w)) s)))
  /\ trace_x new = (if List.length (trace_x old) =? 200
                    then tl (trace_x old) ++ [xValue] else trace_x old ++ [xValue])
  /\ trace_y new = (if List.length (trace_y old) =? 200
                    then tl (trace_y old) ++ [yValue] else trace_y old ++ [yValue])
  /\ List.length (trace_x new) <= 200
  /\ List.length (trace_y new) = List.length (trace_x new).
Proof.
  intros w sel xValue yValue old new.
  pose proof (bounded_session nav d es) as Hb. fold w in Hb.
  pose proof (bounded_updateOscilloscope w gamepad timestamp Hb) as Hb'.
  destruct Hb as [_ _ Hmax Hlen _ _].
  destruct (Hlen sel) as [Hx Hy]. fold old in Hx, Hy.
  assert (Hnew : new = if List.length (trace_x old) =? 200
                       then {| trace_x := tl (trace_x old) ++ [xValue];
                               trace_y := tl (trace_y old) ++ [yValue] |}
                       else {| trace_x := trace_x old ++ [xValue];
                               trace_y := trace_y old ++ [yValue] |}).
  { subst new. rewrite tester_updateOscilloscope. cbn zeta.
    fold sel xValue yValue old.
    cbn [set_oscilloscopeData oscilloscopeData]. rewrite osc_get_set.
    replace (match sel with StickLeft => _ | StickRight => _ end) with true
      by (destruct sel; reflexivity).
    rewrite Hmax, length_app. simpl.
    destruct (Nat.eqb_spec (List.length (trace_x old)) 200) as [E | E];
      destruct (Nat.ltb_spec 200 (List.length (trace_x old) + 1)); try lia.
    - destruct (trace_x old), (trace_y old); simpl in *; try lia; reflexivity.
    - reflexivity. }
  split; [exact Hlen |].
  rewrite Hy, Hnew.
  destruct (Nat.eqb_spec (List.length (trace_x old)) 200) as [E | E];
    cbn [trace_x trace_y];
    repeat split; rewrite ?length_app, ?length_tl; simpl; lia.
Qed.

(* ================================================================== *)
(** ** Circularity error and clearing                                  *)
(* ================================================================== *)

Section CircularityError.

(** The accumulation loop adds up exactly the errors of the samples that
    pass the 0.5 test, in order. *)
Lemma totalError_fold (data : list Point) (acc : float) :
  fold_left (fun total point =>
               if Js.gt (distance point) 0.5
               then add total (abs (sub (distance point) 1.0))
               else total) data acc
  = fold_left add (map (fun p => abs (sub (distance p) 1.0))
                       (filter (fun p => Js.gt (distance p) 0.5) data)) acc.
Proof.
  revert acc. induction data as [| p data IH]; intros acc; cbn [fold_left filter map].
  - reflexivity.
  - destruct (Js.gt (distance p) 0.5); cbn [fold_left map]; apply IH.
Qed.

(** The helper's distance is the Euclidean one of the two coordinates. *)
Lemma distance_spec (p : Point) : distance p = spec_distance p.
Proof. reflexivity. Qed.

Lemma avgError_spec (data : list Point) : avgError data = spec_circularity_error data.
Proof.
  unfold avgError, spec_circularity_error, totalError, Js.sum.
  rewrite <- (map_ext _ _ (fun p => f_equal (fun d => abs (sub d 1.0)) (distance_spec p))).
  rewrite <- (filter_ext _ _ (fun p => f_equal (ltb 0.5) (distance_spec p))).
  change (fun a : Point => ltb 0.5 (distance a))
    with (fun p : Point => Js.gt (distance p) 0.5).
  rewrite <- totalError_fold. reflexivity.
Qed.

(** Samples at distance exactly 0.5 do not pass the strict test. *)
Lemma totalError_at_half (data : list Point) :
  Forall (fun p => distance p = 0.5%float) data -> totalError data = zero.
Proof.
  intros H. unfold totalError. generalize zero as acc.
  induction H as [| p data Hp _ IH]; intros acc; cbn [fold_left].
  - reflexivity.
  - rewrite Hp. replace (Js.gt 0.5 0.5) with false by reflexivity. apply IH.
Qed.

Lemma text_drawCircularityTest (w : World) :
  text (doc (drawCircularityTest w)) "circularity-error"
  = let data := circ_get (circularityData (tester w)) (selectedCircle (tester w)) in
    if 10 <? List.length data
    then Js.toFixed 2 (avgError data) +++ "%"
    else text (doc w) "circularity-error".
Proof.
  unfold drawCircularityTest. cbn zeta.
  destruct (circ_get _ _) as [| p data]; [reflexivity |].
  cbn [List.length Nat.eqb].
  destruct (10 <? S (List.length data)); reflexivity.
Qed.

End CircularityError.

(** C1.  When more than 10 samples are retained for the selected stick, the
    reported circularity error is the sum of |distance - 1.0| over the
    retained samples whose distance sqrt(x^2 + y^2) is strictly above 0.5,
    divided by the number of all retained samples, times 100, shown with two
    decimals; samples at distance exactly 0.5 add nothing, so 20 of them
    report 0.00%; with 10 samples or fewer the read-out is left as it was.
    The distance is spelled out on the coordinates, not taken from the
    script's helper. *)
Theorem circularity_error_reported (w : World) :
  let data := circ_get (circularityData (tester w)) (selectedCircle (tester w)) in
  let shown (w' : World) := text (doc w') "circularity-error" in
  let x (p : Point) := Js.ToNumber (point_x p) in
  let y (p : Point) := Js.ToNumber (point_y p) in
  (10 < List.length data ->
   shown (drawCircularityTest w) = Js.toFixed 2 (spec_circularity_error data) +++ "%"
   /\ spec_circularity_error data
      = mul (div (Js.sum
                    (map (fun p => abs (sub (sqrt (add (mul (x p) (x p))
                                                       (mul (y p) (y p)))) 1.0))
                         (filter (fun p => ltb 0.5 (sqrt (add (mul (x p) (x p))
                                                              (mul (y p) (y p)))))
                                 data)))
                 (Js.of_nat (List.length data)))
            100)
  /\ (List.length data = 20 ->
      Forall (fun p => sqrt (add (mul (x p) (x p)) (mul (y p) (y p))) = 0.5%float) data ->
      shown (drawCircularityTest w) = "0.00%")
  /\ (List.length data <= 10 -> shown (drawCircularityTest w) = shown w).
Proof.
  intros data shown x y. unfold shown. rewrite text_drawCircularityTest. cbn zeta.
  fold data. split; [| split].
  - intros H. apply Nat.ltb_lt in H. rewrite H, avgError_spec.
    split; reflexivity.
  - intros Hlen Hhalf. rewrite Hlen. cbn [Nat.ltb Nat.leb].
    unfold avgError. rewrite (totalError_at_half data Hhalf), Hlen.
    vm_compute. reflexivity.
  - intros H. apply Nat.ltb_ge in H. rewrite H. reflexivity.
Qed.

Lemma circularity_error_reported_witness :
  text (doc (drawCircularityTest (Sample.with_circle (repeat Sample.half_off_axis 20))))
       "circularity-error" = "0.00%"
  /\ text (doc (drawCircularityTest (Sample.with_circle (repeat Sample.at_half 20))))
          "circularity-error" = "0.00%"
  /\ text (doc (drawCircularityTest
                  (Sample.with_circle (repeat Sample.outer_off_axis 11))))
          "circularity-error" = "23.84%"
  /\ text (doc (drawCircularityTest
                  (Sample.with_circle (repeat Sample.outer_flat 8
                                       ++ repeat Sample.inner_off_axis 4))))
          "circularity-error" = "24.50%"
  /\ text (doc (drawCircularityTest (Sample.with_circle (repeat Sample.outer_off_axis 10))))
          "circularity-error" = "".
Proof.
  split; [| split; [| split; [| split]]].
  - apply (proj1 (proj2 (circularity_error_reported
                           (Sample.with_circle (repeat Sample.half_off_axis 20))))).
    + reflexivity.
    + repeat constructor.
  - apply (proj1 (proj2 (circularity_error_reported
                           (Sample.with_circle (repeat Sample.at_half 20))))).
    + reflexivity.
    + repeat constructor.
  - refine (eq_trans
              (proj1 (proj1 (circularity_error_reported
                               (Sample.with_circle (repeat Sample.outer_off_axis 11))) _))
              _).
    + vm_compute. lia.
    + vm_compute. reflexivity.
  - refine (eq_trans
              (proj1 (proj1 (circularity_error_reported
                               (Sample.with_circle
                                  (repeat Sample.outer_flat 8
                                   ++ repeat Sample.inner_off_axis 4))) _))
              _).
    + vm_compute. lia.
    + vm_compute. reflexivity.
  - apply (proj2 (proj2 (circularity_error_reported
                           (Sample.with_circle (repeat Sample.outer_off_axis 10))))).
    vm_compute. lia.
Defined.

(** X21.  Only the selected stick ever retains samples: in every state of
    every session the other stick's scatter set is empty. *)
Lemma unselected_circle_empty
  (nav : option (list (option Gamepad))) (d : Document) (es : list Event) :
  let t := tester (session nav d es) in
  circ_get (circularityData t) (other_stick (selectedCircle t)) = [].
Proof.
  cbn zeta. unfold session.
  assert (Hstart : circ_get (circularityData (tester (initializeApp nav (World_init d))))
                     (other_stick (selectedCircle
                                     (tester (initializeApp nav (World_init d))))) = []).
  { destruct nav as [pads |]; cbn [initializeApp]; [| reflexivity].
    unfold checkExistingGamepads.
    assert (H0 : forall w0,
               circ_get (circularityData (tester w0))
                        (other_stick (selectedCircle (tester w0))) = [] ->
               circ_get (circularityData (tester (fold_left
                  (fun w slot => match slot with
                                 | Some g => handleGamepadConnected g w
                                 | None => w
                                 end) pads w0)))
                 (other_stick (selectedCircle (tester (fold_left
                  (fun w slot => match slot with
                                 | Some g => handleGamepadConnected g w
                                 | None => w
                                 end) pads w0)))) = []).
    { induction pads as [| [g |] pads IH]; intros w0 H; cbn [fold_left].
      - exact H.
      - apply IH. rewrite tester_handleGamepadConnected. exact H.
      - apply IH, H. }
    apply H0. reflexivity. }
  revert Hstart. generalize (initializeApp nav (World_init d)) as w.
  induction es as [| e es IH]; intros w H; cbn [run fold_left].
  - exact H.
  - apply IH. clear IH.
    destruct e as [g | g | i | v | | v | | ts pads]; cbn [step].
    + rewrite tester_handleGamepadConnected. exact H.
    + rewrite tester_handleGamepadDisconnected. exact H.
    + destruct (tab_exists i w); [| exact H]. rewrite tester_tab_click. exact H.
    + exact H.
    + exact H.
    + destruct v; reflexivity.
    + destruct (selectedCircle (tester w)) eqn:E; cbn; rewrite E; reflexivity.
    + unfold pollGamepads. cbn zeta.
      destruct (tester_store_snapshots pads w) as [o Ho].
      set (w1 := store_snapshots pads w) in *.
      assert (H1 : circ_get (circularityData (tester w1))
                            (other_stick (selectedCircle (tester w1))) = []).
      { rewrite Ho. exact H. }
      unfold requestAnimationFrame.
      cbn [tester set_animationFrameId circularityData selectedCircle].
      destruct (activeGamepadIndex (tester w1)) as [a |]; [| exact H1].
      destruct (JsObj.get (gamepads (tester w1)) a) as [g |]; [| exact H1].
      set (w2 := w1 |> updatePerformanceMetrics ts (timestamp g)
                    |> updateVisualController g |> updateRawDataTable g
                    |> updateControllerInfo g |> updateTriggerPressure g
                    |> updateOscilloscope g ts).
      assert (Hc : circularityData (tester w2) = circularityData (tester w1)).
      { subst w2. rewrite tester_updateOscilloscope. cbn zeta.
        cbn [set_oscilloscopeData circularityData].
        rewrite tester_updateTriggerPressure. cbn zeta.
        cbn [set_triggerTracking circularityData].
        rewrite tester_updateControllerInfo, tester_updateRawDataTable,
          tester_updateVisualController, tester_updatePerformanceMetrics.
        reflexivity. }
      assert (Hsel : selectedCircle (tester w2) = selectedCircle (tester w1)).
      { subst w2. rewrite tester_updateOscilloscope. cbn zeta.
        cbn [set_oscilloscopeData selectedCircle].
        rewrite tester_updateTriggerPressure. cbn zeta.
        cbn [set_triggerTracking selectedCircle].
        rewrite tester_updateControllerInfo, tester_updateRawDataTable,
          tester_updateVisualController, tester_updatePerformanceMetrics.
        reflexivity. }
      change (circ_get (circularityData (tester (updateCircularity g w2)))
                (other_stick (selectedCircle (tester (updateCircularity g w2)))) = []).
      rewrite tester_updateCircularity. cbn zeta.
      destruct (moved_significantly _ _).
      * cbn [set_circularityData selectedCircle circularityData].
        rewrite circ_get_set, Hc, Hsel.
        destruct (selectedCircle (tester w1)); cbn [other_stick] in *; exact H1.
      * rewrite Hc, Hsel. exact H1.
Qed.

(** C9 as worded fails: once the left stick has a retained sample,
    switching the selection to the right stick empties the right stick's
    set and the left stick's set as well. *)
Lemma clearCircularity_other_stick_counterexample :
  let w := session (Some []) Sample.page Sample.half_left_session in
  let w' := step w (CircleAxisChange StickRight) in
  selectedCircle (tester w') = StickRight
  /\ circ_get (circularityData (tester w')) StickRight = []
  /\ circ_get (circularityData (tester w)) StickLeft = [Sample.at_half]
  /\ circ_get (circularityData (tester w')) StickLeft
     <> circ_get (circularityData (tester w)) StickLeft.
Proof. vm_compute. repeat split. discriminate. Qed.

(** C9, amended.  Switching the selected circularity stick or an explicit
    clear empties the scatter sets of both sticks, redraws the bare grid
    (the grid's drawing calls and nothing else are sent to the canvas) and
    resets the displayed error to "0.00%". *)
Theorem clearCircularity_clears_both (w : World) (v : Stick) :
  let grid :=
    drawCircularityGrid (canvas_width (circularity_canvas (doc w)))
                        (canvas_height (circularity_canvas (doc w))) in
  let cleared (w' : World) :=
    (forall s, circ_get (circularityData (tester w')) s = [])
    /\ canvas_ops (circularity_canvas (doc w'))
       = canvas_ops (circularity_canvas (doc w)) ++ grid
    /\ text (doc w') "circularity-error" = "0.00%" in
  cleared (clearCircularity w)
  /\ cleared (circle_axis_change v w)
  /\ selectedCircle (tester (circle_axis_change v w)) = v.
Proof.
  cbn zeta. repeat split; try (intros []; reflexivity).
Qed.

(* ================================================================== *)
(** ** Rate estimator                                                  *)
(* ================================================================== *)

Section RateEstimator.

Lemma text_updatePerformanceMetrics (w : World) (currentTime gamepadTimestamp : float) :
  text (doc (updatePerformanceMetrics currentTime gamepadTimestamp w)) "polling-rate"
  = let p := performance (tester w) in
    if Js.gt (lastTimestamp p) 0 then
      let deltas := Js.push_shift 60 (frameDeltas p) (sub currentTime (lastTimestamp p)) in
      let rates := Js.push_shift 60 (pollingRates p) (div 1000 (Js.mean deltas)) in
      Js.Number_toString (Js.Math_round (Js.mean rates)) +++ " Hz"
    else text (doc w) "polling-rate".
Proof.
  unfold updatePerformanceMetrics. cbn zeta.
  destruct (Js.gt (lastTimestamp (performance (tester w))) 0); reflexivity.
Qed.

Lemma feed_snoc (w : World) (ticks : list (float * float)) (c g : float) :
  feed w (ticks ++ [(c, g)]) = updatePerformanceMetrics c g (feed w ticks).
Proof. unfold feed. rewrite fold_left_app. reflexivity. Qed.

Lemma last_cons {A : Type} (l : list A) (a dflt : A) : last (a :: l) dflt = last l a.
Proof.
  revert a dflt. induction l as [| b l IH]; intros a dflt.
  - reflexivity.
  - change (last (a :: b :: l) dflt) with (last (b :: l) dflt).
    rewrite (IH b dflt), (IH b a). reflexivity.
Qed.

Lemma deltas_of_snoc (ts : list float) (prev t : float) :
  deltas_of prev (ts ++ [t]) = deltas_of prev ts ++ [sub t (last ts prev)].
Proof.
  revert prev. induction ts as [| a ts IH]; intros prev.
  - reflexivity.
  - cbn [app deltas_of]. rewrite IH, last_cons. reflexivity.
Qed.

Lemma rate_samples_snoc (deltas : list float) (delta : float) :
  rate_samples (deltas ++ [delta])
  = rate_samples deltas ++ [div 1000 (Js.mean (window 60 (deltas ++ [delta])))].
Proof.
  unfold rate_samples. rewrite length_app. cbn [List.length].
  rewrite seq_app, map_app. cbn [seq map]. f_equal.
  - apply map_ext_in. intros k Hk. apply in_seq in Hk.
    rewrite firstn_app. replace (k - List.length deltas) with 0 by lia.
    cbn [firstn]. rewrite app_nil_r. reflexivity.
  - rewrite firstn_all2 by (rewrite length_app; cbn [List.length]; lia).
    reflexivity.
Qed.

(** What the estimator holds after a first tick at [t0] and the further
    ticks [ticks], all with positive host timestamps. *)
Lemma feed_state (d : Document) (t0 g0 : float) (ticks : list (float * float)) :
  Js.gt t0 0 = true ->
  Forall (fun t => Js.gt t 0 = true) (map fst ticks) ->
  let w := feed (World_init d) ((t0, g0) :: ticks) in
  let deltas := deltas_of t0 (map fst ticks) in
  lastTimestamp (performance (tester w)) = last (map fst ticks) t0
  /\ frameDeltas (performance (tester w)) = window 60 deltas
  /\ pollingRates (performance (tester w)) = window 60 (rate_samples deltas)
  /\ (ticks <> [] ->
      text (doc w) "polling-rate"
      = Js.Number_toString (Js.Math_round (Js.mean (window 60 (rate_samples deltas))))
        +++ " Hz").
Proof.
  intros Ht0. induction ticks as [| [c g] ticks IH] using rev_ind; intros Hpos.
  - cbn. repeat split. congruence.
  - rewrite map_app in Hpos. apply Forall_app in Hpos. destruct Hpos as [Hpos Hc].
    specialize (IH Hpos). cbn zeta in IH. destruct IH as (Hlast & Hd & Hr & _).
    cbn zeta. rewrite app_comm_cons, feed_snoc.
    rewrite tester_updatePerformanceMetrics, text_updatePerformanceMetrics.
    cbn zeta. cbn [set_performance performance].
    assert (Hgt : Js.gt (lastTimestamp (performance (tester
                     (feed (World_init d) ((t0, g0) :: ticks))))) 0 = true).
    { rewrite Hlast. destruct (map fst ticks) as [| a l] eqn:E using rev_ind.
      - exact Ht0.
      - rewrite last_last. apply Forall_app in Hpos. destruct Hpos as [_ Ha].
        inversion Ha; assumption. }
    rewrite Hgt, Hd, Hr, Hlast. cbn [lastTimestamp frameDeltas pollingRates].
    rewrite map_app. cbn [map fst]. rewrite last_last, deltas_of_snoc.
    rewrite rate_samples_snoc.
    rewrite !push_shift_window by lia.
    repeat split.
Qed.

End RateEstimator.

(** C2 as worded fails: after 61 frame deltas (sixty frames 10 ms apart,
    then one frame 1000 ms late) the read-out is "99 Hz", while 1000 over
    the mean of the last 60 deltas rounds to 38 Hz. *)
Lemma rate_estimator_spec_counterexample :
  let ticks := map (fun t => (t, 0%float)) Sample.stall_ticks in
  let deltas := deltas_of 10 (tl Sample.stall_ticks) in
  let w := feed (World_init Sample.page) ticks in
  List.length deltas = 61
  /\ text (doc w) "polling-rate" = "99 Hz"
  /\ Js.Number_toString (Js.Math_round (spec_avgRate deltas)) +++ " Hz" = "38 Hz"
  /\ text (doc w) "polling-rate"
     <> Js.Number_toString (Js.Math_round (spec_avgRate deltas)) +++ " Hz".
Proof. vm_compute. repeat split. discriminate. Qed.

(** C2, amended.  For every sequence of frame deltas fed to the Rate
    Estimator (61 or more included), the delta window and the rate window
    hold the last 60 deltas and the last 60 rate samples, never more than 60
    entries each, oldest evicted first; each rate sample is 1000 over the
    mean of the delta window at its own tick, and the reported rate is the
    mean of the rate window rounded to the nearest Hz. *)
Theorem rate_estimator_windows
  (d : Document) (t0 g0 : float) (ticks : list (float * float)) :
  Js.gt t0 0 = true ->
  Forall (fun t => Js.gt t 0 = true) (map fst ticks) ->
  ticks <> [] ->
  let w := feed (World_init d) ((t0, g0) :: ticks) in
  let deltas := deltas_of t0 (map fst ticks) in
  frameDeltas (performance (tester w)) = window 60 deltas
  /\ pollingRates (performance (tester w)) = window 60 (rate_samples deltas)
  /\ List.length (frameDeltas (performance (tester w))) <= 60
  /\ List.length (pollingRates (performance (tester w))) <= 60
  /\ text (doc w) "polling-rate"
     = Js.Number_toString (Js.Math_round (Js.mean (window 60 (rate_samples deltas))))
       +++ " Hz".
Proof.
  intros Ht0 Hpos Hne.
  destruct (feed_state d t0 g0 ticks Ht0 Hpos) as (_ & Hd & Hr & Htext).
  cbn zeta. rewrite Hd, Hr, !window_length.
  repeat split; try lia. apply Htext, Hne.
Qed.

Lemma rate_estimator_windows_witness :
  let ticks := map (fun t => (t, 0%float)) (tl Sample.stall_ticks) in
  let w := feed (World_init Sample.page) ((10%float, 0%float) :: ticks) in
  List.length ticks = 61
  /\ List.length (frameDeltas (performance (tester w))) <= 60
  /\ text (doc w) "polling-rate"
     = Js.Number_toString
         (Js.Math_round
            (Js.mean (window 60 (rate_samples (deltas_of 10 (map fst ticks))))))
       +++ " Hz".
Proof.
  intros ticks w.
  assert (H0 : Js.gt 10 0 = true) by reflexivity.
  assert (Hpos : Forall (fun t => Js.gt t 0 = true) (map fst ticks)).
  { apply Forall_forall. intros t Ht. vm_compute in Ht.
    repeat (destruct Ht as [<- | Ht]; [reflexivity |]). destruct Ht. }
  assert (Hne : ticks <> []) by discriminate.
  destruct (rate_estimator_windows Sample.page 10 0 ticks H0 Hpos Hne)
    as (_ & _ & Hlen & _ & Htext).
  split; [reflexivity |]. split; [exact Hlen | exact Htext].
Defined.

(** *** Division by a zero average *)

Section NonFinite.

Lemma is_zero_cases (x : float) : is_zero x = true -> x = zero \/ x = neg_zero.
Proof.
  intros Hz. pose proof (SF2Prim_Prim2SF x) as E. unfold Prim2SF in E.
  destruct (is_nan x) eqn:En.
  - cbn in E. subst x. discriminate Hz.
  - rewrite Hz in E. destruct (get_sign x); cbn in E; subst x; auto.
Qed.

Lemma non_finite_cases (x : float) :
  non_finite x = true -> x = nan \/ x = infinity \/ x = neg_infinity.
Proof.
  unfold non_finite. intros H.
  pose proof (SF2Prim_Prim2SF x) as E. unfold Prim2SF in E.
  destruct (is_nan x) eqn:En.
  - cbn in E. subst x. auto.
  - destruct (is_zero x) eqn:Ez.
    + destruct (is_zero_cases x Ez) as [-> | ->]; discriminate H.
    + cbn [orb] in H. rewrite H in E.
      destruct (get_sign x); cbn in E; subst x; auto.
Qed.

Lemma add_non_finite_l (x y : float) :
  non_finite x = true -> non_finite (add x y) = true.
Proof.
  intros H. rewrite <- (SF2Prim_Prim2SF (add x y)), add_spec.
  destruct (non_finite_cases x H) as [-> | [-> | ->]];
    destruct (Prim2SF y) as [[] | [] | | [] ? ?]; reflexivity.
Qed.

Lemma add_non_finite_r (x y : float) :
  non_finite y = true -> non_finite (add x y) = true.
Proof.
  intros H. rewrite <- (SF2Prim_Prim2SF (add x y)), add_spec.
  destruct (non_finite_cases y H) as [-> | [-> | ->]];
    destruct (Prim2SF x) as [[] | [] | | [] ? ?]; reflexivity.
Qed.

Lemma div_non_finite_l (x y : float) :
  non_finite x = true -> non_finite (div x y) = true.
Proof.
  intros H. rewrite <- (SF2Prim_Prim2SF (div x y)), div_spec.
  destruct (non_finite_cases x H) as [-> | [-> | ->]];
    destruct (Prim2SF y) as [[] | [] | | [] ? ?]; reflexivity.
Qed.

Lemma fold_add_non_finite (l : list float) (acc : float) :
  non_finite acc = true -> non_finite (fold_left add l acc) = true.
Proof.
  revert acc. induction l as [| a l IH]; intros acc H; cbn [fold_left].
  - exact H.
  - apply IH, add_non_finite_l, H.
Qed.

(** One non-finite entry makes the whole sum, and so the mean, non-finite. *)
Lemma mean_non_finite (l : list float) :
  Exists (fun x => non_finite x = true) l -> non_finite (Js.mean l) = true.
Proof.
  intros H. unfold Js.mean. apply div_non_finite_l. unfold Js.sum.
  generalize zero as acc.
  induction H as [a l Ha | a l _ IH]; intros acc; cbn [fold_left].
  - apply fold_add_non_finite, add_non_finite_r, Ha.
  - apply IH.
Qed.

Lemma push_shift_keeps_new {A : Type} (n : nat) (l : list A) (v : A) :
  0 < n -> exists l', Js.push_shift n l v = l' ++ [v].
Proof.
  intros Hn. unfold Js.push_shift.
  destruct (Nat.ltb_spec n (List.length (l ++ [v]))) as [Hlt | Hge].
  - destruct l as [| a l]; [cbn in Hlt; lia |]. exists l. reflexivity.
  - exists l. reflexivity.
Qed.

(** Rounding leaves a non-finite value as it is, and it prints as such. *)
Lemma shown_non_finite (x : float) :
  non_finite x = true ->
  let s := Js.Number_toString (Js.Math_round x) in
  s = "NaN" \/ s = "Infinity" \/ s = "-Infinity".
Proof.
  intros H. destruct (non_finite_cases x H) as [-> | [-> | ->]]; vm_compute; auto.
Qed.

End NonFinite.

(** C3 as worded fails: two ticks with the same host timestamp make the
    average frame delta 0, the rate sample +Infinity, and the rounded
    read-out "Infinity Hz". *)
Lemma zero_delta_counterexample :
  let w := feed (World_init Sample.page) [(100%float, 0%float); (100%float, 0%float)] in
  is_zero (Js.mean (frameDeltas (performance (tester w)))) = true
  /\ existsb is_infinity (pollingRates (performance (tester w))) = true
  /\ text (doc w) "polling-rate" = "Infinity Hz".
Proof. vm_compute. repeat split. Qed.

(** C3, amended.  When the average frame delta is 0 the rate computation is
    not guarded: the rate sample 1000 / 0 is an infinity, it enters the rate
    window, and the rounded rate read-out shows an infinity or NaN
    ("Infinity Hz", "-Infinity Hz" or "NaN Hz"). *)
Theorem zero_delta_rate_unguarded (w : World) (currentTime gamepadTimestamp : float) :
  let p := performance (tester w) in
  let deltas := Js.push_shift 60 (frameDeltas p) (sub currentTime (lastTimestamp p)) in
  let w' := updatePerformanceMetrics currentTime gamepadTimestamp w in
  Js.gt (lastTimestamp p) 0 = true ->
  is_zero (Js.mean deltas) = true ->
  (exists rate,
      (rate = infinity \/ rate = neg_infinity)
      /\ pollingRates (performance (tester w')) = Js.push_shift 60 (pollingRates p) rate
      /\ In rate (pollingRates (performance (tester w'))))
  /\ (text (doc w') "polling-rate" = "Infinity Hz"
      \/ text (doc w') "polling-rate" = "-Infinity Hz"
      \/ text (doc w') "polling-rate" = "NaN Hz").
Proof.
  intros p deltas w' Hlast Hzero. subst w'.
  rewrite tester_updatePerformanceMetrics, text_updatePerformanceMetrics.
  cbn zeta. fold p. rewrite Hlast. fold deltas.
  cbn [set_performance performance pollingRates].
  assert (Hrate : div 1000 (Js.mean deltas) = infinity
                  \/ div 1000 (Js.mean deltas) = neg_infinity).
  { destruct (is_zero_cases _ Hzero) as [-> | ->]; [left | right]; reflexivity. }
  destruct (push_shift_keeps_new 60 (pollingRates p) (div 1000 (Js.mean deltas)))
    as [l' Hl']; [lia |].
  split.
  - exists (div 1000 (Js.mean deltas)). repeat split; [exact Hrate |].
    rewrite Hl'. apply in_or_app. right. left. reflexivity.
  - assert (Hnf : non_finite (Js.mean (Js.push_shift 60 (pollingRates p)
                                         (div 1000 (Js.mean deltas)))) = true).
    { apply mean_non_finite. rewrite Hl'. apply Exists_app. right.
      constructor. destruct Hrate as [-> | ->]; reflexivity. }
    destruct (shown_non_finite _ Hnf) as [E | [E | E]]; cbn zeta in E; rewrite E; auto.
Qed.

Lemma zero_delta_rate_unguarded_witness :
  let w := feed (World_init Sample.page) [(100%float, 0%float)] in
  let w' := updatePerformanceMetrics 100 0 w in
  text (doc w') "polling-rate" = "Infinity Hz"
  \/ text (doc w') "polling-rate" = "-Infinity Hz"
  \/ text (doc w') "polling-rate" = "NaN Hz".
Proof.
  intros w w'.
  assert (Hlast : Js.gt (lastTimestamp (performance (tester w))) 0 = true)
    by reflexivity.
  assert (Hzero : is_zero (Js.mean (Js.push_shift 60 (frameDeltas (performance (tester w)))
                                      (sub 100 (lastTimestamp (performance (tester w))))))
                  = true) by reflexivity.
  exact (proj2 (zero_delta_rate_unguarded w 100 0 Hlast Hzero)).
Defined.

(* ================================================================== *)
(** ** Trigger resolution tracker                                      *)
(* ================================================================== *)

Section Resolution.

Lemma JsSet_add_size (s : JsSet.t) (v : float) :
  JsSet.size s <= JsSet.size (JsSet.add s v).
Proof.
  unfold JsSet.add, JsSet.size. destruct (JsSet.has s v); [lia |].
  rewrite length_app. lia.
Qed.

(** Within a tick the cardinality of each set can only grow. *)
Lemma resolution_monotone (w : World) (g : Gamepad) :
  let tt := triggerTracking (tester w) in
  let tt' := triggerTracking (tester (updateTriggerPressure g w)) in
  JsSet.size (tt_left tt) <= JsSet.size (tt_left tt')
  /\ JsSet.size (tt_right tt) <= JsSet.size (tt_right tt').
Proof.
  rewrite tester_updateTriggerPressure.
  cbn [set_triggerTracking triggerTracking tt_left tt_right].
  split;
    match goal with
    | |- context [if ?c then _ else _] => destruct c
    end; auto using JsSet_add_size.
Qed.

(** A click on a controller tab empties both sets. *)
Lemma tab_click_resets (w : World) (i : nat) :
  triggerTracking (tester (tab_click i w)) = {| tt_left := []; tt_right := [] |}.
Proof. rewrite tester_tab_click. reflexivity. Qed.

(** The disconnection handler, which may also switch the active
    controller, leaves both sets as they are. *)
Lemma handleGamepadDisconnected_keeps_tracking (w : World) (g : Gamepad) :
  triggerTracking (tester (handleGamepadDisconnected g w)) = triggerTracking (tester w).
Proof. rewrite tester_handleGamepadDisconnected. reflexivity. Qed.

End Resolution.

(** C4, on the failing input.  With two controllers connected and one
    trigger value recorded for the active controller 0, disconnecting
    controller 0 switches the active controller to 1 and the left set still
    holds its value; a click on the tab of controller 1 would have emptied
    it. *)
Theorem disconnect_switch_keeps_resolution :
  let w := session (Some []) Sample.page Sample.two_pads_session in
  let unplugged := step w (GamepadDisconnectedEvent (Sample.pad 0 [] 0 0)) in
  let clicked := step w (TabClick 1) in
  activeGamepadIndex (tester w) = Some 0
  /\ JsSet.size (tt_left (triggerTracking (tester w))) = 1
  /\ activeGamepadIndex (tester unplugged) = Some 1
  /\ JsSet.size (tt_left (triggerTracking (tester unplugged))) = 1
  /\ activeGamepadIndex (tester clicked) = Some 1
  /\ JsSet.size (tt_left (triggerTracking (tester clicked))) = 0.
Proof. vm_compute. repeat split. Qed.

(* ================================================================== *)
(** ** Snapshots with missing entries                                  *)
(* ================================================================== *)

(** An axis the snapshot does not have is pushed as [undefined]. *)
Lemma missing_axis_pushed_undefined (w : World) (g : Gamepad) (ts : float) :
  let sel := selectedScope (tester w) in
  let od := oscilloscopeData (tester w) in
  nth_error (axes g) (axisOffset sel) = None ->
  trace_x (osc_get (oscilloscopeData (tester (updateOscilloscope g ts w))) sel)
  = Js.push_shift (osc_maxPoints od) (trace_x (osc_get od sel)) Js.JUndefined.
Proof.
  cbn zeta. intros Hnone. rewrite tester_updateOscilloscope. cbn zeta.
  cbn [set_oscilloscopeData oscilloscopeData]. rewrite osc_get_set.
  replace (match selectedScope (tester w) with StickLeft => _ | StickRight => _ end)
    with true by (destruct (selectedScope (tester w)); reflexivity).
  unfold Js.index. rewrite Hnone.
  unfold Js.push_shift. destruct (_ <? _); reflexivity.
Qed.

(** The trigger read falls back to 0 when the button is missing. *)
Lemma missing_trigger_is_zero (g : Gamepad) (i : nat) :
  nth_error (buttons g) i = None -> trigger_value g i = zero.
Proof. unfold trigger_value. intros ->. reflexivity. Qed.

(** C5, on the failing input.  For a device that reports no axes and no
    buttons, the trigger read-outs fall back to 0 and the stick indicator
    stays centred, but the oscilloscope stores [undefined] in both
    sequences; with a single axis the circularity buffer stores a sample
    whose y is [undefined]. *)
Theorem missing_axes_stored_undefined :
  let w := session (Some []) Sample.page Sample.bare_session in
  let w1 := session (Some []) Sample.page Sample.one_axis_session in
  text (doc w) "pressure-label-left" = "0.00000"
  /\ triggerTracking (tester w) = {| tt_left := []; tt_right := [] |}
  /\ style (doc w) "stick-left" "transform" = "translate(0px, 0px)"
  /\ circ_left (circularityData (tester w)) = []
  /\ osc_left (oscilloscopeData (tester w))
     = {| trace_x := [Js.JUndefined]; trace_y := [Js.JUndefined] |}
  /\ circ_left (circularityData (tester w1))
     = [{| point_x := Js.JNum 0.5; point_y := Js.JUndefined |}].
Proof. vm_compute. repeat split. Qed.

(* ================================================================== *)
(** ** Raw input reaches the analytics                                 *)
(* ================================================================== *)

Section RawInput.
Implicit Types (w : World) (g : Gamepad).

Lemma raf_next_drawCircularityTest w : raf_next (drawCircularityTest w) = raf_next w.
Proof.
  unfold drawCircularityTest.
  destruct (_ =? 0); [reflexivity |]. destruct (10 <? _); reflexivity.
Qed.

Lemma raf_next_updateCircularity w g : raf_next (updateCircularity g w) = raf_next w.
Proof.
  unfold updateCircularity. cbn zeta. rewrite raf_next_drawCircularityTest.
  destruct (moved_significantly _ _); reflexivity.
Qed.

Lemma raf_next_updatePerformanceMetrics w (c gts : float) :
  raf_next (updatePerformanceMetrics c gts w) = raf_next w.
Proof.
  unfold updatePerformanceMetrics. cbn zeta. destruct (Js.gt _ 0); reflexivity.
Qed.

Lemma same_session_updatePerformanceMetrics w1 w2 (c gts : float) :
  same_session w1 w2 ->
  same_session (updatePerformanceMetrics c gts w1) (updatePerformanceMetrics c gts w2).
Proof.
  intros [Ht Hr]. split.
  - rewrite !tester_updatePerformanceMetrics, Ht. reflexivity.
  - rewrite !raf_next_updatePerformanceMetrics. exact Hr.
Qed.

Lemma same_session_updateTriggerPressure w1 w2 g :
  same_session w1 w2 ->
  same_session (updateTriggerPressure g w1) (updateTriggerPressure g w2).
Proof.
  intros [Ht Hr]. split.
  - rewrite !tester_updateTriggerPressure, Ht. reflexivity.
  - exact Hr.
Qed.

Lemma same_session_updateOscilloscope w1 w2 g (ts : float) :
  same_session w1 w2 ->
  same_session (updateOscilloscope g ts w1) (updateOscilloscope g ts w2).
Proof.
  intros [Ht Hr]. split.
  - rewrite !tester_updateOscilloscope, Ht. reflexivity.
  - exact Hr.
Qed.

Lemma same_session_updateCircularity w1 w2 g :
  same_session w1 w2 ->
  same_session (updateCircularity g w1) (updateCircularity g w2).
Proof.
  intros [Ht Hr]. split.
  - rewrite !tester_updateCircularity, Ht. reflexivity.
  - rewrite !raf_next_updateCircularity. exact Hr.
Qed.

(** The three display-only steps of a tick change the document alone. *)
Lemma same_session_display w g :
  same_session (w |> updateVisualController g |> updateRawDataTable g
                  |> updateControllerInfo g) w.
Proof. split; reflexivity. Qed.

(** A tick that processes [g] leaves the tester as the four analytics
    updates alone would. *)
Lemma tester_pollGamepads w g (frameTime : float) (pads : list (option Gamepad))
  (active : nat) :
  activeGamepadIndex (tester (store_snapshots pads w)) = Some active ->
  JsObj.get (gamepads (tester (store_snapshots pads w))) active = Some g ->
  tester (pollGamepads frameTime pads w)
  = tester (store_snapshots pads w
              |> updatePerformanceMetrics frameTime (timestamp g)
              |> updateTriggerPressure g
              |> updateOscilloscope g frameTime
              |> updateCircularity g
              |> requestAnimationFrame).
Proof.
  intros Ha Hg. unfold pollGamepads. cbn zeta. rewrite Ha, Hg.
  set (w1 := updatePerformanceMetrics frameTime (timestamp g) (store_snapshots pads w)).
  assert (H : same_session
                (w1 |> updateVisualController g |> updateRawDataTable g
                    |> updateControllerInfo g |> updateTriggerPressure g
                    |> updateOscilloscope g frameTime |> updateCircularity g)
                (w1 |> updateTriggerPressure g
                    |> updateOscilloscope g frameTime |> updateCircularity g)).
  { apply same_session_updateCircularity, same_session_updateOscilloscope,
      same_session_updateTriggerPressure, same_session_display. }
  destruct H as [Ht Hr]. unfold requestAnimationFrame. cbn [tester].
  rewrite Ht, Hr. reflexivity.
Qed.

Lemma tracking_updatePerformanceMetrics w (c gts : float) :
  triggerTracking (tester (updatePerformanceMetrics c gts w)) = triggerTracking (tester w).
Proof. rewrite tester_updatePerformanceMetrics. reflexivity. Qed.

Lemma tracking_updateOscilloscope w g (ts : float) :
  triggerTracking (tester (updateOscilloscope g ts w)) = triggerTracking (tester w).
Proof. rewrite tester_updateOscilloscope. reflexivity. Qed.

Lemma tracking_updateCircularity w g :
  triggerTracking (tester (updateCircularity g w)) = triggerTracking (tester w).
Proof.
  rewrite tester_updateCircularity. cbn zeta.
  destruct (moved_significantly _ _); reflexivity.
Qed.

Lemma tracking_requestAnimationFrame w :
  triggerTracking (tester (requestAnimationFrame w)) = triggerTracking (tester w).
Proof. reflexivity. Qed.

(** The trigger update extends each set by the reported value of its
    button when that value is positive. *)
Lemma tracking_updateTriggerPressure w g :
  triggerTracking (tester (updateTriggerPressure g w))
  = {| tt_left :=
         if ltb 0 (match nth_error (buttons g) 6 with
                   | Some b => value b | None => 0%float end)
         then JsSet.add (tt_left (triggerTracking (tester w)))
                (match nth_error (buttons g) 6 with
                 | Some b => value b | None => 0%float end)
         else tt_left (triggerTracking (tester w));
       tt_right :=
         if ltb 0 (match nth_error (buttons g) 7 with
                   | Some b => value b | None => 0%float end)
         then JsSet.add (tt_right (triggerTracking (tester w)))
                (match nth_error (buttons g) 7 with
                 | Some b => value b | None => 0%float end)
         else tt_right (triggerTracking (tester w)) |}.
Proof. reflexivity. Qed.

(** Across a tick the cardinality of each trigger set does not decrease. *)
Lemma tick_resolution_monotone w (frameTime : float) (pads : list (option Gamepad)) :
  let tt := triggerTracking (tester w) in
  let tt' := triggerTracking (tester (pollGamepads frameTime pads w)) in
  JsSet.size (tt_left tt) <= JsSet.size (tt_left tt')
  /\ JsSet.size (tt_right tt) <= JsSet.size (tt_right tt').
Proof.
  cbn zeta.
  destruct (tester_store_snapshots pads w) as [o Ho].
  assert (Hs : triggerTracking (tester (store_snapshots pads w))
               = triggerTracking (tester w)) by (rewrite Ho; reflexivity).
  assert (Hraf : forall w', triggerTracking (tester (requestAnimationFrame w'))
                            = triggerTracking (tester w')) by reflexivity.
  destruct (activeGamepadIndex (tester (store_snapshots pads w))) as [a |] eqn:Ea.
  - destruct (JsObj.get (gamepads (tester (store_snapshots pads w))) a) as [g |] eqn:Eg.
    + rewrite (tester_pollGamepads w g frameTime pads a Ea Eg).
      rewrite Hraf, tracking_updateCircularity, tracking_updateOscilloscope.
      rewrite <- Hs.
      rewrite <- (tracking_updatePerformanceMetrics (store_snapshots pads w)
                    frameTime (timestamp g)).
      apply resolution_monotone.
    + unfold pollGamepads. cbn zeta. rewrite Ea, Eg, Hraf, Hs. split; lia.
  - unfold pollGamepads. cbn zeta. rewrite Ea, Hraf, Hs. split; lia.
Qed.

End RawInput.

(** C8.  On every tick the analytics components receive the snapshot's raw
    values: the step that applies the 0.05 deadzone writes to the page only,
    the Rate Estimator takes the frame timestamp, the Resolution Tracker the
    [value] of buttons 6 and 7 as reported (0 when the button is missing),
    the oscilloscope and circularity buffers the stick axes as reported
    (axes 0, 1 for the left stick, 2, 3 for the right one), and a tick that
    processes a controller leaves the tester exactly as the four analytics
    updates alone would, its trigger sets extended by the reported values. *)
Theorem analytics_see_raw_input
  (w : World) (gamepad : Gamepad) (frameTime : float) (pads : list (option Gamepad)) :
  let p := performance (tester w) in
  let tt := triggerTracking (tester w) in
  let od := oscilloscopeData (tester w) in
  let cd := circularityData (tester w) in
  let scope := selectedScope (tester w) in
  let circle := selectedCircle (tester w) in
  let xValue := Js.index (axes gamepad) (axisOffset circle) in
  let yValue := Js.index (axes gamepad) (axisOffset circle + 1) in
  let leftTrigger :=
    match nth_error (buttons gamepad) 6 with Some b => value b | None => 0%float end in
  let rightTrigger :=
    match nth_error (buttons gamepad) 7 with Some b => value b | None => 0%float end in
  let tracked :=
    {| tt_left := if ltb 0 leftTrigger
                  then JsSet.add (tt_left tt) leftTrigger
                  else tt_left tt;
       tt_right := if ltb 0 rightTrigger
                   then JsSet.add (tt_right tt) rightTrigger
                   else tt_right tt |} in
  (* deadzone step *)
  tester (updateVisualController gamepad w) = tester w
  (* Rate Estimator *)
  /\ performance (tester (updatePerformanceMetrics frameTime (timestamp gamepad) w))
     = (if Js.gt (lastTimestamp p) 0 then
          let deltas := Js.push_shift 60 (frameDeltas p) (sub frameTime (lastTimestamp p)) in
          {| lastTimestamp := frameTime;
             frameDeltas := deltas;
             pollingRates := Js.push_shift 60 (pollingRates p) (div 1000 (Js.mean deltas)) |}
        else
          {| lastTimestamp := frameTime;
             frameDeltas := frameDeltas p;
             pollingRates := pollingRates p |})
  (* Resolution Tracker *)
  /\ triggerTracking (tester (updateTriggerPressure gamepad w)) = tracked
  (* Oscilloscope buffer *)
  /\ trace_x (osc_get (oscilloscopeData (tester (updateOscilloscope gamepad frameTime w)))
                      scope)
     = Js.push_shift (osc_maxPoints od) (trace_x (osc_get od scope))
         (Js.index (axes gamepad) (axisOffset scope))
  /\ trace_y (osc_get (oscilloscopeData (tester (updateOscilloscope gamepad frameTime w)))
                      scope)
     = (let ys := trace_y (osc_get od scope)
                  ++ [Js.index (axes gamepad) (axisOffset scope + 1)] in
        if osc_maxPoints od <? List.length (trace_x (osc_get od scope)) + 1
        then tl ys else ys)
  (* Circularity buffer *)
  /\ circ_get (circularityData (tester (updateCircularity gamepad w))) circle
     = (if moved_significantly xValue yValue
        then Js.push_shift (circ_maxPoints cd) (circ_get cd circle)
               {| point_x := xValue; point_y := yValue |}
        else circ_get cd circle)
  (* the axes of the two sticks *)
  /\ (axisOffset StickLeft = 0 /\ axisOffset StickRight = 2)
  (* the whole tick *)
  /\ (forall active,
         activeGamepadIndex (tester (store_snapshots pads w)) = Some active ->
         JsObj.get (gamepads (tester (store_snapshots pads w))) active = Some gamepad ->
         tester (pollGamepads frameTime pads w)
         = tester (store_snapshots pads w
                     |> updatePerformanceMetrics frameTime (timestamp gamepad)
                     |> updateTriggerPressure gamepad
                     |> updateOscilloscope gamepad frameTime
                     |> updateCircularity gamepad
                     |> requestAnimationFrame)
         /\ triggerTracking (tester (pollGamepads frameTime pads w)) = tracked).
Proof.
  cbn zeta.
  split; [reflexivity |]. split; [| split; [| split; [| split; [| split; [| split]]]]].
  - rewrite tester_updatePerformanceMetrics. cbn zeta.
    destruct (Js.gt (lastTimestamp (performance (tester w))) 0); reflexivity.
  - reflexivity.
  - rewrite tester_updateOscilloscope. cbn zeta.
    cbn [set_oscilloscopeData oscilloscopeData]. rewrite osc_get_set.
    replace (match selectedScope (tester w) with StickLeft => _ | StickRight => _ end)
      with true by (destruct (selectedScope (tester w)); reflexivity).
    unfold Js.push_shift. destruct (_ <? _); reflexivity.
  - rewrite tester_updateOscilloscope. cbn zeta.
    cbn [set_oscilloscopeData oscilloscopeData]. rewrite osc_get_set.
    replace (match selectedScope (tester w) with StickLeft => _ | StickRight => _ end)
      with true by (destruct (selectedScope (tester w)); reflexivity).
    rewrite length_app. cbn [List.length]. destruct (_ <? _); reflexivity.
  - rewrite tester_updateCircularity. cbn zeta.
    destruct (moved_significantly _ _); [| reflexivity].
    cbn [set_circularityData circularityData]. rewrite circ_get_set.
    destruct (selectedCircle (tester w)); reflexivity.
  - split; reflexivity.
  - intros active Ha Hg.
    split; [exact (tester_pollGamepads w gamepad frameTime pads active Ha Hg) |].
    rewrite (tester_pollGamepads w gamepad frameTime pads active Ha Hg).
    rewrite tracking_requestAnimationFrame, tracking_updateCircularity,
      tracking_updateOscilloscope, tracking_updateTriggerPressure,
      tracking_updatePerformanceMetrics.
    destruct (tester_store_snapshots pads w) as [o Ho]. rewrite Ho. reflexivity.
Qed.

Lemma analytics_see_raw_input_witness :
  let w := session (Some []) Sample.page [GamepadConnectedEvent Sample.light_touch_pad] in
  let w' := pollGamepads 16 [Some Sample.light_touch_pad] w in
  tester w'
  = tester (store_snapshots [Some Sample.light_touch_pad] w
              |> updatePerformanceMetrics 16 (timestamp Sample.light_touch_pad)
              |> updateTriggerPressure Sample.light_touch_pad
              |> updateOscilloscope Sample.light_touch_pad 16
              |> updateCircularity Sample.light_touch_pad
              |> requestAnimationFrame)
  /\ triggerTracking (tester w') = {| tt_left := [0.03%float]; tt_right := [] |}.
Proof.
  intros w w'.
  destruct (proj2 (proj2 (proj2 (proj2 (proj2 (proj2 (proj2
              (analytics_see_raw_input w Sample.light_touch_pad 16
                 [Some Sample.light_touch_pad])))))))
              0 eq_refl eq_refl) as [Htick Htrack].
  split; [exact Htick |].
  exact (eq_trans Htrack eq_refl).
Defined.

(** A resting offset of 0.03 is shown as a centred stick, yet recorded as
    0.03 by the oscilloscope. *)
Lemma deadzone_only_on_display :
  let w := session (Some []) Sample.page [GamepadConnectedEvent Sample.drifting_pad] in
  let w' := pollGamepads 16 [Some Sample.drifting_pad] w in
  style (doc w') "stick-left" "transform" = "translate(0px, 7.5px)"
  /\ trace_x (osc_left (oscilloscopeData (tester w'))) = [Js.JNum 0.03]
  /\ tt_left (triggerTracking (tester w')) = [0.5%float].
Proof. vm_compute. repeat split. Qed.

(* ================================================================== *)
(** ** Controller roster: storing, removing and selecting controllers  *)
(* ================================================================== *)

Section ObjectFacts.
Context {V : Type}.
Implicit Types (o : JsObj.t V) (k j : nat) (v : V).

Lemma get_set o k v j :
  JsObj.get (JsObj.set o k v) j = if k =? j then Some v else JsObj.get o j.
Proof.
  induction o as [| [k' v'] o IH]; cbn [JsObj.set JsObj.get].
  - reflexivity.
  - destruct (Nat.eqb_spec k k') as [-> | Hne].
    + cbn [JsObj.get]. destruct (k' =? j); reflexivity.
    + destruct (Nat.ltb_spec k k') as [Hlt | Hge]; cbn [JsObj.get].
      * reflexivity.
      * rewrite IH. destruct (Nat.eqb_spec k' j) as [-> | Hj]; [| reflexivity].
        replace (k =? j) with false by (symmetry; apply Nat.eqb_neq; exact Hne).
        reflexivity.
Qed.

Lemma get_delete o k j :
  JsObj.get (JsObj.delete o k) j = if k =? j then None else JsObj.get o j.
Proof.
  induction o as [| [k' v'] o IH]; cbn [JsObj.delete JsObj.get].
  - destruct (k =? j); reflexivity.
  - destruct (Nat.eqb_spec k' k) as [-> | Hne].
    + rewrite IH. destruct (k =? j); reflexivity.
    + cbn [JsObj.get]. rewrite IH.
      destruct (Nat.eqb_spec k' j) as [-> | Hj]; [| reflexivity].
      replace (k =? j) with false
        by (symmetry; apply Nat.eqb_neq; intros ->; apply Hne; reflexivity).
      reflexivity.
Qed.

Lemma get_keys o k : In k (JsObj.keys o) <-> exists v, JsObj.get o k = Some v.
Proof.
  induction o as [| [k' v'] o IH]; cbn [JsObj.keys JsObj.get map fst In].
  - split; [intros [] | intros [v Hv]; discriminate].
  - destruct (Nat.eqb_spec k' k) as [-> | Hne].
    + split; [intros _; eexists; reflexivity | intros _; left; reflexivity].
    + split.
      * intros [E | Hin]; [contradiction | apply IH, Hin].
      * intros H. right. apply IH, H.
Qed.

Lemma keys_set o k v j :
  In j (JsObj.keys (JsObj.set o k v)) <-> j = k \/ In j (JsObj.keys o).
Proof.
  rewrite !get_keys, get_set. destruct (Nat.eqb_spec k j) as [-> | Hne].
  - split; [intros _; left; reflexivity | intros _; eexists; reflexivity].
  - split; [intros H; right; exact H | intros [E | H]; [congruence | exact H]].
Qed.

Lemma keys_delete o k j :
  In j (JsObj.keys (JsObj.delete o k)) <-> j <> k /\ In j (JsObj.keys o).
Proof.
  rewrite !get_keys, get_delete. destruct (Nat.eqb_spec k j) as [-> | Hne].
  - split; [intros [v Hv]; discriminate | intros [H _]; contradiction].
  - split; [intros H; split; [congruence | exact H] | intros [_ H]; exact H].
Qed.

Lemma sorted_set o k v :
  StronglySorted lt (JsObj.keys o) -> StronglySorted lt (JsObj.keys (JsObj.set o k v)).
Proof.
  induction o as [| [k' v'] o IH]; intros Hs; cbn [JsObj.set].
  - repeat constructor.
  - cbn [JsObj.keys map fst] in Hs. apply StronglySorted_inv in Hs.
    destruct Hs as [Hs Hall].
    destruct (Nat.eqb_spec k k') as [-> | Hne].
    + constructor; assumption.
    + destruct (Nat.ltb_spec k k') as [Hlt | Hge].
      * cbn [JsObj.keys map fst]. constructor.
        -- constructor; assumption.
        -- constructor; [exact Hlt |].
           eapply Forall_impl; [| exact Hall]. cbn. intros a Ha. lia.
      * cbn [JsObj.keys map fst]. constructor.
        -- apply IH, Hs.
        -- apply Forall_forall. intros j Hj.
           change (map fst (JsObj.set o k v)) with (JsObj.keys (JsObj.set o k v)) in Hj.
           apply keys_set in Hj. destruct Hj as [-> | Hj]; [lia |].
           rewrite Forall_forall in Hall. apply Hall, Hj.
Qed.

Lemma sorted_delete o k :
  StronglySorted lt (JsObj.keys o) -> StronglySorted lt (JsObj.keys (JsObj.delete o k)).
Proof.
  induction o as [| [k' v'] o IH]; intros Hs; cbn [JsObj.delete].
  - constructor.
  - cbn [JsObj.keys map fst] in Hs. apply StronglySorted_inv in Hs.
    destruct Hs as [Hs Hall].
    destruct (k' =? k); [apply IH, Hs |].
    cbn [JsObj.keys map fst]. constructor; [apply IH, Hs |].
    apply Forall_forall. intros j Hj.
    change (map fst (JsObj.delete o k)) with (JsObj.keys (JsObj.delete o k)) in Hj.
    apply keys_delete in Hj. rewrite Forall_forall in Hall. apply Hall, Hj.
Qed.

End ObjectFacts.

Section Roster.
Implicit Types (w : World) (g : Gamepad).

Lemma roster_ok_ext w w' : roster_of w' = roster_of w -> roster_ok w -> roster_ok w'.
Proof.
  unfold roster_of. intros E [Hs Ha Ht]. injection E as Eg Ea Et.
  constructor; unfold stored in *; rewrite ?Eg, ?Ea, ?Et; assumption.
Qed.

Lemma roster_of_updateConnectionStatus w (b : bool) :
  roster_of (updateConnectionStatus b w) = roster_of w.
Proof. destruct b; reflexivity. Qed.

Lemma roster_of_checkVibrationSupport w g :
  roster_of (checkVibrationSupport g w) = roster_of w.
Proof. unfold checkVibrationSupport. destruct (_ || _); reflexivity. Qed.

Lemma roster_of_updatePerformanceMetrics w (c gts : float) :
  roster_of (updatePerformanceMetrics c gts w) = roster_of w.
Proof.
  unfold updatePerformanceMetrics. cbn zeta. destruct (Js.gt _ 0); reflexivity.
Qed.

Lemma roster_of_drawCircularityTest w : roster_of (drawCircularityTest w) = roster_of w.
Proof.
  unfold drawCircularityTest.
  destruct (_ =? 0); [reflexivity |]. destruct (10 <? _); reflexivity.
Qed.

Lemma roster_of_updateCircularity w g : roster_of (updateCircularity g w) = roster_of w.
Proof.
  unfold updateCircularity. cbn zeta. rewrite roster_of_drawCircularityTest.
  destruct (moved_significantly _ _); reflexivity.
Qed.

(** The tabs [createControllerTabs] leaves reachable are those of the stored
    controllers. *)
Lemma shown_tabs_createControllerTabs w (t : Tab) :
  In t (shown_tabs (doc (createControllerTabs w))) -> In (tab_index t) (stored w).
Proof.
  unfold createControllerTabs, stored.
  destruct (_ =? 0); [intros [] |]. destruct (_ =? 1); [intros [] |].
  unfold shown_tabs. cbn. intros H. apply in_map_iff in H.
  destruct H as (k & <- & Hk). exact Hk.
Qed.

Lemma roster_ok_handleGamepadConnected w g :
  roster_ok w -> roster_ok (handleGamepadConnected g w).
Proof.
  intros [Hs Ha Ht].
  assert (Hstored : forall k, In k (stored (handleGamepadConnected g w))
                              <-> k = index g \/ In k (stored w)).
  { intros k. unfold stored. rewrite tester_handleGamepadConnected.
    cbn [set_activeGamepadIndex set_gamepads gamepads]. apply keys_set. }
  constructor.
  - unfold stored. rewrite tester_handleGamepadConnected.
    cbn [set_activeGamepadIndex set_gamepads gamepads]. apply sorted_set, Hs.
  - intros a E. apply Hstored. rewrite tester_handleGamepadConnected in E.
    cbn [set_activeGamepadIndex activeGamepadIndex] in E.
    destruct (activeGamepadIndex (tester w)) as [a' |] eqn:Ea.
    + right. apply Ha. congruence.
    + left. congruence.
  - intros t Hin. unfold handleGamepadConnected in Hin.
    set (w1 := updateConnectionStatus true _) in Hin.
    assert (E : shown_tabs (doc (checkVibrationSupport g
                  (showToast ("Controller Connected: " +++ id g) "success"
                     (createControllerTabs (showAppContent w1)))))
                = shown_tabs (doc (createControllerTabs (showAppContent w1)))).
    { unfold checkVibrationSupport. destruct (_ || _); reflexivity. }
    rewrite E in Hin.
    apply shown_tabs_createControllerTabs in Hin.
    unfold stored in Hin |- *. rewrite tester_handleGamepadConnected.
    cbn [showAppContent on_doc tester] in Hin. subst w1.
    rewrite tester_updateConnectionStatus in Hin.
    cbn [on_tester tester] in Hin.
    cbn [set_activeGamepadIndex set_gamepads gamepads].
    destruct (activeGamepadIndex _) in Hin; exact Hin.
Qed.

Lemma roster_ok_handleGamepadDisconnected w g :
  roster_ok w -> roster_ok (handleGamepadDisconnected g w).
Proof.
  intros [Hs Ha Ht].
  assert (Hstored : forall k, In k (stored (handleGamepadDisconnected g w))
                              <-> k <> index g /\ In k (stored w)).
  { intros k. unfold stored. rewrite tester_handleGamepadDisconnected. cbn zeta.
    cbn [set_activeGamepadIndex set_gamepads gamepads]. apply keys_delete. }
  constructor.
  - unfold stored. rewrite tester_handleGamepadDisconnected. cbn zeta.
    cbn [set_activeGamepadIndex set_gamepads gamepads]. apply sorted_delete, Hs.
  - intros a E. rewrite tester_handleGamepadDisconnected in E. cbn zeta in E.
    cbn [set_activeGamepadIndex activeGamepadIndex] in E.
    destruct (activeGamepadIndex (tester w)) as [a' |] eqn:Ea; [| discriminate].
    destruct (Nat.eqb_spec a' (index g)) as [-> | Hne].
    + destruct (JsObj.keys (JsObj.delete (gamepads (tester w)) (index g)))
        as [| first rest] eqn:Ek; [discriminate |].
      injection E as <-. unfold stored.
      rewrite tester_handleGamepadDisconnected. cbn zeta.
      cbn [set_activeGamepadIndex set_gamepads gamepads]. rewrite Ek. left. reflexivity.
    + injection E as <-. apply Hstored. split; [exact Hne | apply Ha; reflexivity].
  - intros t Hin. unfold handleGamepadDisconnected in Hin. cbn zeta in Hin.
    apply shown_tabs_createControllerTabs in Hin.
    unfold stored in Hin |- *.
    rewrite <- tester_createControllerTabs in Hin. exact Hin.
Qed.

Lemma roster_ok_tab_click w (i : nat) :
  tab_exists i w = true -> roster_ok w -> roster_ok (tab_click i w).
Proof.
  intros Hex [Hs Ha Ht].
  assert (Hi : In i (stored w)).
  { unfold tab_exists in Hex. apply andb_true_iff in Hex. destruct Hex as [Hh Hex].
    apply existsb_exists in Hex. destruct Hex as (t & Hin & Et).
    apply Nat.eqb_eq in Et. subst i. apply Ht. unfold shown_tabs.
    apply negb_true_iff in Hh. rewrite Hh. exact Hin. }
  assert (Est : stored (tab_click i w) = stored w).
  { unfold stored. rewrite tester_tab_click. reflexivity. }
  constructor.
  - rewrite Est. exact Hs.
  - intros a E. rewrite Est. rewrite tester_tab_click in E.
    cbn [set_triggerTracking set_activeGamepadIndex activeGamepadIndex] in E.
    injection E as <-. exact Hi.
  - intros t Hin. rewrite Est. unfold tab_click in Hin.
    cbn [on_tester doc] in Hin.
    apply shown_tabs_createControllerTabs in Hin. exact Hin.
Qed.

(** Storing a frame's snapshots keeps what was stored and adds the indices
    of the controllers present. *)
Lemma stored_store_snapshots (pads : list (option Gamepad)) w (k : nat) :
  In k (stored (store_snapshots pads w))
  <-> In k (stored w) \/ In k (map index (present pads)).
Proof.
  unfold store_snapshots. revert w.
  induction pads as [| [g |] pads IH]; intros w; cbn [fold_left].
  - cbn. tauto.
  - change (present (Some g :: pads)) with (g :: present pads).
    rewrite IH. unfold stored at 1. cbn [on_tester tester set_gamepads gamepads].
    rewrite keys_set. cbn [map In]. unfold stored. intuition congruence.
  - change (present (None :: pads)) with (present pads). apply IH.
Qed.

Lemma sorted_store_snapshots (pads : list (option Gamepad)) w :
  StronglySorted lt (stored w) -> StronglySorted lt (stored (store_snapshots pads w)).
Proof.
  unfold store_snapshots. revert w.
  induction pads as [| [g |] pads IH]; intros w H; cbn [fold_left].
  - exact H.
  - apply IH. unfold stored. cbn [on_tester tester set_gamepads gamepads].
    apply sorted_set, H.
  - apply IH, H.
Qed.

Lemma doc_store_snapshots (pads : list (option Gamepad)) w :
  doc (store_snapshots pads w) = doc w.
Proof.
  unfold store_snapshots. revert w.
  induction pads as [| [g |] pads IH]; intros w; cbn [fold_left].
  - reflexivity.
  - rewrite IH. reflexivity.
  - apply IH.
Qed.

Lemma active_store_snapshots (pads : list (option Gamepad)) w :
  activeGamepadIndex (tester (store_snapshots pads w)) = activeGamepadIndex (tester w).
Proof.
  destruct (tester_store_snapshots pads w) as [o ->]. reflexivity.
Qed.

Lemma roster_ok_store_snapshots (pads : list (option Gamepad)) w :
  roster_ok w -> roster_ok (store_snapshots pads w).
Proof.
  intros [Hs Ha Ht]. constructor.
  - apply sorted_store_snapshots, Hs.
  - intros a E. rewrite active_store_snapshots in E.
    apply stored_store_snapshots. left. apply Ha, E.
  - intros t Hin. rewrite doc_store_snapshots in Hin.
    apply stored_store_snapshots. left. apply Ht, Hin.
Qed.

Lemma roster_of_pollGamepads w (ts : float) (pads : list (option Gamepad)) :
  roster_of (pollGamepads ts pads w) = roster_of (store_snapshots pads w).
Proof.
  unfold pollGamepads. cbn zeta.
  assert (Hraf : forall w', roster_of (requestAnimationFrame w') = roster_of w')
    by reflexivity.
  rewrite Hraf.
  destruct (activeGamepadIndex (tester (store_snapshots pads w))) as [a |];
    [| reflexivity].
  destruct (JsObj.get (gamepads (tester (store_snapshots pads w))) a) as [g |];
    [| reflexivity].
  rewrite roster_of_updateCircularity.
  change (roster_of (updatePerformanceMetrics ts (timestamp g) (store_snapshots pads w))
          = roster_of (store_snapshots pads w)).
  apply roster_of_updatePerformanceMetrics.
Qed.

Lemma roster_ok_step w (e : Event) : roster_ok w -> roster_ok (step w e).
Proof.
  intros H. destruct e as [g | g | i | v | | v | | ts pads]; cbn [step].
  - apply roster_ok_handleGamepadConnected, H.
  - apply roster_ok_handleGamepadDisconnected, H.
  - destruct (tab_exists i w) eqn:E; [| exact H]. apply roster_ok_tab_click; assumption.
  - revert H. apply roster_ok_ext. reflexivity.
  - revert H. apply roster_ok_ext. reflexivity.
  - revert H. apply roster_ok_ext. reflexivity.
  - revert H. apply roster_ok_ext. reflexivity.
  - apply (roster_ok_ext (store_snapshots pads w)).
    + apply roster_of_pollGamepads.
    + apply roster_ok_store_snapshots, H.
Qed.

Lemma roster_ok_checkExistingGamepads (pads : list (option Gamepad)) w :
  roster_ok w -> roster_ok (checkExistingGamepads pads w).
Proof.
  unfold checkExistingGamepads. revert w.
  induction pads as [| [g |] pads IH]; intros w H; cbn [fold_left].
  - exact H.
  - apply IH, roster_ok_handleGamepadConnected, H.
  - apply IH, H.
Qed.

Lemma roster_ok_session (nav : option (list (option Gamepad))) (d : Document)
  (es : list Event) :
  shown_tabs d = [] -> roster_ok (session nav d es).
Proof.
  intros Hd. unfold session.
  assert (H0 : roster_ok (initializeApp nav (World_init d))).
  { assert (Hi : roster_ok (World_init d)).
    { constructor; cbn.
      - constructor.
      - intros a E. discriminate.
      - rewrite Hd. intros t []. }
    destruct nav as [pads |]; cbn [initializeApp].
    - apply roster_ok_checkExistingGamepads.
      revert Hi. apply roster_ok_ext. reflexivity.
    - revert Hi. apply roster_ok_ext. reflexivity. }
  revert H0. generalize (initializeApp nav (World_init d)) as w.
  induction es as [| e es IH]; intros w H; cbn [run fold_left].
  - exact H.
  - apply IH, roster_ok_step, H.
Qed.

End Roster.

Section RosterSessions.
Implicit Types (w : World) (g : Gamepad).

Lemma sorted_step w (e : Event) :
  StronglySorted lt (stored w) -> StronglySorted lt (stored (step w e)).
Proof.
  intros H. destruct e as [g | g | i | v | | v | | ts pads]; cbn [step];
    try exact H.
  - unfold stored. rewrite tester_handleGamepadConnected.
    cbn [set_activeGamepadIndex set_gamepads gamepads]. apply sorted_set, H.
  - unfold stored. rewrite tester_handleGamepadDisconnected. cbn zeta.
    cbn [set_activeGamepadIndex set_gamepads gamepads]. apply sorted_delete, H.
  - destruct (tab_exists i w); [| exact H].
    unfold stored. rewrite tester_tab_click. exact H.
  - assert (E : stored (pollGamepads ts pads w) = stored (store_snapshots pads w)).
    { unfold stored.
      change (gamepads (tester (pollGamepads ts pads w)))
        with (fst (fst (roster_of (pollGamepads ts pads w)))).
      rewrite roster_of_pollGamepads. reflexivity. }
    rewrite E. apply sorted_store_snapshots, H.
Qed.

Lemma stored_checkExistingGamepads (pads : list (option Gamepad)) w (k : nat) :
  In k (stored (checkExistingGamepads pads w))
  <-> In k (stored w) \/ In k (map index (present pads)).
Proof.
  unfold checkExistingGamepads. revert w.
  induction pads as [| [g |] pads IH]; intros w; cbn [fold_left].
  - cbn. tauto.
  - change (present (Some g :: pads)) with (g :: present pads).
    rewrite IH. unfold stored at 1. rewrite tester_handleGamepadConnected.
    cbn [set_activeGamepadIndex set_gamepads gamepads].
    rewrite keys_set. cbn [map In]. unfold stored. intuition congruence.
  - change (present (None :: pads)) with (present pads). apply IH.
Qed.

Lemma sorted_checkExistingGamepads (pads : list (option Gamepad)) w :
  StronglySorted lt (stored w) -> StronglySorted lt (stored (checkExistingGamepads pads w)).
Proof.
  unfold checkExistingGamepads. revert w.
  induction pads as [| [g |] pads IH]; intros w H; cbn [fold_left].
  - exact H.
  - apply IH. unfold stored. rewrite tester_handleGamepadConnected.
    cbn [set_activeGamepadIndex set_gamepads gamepads]. apply sorted_set, H.
  - apply IH, H.
Qed.

Lemma sorted_session (nav : option (list (option Gamepad))) (d : Document)
  (es : list Event) :
  StronglySorted lt (stored (session nav d es)).
Proof.
  unfold session.
  assert (H0 : StronglySorted lt (stored (initializeApp nav (World_init d)))).
  { destruct nav as [pads |]; cbn [initializeApp].
    - apply sorted_checkExistingGamepads. constructor.
    - constructor. }
  revert H0. generalize (initializeApp nav (World_init d)) as w.
  induction es as [| e es IH]; intros w H; cbn [run fold_left].
  - exact H.
  - apply IH, sorted_step, H.
Qed.

Lemma active_checkExistingGamepads (pads : list (option Gamepad)) w :
  activeGamepadIndex (tester (checkExistingGamepads pads w))
  = match activeGamepadIndex (tester w) with
    | Some a => Some a
    | None => option_map index (hd_error (present pads))
    end.
Proof.
  unfold checkExistingGamepads. revert w.
  induction pads as [| [g |] pads IH]; intros w; cbn [fold_left].
  - destruct (activeGamepadIndex (tester w)); reflexivity.
  - rewrite IH, tester_handleGamepadConnected.
    cbn [set_activeGamepadIndex activeGamepadIndex].
    destruct (activeGamepadIndex (tester w)); reflexivity.
  - apply IH.
Qed.

Lemma animationFrameId_checkExistingGamepads (pads : list (option Gamepad)) w :
  animationFrameId (tester (checkExistingGamepads pads w)) = animationFrameId (tester w).
Proof.
  unfold checkExistingGamepads. revert w.
  induction pads as [| [g |] pads IH]; intros w; cbn [fold_left].
  - reflexivity.
  - rewrite IH, tester_handleGamepadConnected. reflexivity.
  - apply IH.
Qed.

End RosterSessions.

(** X1.  After a controller-connected event the controller is stored under
    its own index, replacing any snapshot stored there, and the controllers
    stored under other indices are untouched. *)
Theorem connected_pad_is_stored (gamepad : Gamepad) (w : World) (k : nat) :
  JsObj.get (gamepads (tester (handleGamepadConnected gamepad w))) k
  = if index gamepad =? k then Some gamepad else JsObj.get (gamepads (tester w)) k.
Proof.
  rewrite tester_handleGamepadConnected.
  cbn [set_activeGamepadIndex set_gamepads gamepads]. apply get_set.
Qed.

(** X2.  After a controller-disconnected event nothing is stored under the
    controller's index, and the controllers stored under other indices are
    untouched. *)
Theorem disconnected_pad_is_removed (gamepad : Gamepad) (w : World) (k : nat) :
  JsObj.get (gamepads (tester (handleGamepadDisconnected gamepad w))) k
  = if index gamepad =? k then None else JsObj.get (gamepads (tester w)) k.
Proof.
  rewrite tester_handleGamepadDisconnected. cbn zeta.
  cbn [set_activeGamepadIndex set_gamepads gamepads]. apply get_delete.
Qed.

(** X3.  In every session, disconnecting a controller other than the active
    one leaves the active selection alone; disconnecting the active one makes
    the stored controller with the lowest index active, or leaves no
    controller active when none is stored any more. *)
Theorem disconnect_selects_lowest_remaining
  (nav : option (list (option Gamepad))) (d : Document) (es : list Event)
  (gamepad : Gamepad) :
  let w := session nav d es in
  let w' := handleGamepadDisconnected gamepad w in
  (activeGamepadIndex (tester w) <> Some (index gamepad) ->
   activeGamepadIndex (tester w') = activeGamepadIndex (tester w))
  /\ (activeGamepadIndex (tester w) = Some (index gamepad) ->
      match activeGamepadIndex (tester w') with
      | Some a => In a (stored w') /\ forall k, In k (stored w') -> a <= k
      | None => stored w' = []
      end).
Proof.
  intros w w'.
  pose proof (sorted_step w (GamepadDisconnectedEvent gamepad) (sorted_session nav d es))
    as Hs.
  cbn [step] in Hs. fold w' in Hs.
  assert (Ea : activeGamepadIndex (tester w')
               = match activeGamepadIndex (tester w) with
                 | Some a => if a =? index gamepad
                             then hd_error (stored w') else Some a
                 | None => None
                 end).
  { unfold w', stored. rewrite tester_handleGamepadDisconnected. cbn zeta.
    cbn [set_activeGamepadIndex set_gamepads gamepads activeGamepadIndex].
    destruct (activeGamepadIndex (tester w)) as [a |]; [| reflexivity].
    destruct (a =? index gamepad); [| reflexivity].
    destruct (JsObj.keys _); reflexivity. }
  split.
  - intros Hne. rewrite Ea. destruct (activeGamepadIndex (tester w)) as [a |];
      [| reflexivity].
    destruct (Nat.eqb_spec a (index gamepad)) as [Eq | _];
      [subst a; congruence | reflexivity].
  - intros E. rewrite Ea, E, Nat.eqb_refl.
    destruct (stored w') as [| first rest]; cbn [hd_error]; [reflexivity |].
    split; [left; reflexivity |].
    apply StronglySorted_inv in Hs. destruct Hs as [_ Hall].
    rewrite Forall_forall in Hall.
    intros k [<- | Hk]; [lia |]. specialize (Hall k Hk). lia.
Qed.

Lemma disconnect_selects_lowest_remaining_witness :
  let w := session (Some []) Sample.page Sample.two_pads_session in
  activeGamepadIndex (tester (handleGamepadDisconnected (Sample.pad 1 [] 0 0) w))
  = activeGamepadIndex (tester w)
  /\ match activeGamepadIndex (tester (handleGamepadDisconnected (Sample.pad 0 [] 0 0) w))
     with
     | Some a =>
         In a (stored (handleGamepadDisconnected (Sample.pad 0 [] 0 0) w))
         /\ forall k, In k (stored (handleGamepadDisconnected (Sample.pad 0 [] 0 0) w))
                      -> a <= k
     | None => stored (handleGamepadDisconnected (Sample.pad 0 [] 0 0) w) = []
     end.
Proof.
  intros w. split.
  - apply (proj1 (disconnect_selects_lowest_remaining (Some []) Sample.page
                    Sample.two_pads_session (Sample.pad 1 [] 0 0))).
    vm_compute. discriminate.
  - apply (proj2 (disconnect_selects_lowest_remaining (Some []) Sample.page
                    Sample.two_pads_session (Sample.pad 0 [] 0 0))).
    reflexivity.
Defined.

(** X4.  In every session on a page that starts without reachable tabs, the
    active index always names a stored controller, and so does every tab
    that can be clicked. *)
Theorem active_controller_is_stored
  (nav : option (list (option Gamepad))) (d : Document) (es : list Event) :
  shown_tabs d = [] ->
  let w := session nav d es in
  (forall a, activeGamepadIndex (tester w) = Some a ->
             exists g, JsObj.get (gamepads (tester w)) a = Some g)
  /\ (forall i, tab_exists i w = true ->
                exists g, JsObj.get (gamepads (tester w)) i = Some g).
Proof.
  intros Hd w. destruct (roster_ok_session nav d es Hd) as [_ Ha Ht]. fold w in Ha, Ht.
  split.
  - intros a E. apply get_keys. apply Ha, E.
  - intros i Hex. apply get_keys.
    unfold tab_exists in Hex. apply andb_true_iff in Hex. destruct Hex as [Hh Hex].
    apply existsb_exists in Hex. destruct Hex as (t & Hin & Et).
    apply Nat.eqb_eq in Et. subst i. apply Ht. unfold shown_tabs.
    apply negb_true_iff in Hh. rewrite Hh. exact Hin.
Qed.

Lemma active_controller_is_stored_witness :
  let w := session (Some []) Sample.page Sample.two_pads_session in
  exists g, JsObj.get (gamepads (tester w)) 0 = Some g.
Proof.
  intros w.
  apply (proj1 (active_controller_is_stored (Some []) Sample.page
                  Sample.two_pads_session eq_refl) 0).
  reflexivity.
Defined.

(** X5.  When the script starts with controllers already connected, every
    controller present is stored under its index, the first one present
    becomes the active controller (none when no slot is filled), and the
    polling loop is started. *)
Theorem startup_activates_first_present (pads : list (option Gamepad)) (d : Document) :
  let w := initializeApp (Some pads) (World_init d) in
  activeGamepadIndex (tester w) = option_map index (hd_error (present pads))
  /\ (forall k, In k (stored w) <-> In k (map index (present pads)))
  /\ animationFrameId (tester w) = Some 1.
Proof.
  cbn zeta. cbn [initializeApp]. repeat split.
  - rewrite active_checkExistingGamepads. reflexivity.
  - intros H. apply stored_checkExistingGamepads in H. destruct H as [[] | H]. exact H.
  - intros H. apply stored_checkExistingGamepads. right. exact H.
  - rewrite animationFrameId_checkExistingGamepads. reflexivity.
Qed.

(* ================================================================== *)
(** ** The polling tick                                                *)
(* ================================================================== *)

Section Tick.
Implicit Types (w : World) (g : Gamepad).

Lemma raf_next_store_snapshots (pads : list (option Gamepad)) w :
  raf_next (store_snapshots pads w) = raf_next w.
Proof.
  unfold store_snapshots. revert w.
  induction pads as [| [g |] pads IH]; intros w; cbn [fold_left].
  - reflexivity.
  - rewrite IH. reflexivity.
  - apply IH.
Qed.

Lemma present_In (pads : list (option Gamepad)) g :
  In g (present pads) <-> In (Some g) pads.
Proof.
  unfold present. rewrite in_flat_map. split.
  - intros ([g' |] & Hin & Hg); cbn in Hg; [| contradiction].
    destruct Hg as [<- | []]. exact Hin.
  - intros H. exists (Some g). split; [exact H | left; reflexivity].
Qed.

(** A frame without a snapshot for index [k] leaves what is stored there. *)
Lemma get_store_other (pads : list (option Gamepad)) w (k : nat) :
  ~ In k (map index (present pads)) ->
  JsObj.get (gamepads (tester (store_snapshots pads w))) k
  = JsObj.get (gamepads (tester w)) k.
Proof.
  unfold store_snapshots. revert w.
  induction pads as [| [g |] pads IH]; intros w Hk; cbn [fold_left].
  - reflexivity.
  - change (present (Some g :: pads)) with (g :: present pads) in Hk.
    cbn [map In] in Hk. rewrite IH by tauto.
    cbn [on_tester tester set_gamepads gamepads]. rewrite get_set.
    destruct (Nat.eqb_spec (index g) k); [tauto | reflexivity].
  - apply IH. exact Hk.
Qed.

(** A snapshot of the frame is what is stored under its index afterwards. *)
Lemma get_store_fresh (pads : list (option Gamepad)) w g :
  NoDup (map index (present pads)) ->
  In g (present pads) ->
  JsObj.get (gamepads (tester (store_snapshots pads w))) (index g) = Some g.
Proof.
  revert w. induction pads as [| [g' |] pads IH]; intros w Hnd Hin.
  - destruct Hin.
  - change (present (Some g' :: pads)) with (g' :: present pads) in Hnd, Hin.
    cbn [map] in Hnd. apply NoDup_cons_iff in Hnd. destruct Hnd as [Hfresh Hnd].
    change (store_snapshots (Some g' :: pads) w)
      with (store_snapshots pads
              (on_tester (fun t => set_gamepads (JsObj.set (gamepads t) (index g') g') t) w)).
    destruct Hin as [-> | Hin].
    + rewrite get_store_other by exact Hfresh.
      cbn [on_tester tester set_gamepads gamepads]. rewrite get_set, Nat.eqb_refl.
      reflexivity.
    + apply IH; assumption.
  - change (present (None :: pads)) with (present pads) in Hnd, Hin.
    change (store_snapshots (None :: pads) w) with (store_snapshots pads w).
    apply IH; assumption.
Qed.

Lemma raf_next_chain w g (ts : float) :
  raf_next (w |> updatePerformanceMetrics ts (timestamp g)
              |> updateVisualController g |> updateRawDataTable g
              |> updateControllerInfo g |> updateTriggerPressure g
              |> updateOscilloscope g ts |> updateCircularity g)
  = raf_next w.
Proof.
  rewrite raf_next_updateCircularity.
  change (raf_next (updatePerformanceMetrics ts (timestamp g) w) = raf_next w).
  apply raf_next_updatePerformanceMetrics.
Qed.

End Tick.

(** X6.  A tick while no controller is active stores the frame's snapshots
    and does nothing else: the document, the rate windows, the trigger sets
    and both buffers are left as they were, and no controller becomes
    active. *)
Theorem idle_tick_is_silent
  (w : World) (frameTime : float) (pads : list (option Gamepad)) :
  activeGamepadIndex (tester w) = None ->
  let w' := pollGamepads frameTime pads w in
  doc w' = doc w
  /\ performance (tester w') = performance (tester w)
  /\ triggerTracking (tester w') = triggerTracking (tester w)
  /\ oscilloscopeData (tester w') = oscilloscopeData (tester w)
  /\ circularityData (tester w') = circularityData (tester w)
  /\ activeGamepadIndex (tester w') = None
  /\ (forall k, In k (stored w') <-> In k (stored w) \/ In k (map index (present pads))).
Proof.
  intros Hnone. cbn zeta.
  assert (E : pollGamepads frameTime pads w
              = requestAnimationFrame (store_snapshots pads w)).
  { unfold pollGamepads. cbn zeta. rewrite active_store_snapshots, Hnone. reflexivity. }
  rewrite E. destruct (tester_store_snapshots pads w) as [o Ho].
  unfold requestAnimationFrame, stored. cbn [doc tester].
  rewrite doc_store_snapshots.
  repeat split; try (rewrite Ho; cbn; try rewrite Hnone; reflexivity).
  - intros H. apply (stored_store_snapshots pads w k). exact H.
  - intros H. apply (stored_store_snapshots pads w k) in H. exact H.
Qed.

Lemma idle_tick_is_silent_witness :
  let w := session (Some []) Sample.page [] in
  doc (pollGamepads 16 [Some Sample.drifting_pad] w) = doc w.
Proof.
  intros w.
  apply (proj1 (idle_tick_is_silent w 16 [Some Sample.drifting_pad] eq_refl)).
Defined.

(** X7.  Every tick, whether or not a controller was processed, requests
    exactly one further animation frame and records its handle. *)
Theorem tick_reschedules (w : World) (frameTime : float) (pads : list (option Gamepad)) :
  animationFrameId (tester (pollGamepads frameTime pads w)) = Some (raf_next w)
  /\ raf_next (pollGamepads frameTime pads w) = S (raf_next w).
Proof.
  unfold pollGamepads. cbn zeta. unfold requestAnimationFrame.
  cbn [tester raf_next set_animationFrameId animationFrameId].
  assert (E : raf_next
                match activeGamepadIndex (tester (store_snapshots pads w)) with
                | Some active =>
                    match JsObj.get (gamepads (tester (store_snapshots pads w))) active with
                    | Some gamepad =>
                        store_snapshots pads w
                          |> updatePerformanceMetrics frameTime (timestamp gamepad)
                          |> updateVisualController gamepad
                          |> updateRawDataTable gamepad
                          |> updateControllerInfo gamepad
                          |> updateTriggerPressure gamepad
                          |> updateOscilloscope gamepad frameTime
                          |> updateCircularity gamepad
                    | None => store_snapshots pads w
                    end
                | None => store_snapshots pads w
                end = raf_next w).
  { destruct (activeGamepadIndex _) as [a |];
      [destruct (JsObj.get _ a) as [g |] |];
      rewrite ?raf_next_chain; apply raf_next_store_snapshots. }
  rewrite E. split; reflexivity.
Qed.

(** X8.  The controller a tick processes is the one stored under the active
    index after the frame's snapshots were stored: the frame's own snapshot
    when the frame has one for that index, and the snapshot kept from an
    earlier frame when it has none. *)
Theorem tick_processes_stored_snapshot
  (w : World) (frameTime : float) (pads : list (option Gamepad))
  (active : nat) (gamepad : Gamepad) :
  let processed g :=
    tester (pollGamepads frameTime pads w)
    = tester (store_snapshots pads w
                |> updatePerformanceMetrics frameTime (timestamp g)
                |> updateTriggerPressure g
                |> updateOscilloscope g frameTime
                |> updateCircularity g
                |> requestAnimationFrame) in
  activeGamepadIndex (tester w) = Some active ->
  (NoDup (map index (present pads)) ->
   In (Some gamepad) pads -> index gamepad = active ->
   processed gamepad)
  /\ (~ In active (map index (present pads)) ->
      JsObj.get (gamepads (tester w)) active = Some gamepad ->
      processed gamepad).
Proof.
  intros processed Ha. unfold processed. split.
  - intros Hnd Hin Hidx. apply tester_pollGamepads with (active := active).
    + rewrite active_store_snapshots. exact Ha.
    + rewrite <- Hidx. apply get_store_fresh; [exact Hnd | apply present_In, Hin].
  - intros Hout Hget. apply tester_pollGamepads with (active := active).
    + rewrite active_store_snapshots. exact Ha.
    + rewrite get_store_other by exact Hout. exact Hget.
Qed.

Lemma tick_processes_stored_snapshot_witness :
  let w := session (Some []) Sample.page [GamepadConnectedEvent (Sample.pad 0 [] 0 0)] in
  tester (pollGamepads 16 [Some Sample.drifting_pad] w)
  = tester (store_snapshots [Some Sample.drifting_pad] w
              |> updatePerformanceMetrics 16 (timestamp Sample.drifting_pad)
              |> updateTriggerPressure Sample.drifting_pad
              |> updateOscilloscope Sample.drifting_pad 16
              |> updateCircularity Sample.drifting_pad
              |> requestAnimationFrame)
  /\ tester (pollGamepads 16 [None] w)
     = tester (store_snapshots [None] w
                 |> updatePerformanceMetrics 16 (timestamp (Sample.pad 0 [] 0 0))
                 |> updateTriggerPressure (Sample.pad 0 [] 0 0)
                 |> updateOscilloscope (Sample.pad 0 [] 0 0) 16
                 |> updateCircularity (Sample.pad 0 [] 0 0)
                 |> requestAnimationFrame).
Proof.
  intros w. split.
  - apply (proj1 (tick_processes_stored_snapshot w 16 [Some Sample.drifting_pad] 0
                    Sample.drifting_pad eq_refl)).
    + repeat constructor. intros [].
    + left. reflexivity.
    + reflexivity.
  - apply (proj2 (tick_processes_stored_snapshot w 16 [None] 0
                    (Sample.pad 0 [] 0 0) eq_refl)).
    + intros [].
    + reflexivity.
Defined.

(* ================================================================== *)
(** ** Trigger sets                                                    *)
(* ================================================================== *)

Section TriggerSets.
Implicit Types (w : World) (g : Gamepad) (s : JsSet.t) (v : float).

Lemma same_value_zero_refl v : JsSet.same_value_zero v v = true.
Proof.
  unfold JsSet.same_value_zero, is_nan. destruct (eqb v v); reflexivity.
Qed.

Lemma has_add s v : JsSet.has (JsSet.add s v) v = true.
Proof.
  unfold JsSet.add. destruct (JsSet.has s v) eqn:E; [exact E |].
  unfold JsSet.has. rewrite existsb_app. cbn [existsb].
  rewrite same_value_zero_refl, orb_true_r. reflexivity.
Qed.

Lemma add_add s v : JsSet.add (JsSet.add s v) v = JsSet.add s v.
Proof. unfold JsSet.add at 1. rewrite has_add. reflexivity. Qed.

Lemma track_track s v : track (track s v) v = track s v.
Proof. unfold track. destruct (Js.gt v 0); [apply add_add | reflexivity]. Qed.

Lemma has_rev s v : JsSet.has (rev s) v = JsSet.has s v.
Proof.
  unfold JsSet.has. apply eq_true_iff_eq. rewrite !existsb_exists.
  split; intros (x & Hin & Hx); exists x; (split; [| exact Hx]).
  - apply in_rev. exact Hin.
  - apply in_rev in Hin. exact Hin.
Qed.

Lemma tracked_ok_track s v : tracked_ok s = true -> tracked_ok (track s v) = true.
Proof.
  unfold track, JsSet.add. intros H.
  destruct (Js.gt v 0) eqn:Hv; [| exact H].
  destruct (JsSet.has s v) eqn:Hh; [exact H |].
  unfold tracked_ok in *. apply andb_true_iff in H. destruct H as [Hp Hn].
  rewrite forallb_app, Hp, rev_app_distr. cbn [forallb rev app no_repeat].
  rewrite Hv, has_rev, Hh, Hn. reflexivity.
Qed.

Lemma tracking_after_updateTriggerPressure w g :
  triggerTracking (tester (updateTriggerPressure g w))
  = {| tt_left := track (tt_left (triggerTracking (tester w))) (trigger_value g 6);
       tt_right := track (tt_right (triggerTracking (tester w))) (trigger_value g 7) |}.
Proof. reflexivity. Qed.

(** The trigger sets after a tick: untouched, or updated with the values of
    one controller. *)
Lemma tracking_pollGamepads w (ts : float) (pads : list (option Gamepad)) :
  triggerTracking (tester (pollGamepads ts pads w)) = triggerTracking (tester w)
  \/ exists g,
      triggerTracking (tester (pollGamepads ts pads w))
      = {| tt_left := track (tt_left (triggerTracking (tester w))) (trigger_value g 6);
           tt_right := track (tt_right (triggerTracking (tester w))) (trigger_value g 7) |}.
Proof.
  destruct (tester_store_snapshots pads w) as [o Ho].
  assert (Hs : triggerTracking (tester (store_snapshots pads w))
               = triggerTracking (tester w)) by (rewrite Ho; reflexivity).
  assert (Hraf : forall w', triggerTracking (tester (requestAnimationFrame w'))
                            = triggerTracking (tester w')) by reflexivity.
  destruct (activeGamepadIndex (tester (store_snapshots pads w))) as [a |] eqn:Ea.
  - destruct (JsObj.get (gamepads (tester (store_snapshots pads w))) a) as [g |] eqn:Eg.
    + right. exists g.
      rewrite (tester_pollGamepads w g ts pads a Ea Eg).
      rewrite Hraf, tracking_updateCircularity, tracking_updateOscilloscope.
      rewrite tracking_after_updateTriggerPressure.
      rewrite tracking_updatePerformanceMetrics, Hs. reflexivity.
    + left. unfold pollGamepads. cbn zeta. rewrite Ea, Eg, Hraf. exact Hs.
  - left. unfold pollGamepads. cbn zeta. rewrite Ea, Hraf. exact Hs.
Qed.

Lemma tracking_step w (e : Event) :
  triggerTracking (tester (step w e)) = triggerTracking (tester w)
  \/ triggerTracking (tester (step w e)) = {| tt_left := []; tt_right := [] |}
  \/ exists g,
      triggerTracking (tester (step w e))
      = {| tt_left := track (tt_left (triggerTracking (tester w))) (trigger_value g 6);
           tt_right := track (tt_right (triggerTracking (tester w))) (trigger_value g 7) |}.
Proof.
  destruct e as [g | g | i | v | | v | | ts pads]; cbn [step];
    try (left; reflexivity).
  - left. rewrite tester_handleGamepadConnected. reflexivity.
  - left. rewrite tester_handleGamepadDisconnected. reflexivity.
  - destruct (tab_exists i w); [| left; reflexivity].
    right. left. apply tab_click_resets.
  - destruct (tracking_pollGamepads w ts pads) as [H | H]; [left | right; right];
      exact H.
Qed.

(** Two numbers that compare equal are the same float, unless both are
    zeros. *)
Lemma SFcompare_Eq (a b : spec_float) :
  SFcompare a b = Some Eq ->
  a = b \/ (exists za zb, a = S754_zero za /\ b = S754_zero zb).
Proof.
  destruct a as [sa | sa | | sa ma ea], b as [sb | sb | | sb mb eb];
    cbn [SFcompare]; try discriminate;
    try (intros _; right; exists sa, sb; split; reflexivity);
    destruct sa, sb; try discriminate;
    try (intros _; left; reflexivity);
    destruct (Z.compare_spec ea eb) as [-> | _ | _]; try discriminate;
    intros H;
    assert (Hm : Pos.compare ma mb = Eq)
      by (unfold Pos.compare; destruct (Pos.compare_cont Eq ma mb);
          (reflexivity || discriminate));
    apply Pos.compare_eq in Hm; subst mb; left; reflexivity.
Qed.

(** Under the Set's equality a value greater than 0 equals itself only. *)
Lemma same_value_zero_positive v (u : float) :
  ltb 0 v = true -> JsSet.same_value_zero v u = true -> v = u.
Proof.
  intros Hv H. unfold JsSet.same_value_zero, is_nan in H.
  rewrite ltb_spec in Hv. rewrite !eqb_spec in H.
  change (Prim2SF 0) with (S754_zero false) in Hv.
  assert (Hself : SFeqb (Prim2SF v) (Prim2SF v) = true).
  { unfold SFltb in Hv. unfold SFeqb.
    destruct (Prim2SF v) as [sv | sv | | sv mv ev]; cbn [SFcompare] in Hv;
      try discriminate.
    - destruct sv; [discriminate | reflexivity].
    - destruct sv; [discriminate |]. cbn [SFcompare].
      rewrite Z.compare_refl, Pos.compare_cont_refl. reflexivity. }
  rewrite Hself in H. cbn [negb andb] in H. rewrite orb_false_r in H.
  unfold SFeqb in H.
  destruct (SFcompare (Prim2SF v) (Prim2SF u)) as [[| |] |] eqn:E; try discriminate.
  destruct (SFcompare_Eq _ _ E) as [Heq | (sa & sb & Ha & _)].
  - apply Prim2SF_inj. exact Heq.
  - rewrite Ha in Hv. discriminate.
Qed.

Lemma has_positive s v : ltb 0 v = true -> JsSet.has s v = true <-> In v s.
Proof.
  intros Hv. unfold JsSet.has. rewrite existsb_exists. split.
  - intros (u & Hin & Hu).
    rewrite (same_value_zero_positive v u Hv Hu). exact Hin.
  - intros Hin. exists v. split; [exact Hin | apply same_value_zero_refl].
Qed.

(** Tracking one more reported value keeps a set the record of the distinct
    positive values seen. *)
Lemma distinct_positive_track (seen : list float) s v :
  distinct_positive_of seen s -> distinct_positive_of (seen ++ [v]) (track s v).
Proof.
  intros [Hnd Hin]. unfold track, Js.gt, JsSet.add.
  destruct (ltb 0 v) eqn:Hv.
  - destruct (JsSet.has s v) eqn:Hh.
    + apply (has_positive s v Hv) in Hh. split; [exact Hnd |].
      intros u. rewrite Hin, in_app_iff. cbn [In]. split.
      * intros [H1 H2]. split; [left; exact H1 | exact H2].
      * intros [[H1 | [H1 | []]] H2]; [split; assumption |].
        subst u. apply Hin. exact Hh.
    + assert (Hnot : ~ In v s).
      { intros Hc. apply (has_positive s v Hv) in Hc. congruence. }
      split.
      * apply NoDup_app; [exact Hnd | repeat constructor; intros [] |].
        intros a Ha [Hb | []]. subst a. exact (Hnot Ha).
      * intros u. rewrite !in_app_iff, Hin. cbn [In]. split.
        -- intros [[H1 H2] | [H1 | []]].
           ++ split; [left; exact H1 | exact H2].
           ++ subst u. split; [right; left; reflexivity | exact Hv].
        -- intros [[H1 | [H1 | []]] H2].
           ++ left. split; assumption.
           ++ right. left. exact H1.
  - split; [exact Hnd |].
    intros u. rewrite Hin, in_app_iff. cbn [In]. split.
    + intros [H1 H2]. split; [left; exact H1 | exact H2].
    + intros [[H1 | [H1 | []]] H2]; [split; assumption |].
      subst u. congruence.
Qed.

Lemma distinct_positive_empty : distinct_positive_of [] [].
Proof.
  split; [constructor |]. intros v. cbn [In]. tauto.
Qed.

(** What a tick does to the trigger sets, by the snapshot it processes. *)
Lemma tracking_pollGamepads_processed w (ts : float) (pads : list (option Gamepad)) :
  triggerTracking (tester (pollGamepads ts pads w))
  = match processed pads w with
    | Some g =>
        {| tt_left := track (tt_left (triggerTracking (tester w))) (trigger_value g 6);
           tt_right := track (tt_right (triggerTracking (tester w))) (trigger_value g 7) |}
    | None => triggerTracking (tester w)
    end.
Proof.
  destruct (tester_store_snapshots pads w) as [o Ho].
  assert (Hs : triggerTracking (tester (store_snapshots pads w))
               = triggerTracking (tester w)) by (rewrite Ho; reflexivity).
  unfold processed. cbn zeta.
  destruct (activeGamepadIndex (tester (store_snapshots pads w))) as [a |] eqn:Ea.
  - destruct (JsObj.get (gamepads (tester (store_snapshots pads w))) a) as [g |] eqn:Eg.
    + rewrite (tester_pollGamepads w g ts pads a Ea Eg).
      rewrite tracking_requestAnimationFrame, tracking_updateCircularity,
        tracking_updateOscilloscope, tracking_after_updateTriggerPressure,
        tracking_updatePerformanceMetrics, Hs.
      reflexivity.
    + unfold pollGamepads. cbn zeta.
      rewrite Ea, Eg, tracking_requestAnimationFrame. exact Hs.
  - unfold pollGamepads. cbn zeta. rewrite Ea, tracking_requestAnimationFrame. exact Hs.
Qed.

(** One event keeps each trigger set the record of the distinct positive
    values its button reported since the sets were last emptied. *)
Lemma distinct_positive_step w (e : Event) (seen : list Gamepad) (i : nat)
  (side : TriggerTracking -> JsSet.t) :
  (i = 6 /\ side = tt_left) \/ (i = 7 /\ side = tt_right) ->
  distinct_positive_of (map (fun g => trigger_value g i) seen)
    (side (triggerTracking (tester w))) ->
  distinct_positive_of (map (fun g => trigger_value g i) (observe w e seen))
    (side (triggerTracking (tester (step w e)))).
Proof.
  intros Hside H.
  destruct e as [g | g | k | v | | v | | ts pads]; cbn [step observe];
    try exact H.
  - rewrite tester_handleGamepadConnected. exact H.
  - rewrite tester_handleGamepadDisconnected. exact H.
  - destruct (tab_exists k w); [| exact H].
    rewrite tab_click_resets.
    destruct Hside as [[_ ->] | [_ ->]]; apply distinct_positive_empty.
  - rewrite tracking_pollGamepads_processed.
    destruct (processed pads w) as [g |]; [| exact H].
    rewrite map_app. cbn [map].
    destruct Hside as [[-> ->] | [-> ->]]; cbn [tt_left tt_right] in *;
      apply distinct_positive_track; exact H.
Qed.

Lemma distinct_positive_run (es : list Event) w (seen : list Gamepad) (i : nat)
  (side : TriggerTracking -> JsSet.t) :
  (i = 6 /\ side = tt_left) \/ (i = 7 /\ side = tt_right) ->
  distinct_positive_of (map (fun g => trigger_value g i) seen)
    (side (triggerTracking (tester w))) ->
  distinct_positive_of (map (fun g => trigger_value g i) (since_reset w es seen))
    (side (triggerTracking (tester (run w es)))).
Proof.
  intros Hside. revert w seen.
  induction es as [| e es IH]; intros w seen H; cbn [run fold_left since_reset].
  - exact H.
  - apply IH, distinct_positive_step; assumption.
Qed.

Lemma tracking_checkExistingGamepads (pads : list (option Gamepad)) w :
  triggerTracking (tester (checkExistingGamepads pads w)) = triggerTracking (tester w).
Proof.
  unfold checkExistingGamepads. revert w.
  induction pads as [| [g |] pads IH]; intros w; cbn [fold_left].
  - reflexivity.
  - rewrite IH, tester_handleGamepadConnected. reflexivity.
  - apply IH.
Qed.

End TriggerSets.

(** X9.  Observing the same trigger values a second time changes neither
    trigger set, so the reported step counts stay where they were. *)
Theorem trigger_tracking_idempotent (gamepad : Gamepad) (w : World) :
  triggerTracking (tester (updateTriggerPressure gamepad (updateTriggerPressure gamepad w)))
  = triggerTracking (tester (updateTriggerPressure gamepad w)).
Proof.
  rewrite !tracking_after_updateTriggerPressure. cbn [tt_left tt_right].
  rewrite !track_track. reflexivity.
Qed.

Lemma tracked_ok_session
  (nav : option (list (option Gamepad))) (d : Document) (es : list Event) :
  let tt := triggerTracking (tester (session nav d es)) in
  tracked_ok (tt_left tt) = true /\ tracked_ok (tt_right tt) = true.
Proof.
  cbn zeta. unfold session.
  assert (H0 : tracked_ok (tt_left (triggerTracking
                 (tester (initializeApp nav (World_init d))))) = true
               /\ tracked_ok (tt_right (triggerTracking
                    (tester (initializeApp nav (World_init d))))) = true).
  { destruct nav as [pads |]; cbn [initializeApp].
    - rewrite tracking_checkExistingGamepads. split; reflexivity.
    - split; reflexivity. }
  revert H0. generalize (initializeApp nav (World_init d)) as w.
  induction es as [| e es IH]; intros w H; cbn [run fold_left].
  - exact H.
  - apply IH. destruct H as [Hl Hr].
    destruct (tracking_step w e) as [E | [E | [g E]]]; rewrite E; cbn [tt_left tt_right].
    + split; assumption.
    + split; reflexivity.
    + split; apply tracked_ok_track; assumption.
Qed.

Lemma tracking_initializeApp
  (nav : option (list (option Gamepad))) (d : Document) :
  triggerTracking (tester (initializeApp nav (World_init d)))
  = {| tt_left := []; tt_right := [] |}.
Proof.
  destruct nav as [pads |]; cbn [initializeApp].
  - rewrite tracking_checkExistingGamepads. reflexivity.
  - reflexivity.
Qed.

(** X10.  In every session each trigger set holds exactly the values
    greater than 0 that its button (6 for the left set, 7 for the right
    one, 0 standing in for a missing button) reported in the snapshots
    processed since the sets were last emptied, and holds none of them
    twice: its size is the number of distinct positive values seen since the
    last reset.  In particular it holds positive values only, with no
    repetition under the Set's own equality. *)
Theorem trigger_sets_positive_distinct
  (nav : option (list (option Gamepad))) (d : Document) (es : list Event) :
  let tt := triggerTracking (tester (session nav d es)) in
  let seen := since_reset (initializeApp nav (World_init d)) es [] in
  let reported (i : nat) :=
    map (fun g => match nth_error (buttons g) i with
                  | Some b => value b
                  | None => 0%float
                  end) seen in
  (NoDup (tt_left tt)
   /\ forall v, In v (tt_left tt) <-> In v (reported 6) /\ ltb 0 v = true)
  /\ (NoDup (tt_right tt)
      /\ forall v, In v (tt_right tt) <-> In v (reported 7) /\ ltb 0 v = true)
  /\ tracked_ok (tt_left tt) = true /\ tracked_ok (tt_right tt) = true.
Proof.
  cbn zeta. split; [| split; [| apply tracked_ok_session]].
  - apply (distinct_positive_run es (initializeApp nav (World_init d)) [] 6 tt_left).
    + left. split; reflexivity.
    + rewrite tracking_initializeApp. apply distinct_positive_empty.
  - apply (distinct_positive_run es (initializeApp nav (World_init d)) [] 7 tt_right).
    + right. split; reflexivity.
    + rewrite tracking_initializeApp. apply distinct_positive_empty.
Qed.

(** With two controllers connected, three ticks report the active one's
    left trigger at 0.5, 0.5 and 0.25: two distinct positive values are
    held; a click on a controller tab empties the set, and the next tick
    starts the count again. *)
Example trigger_sets_count_distinct :
  let rest : Gamepad := Sample.pad 1 [0; 0; 0; 0]%float 0 0 in
  let frame (t lt : float) :=
    AnimationFrame t [Some (Sample.pad 0 [0; 0; 0; 0]%float lt 0); Some rest] in
  let es := [GamepadConnectedEvent (Sample.pad 0 [0; 0; 0; 0]%float 0 0);
             GamepadConnectedEvent rest;
             frame 16 0.5; frame 32 0.5; frame 48 0.25]%float in
  let es' := es ++ [TabClick 0; frame 64%float 0.03%float] in
  let seen es := since_reset (initializeApp (Some []) (World_init Sample.page)) es [] in
  tt_left (triggerTracking (tester (session (Some []) Sample.page es)))
  = [0.5; 0.25]%float
  /\ List.length (seen es) = 3
  /\ tt_left (triggerTracking (tester (session (Some []) Sample.page es')))
     = [0.03]%float
  /\ List.length (seen es') = 1.
Proof. vm_compute. repeat split. Qed.

(** X11.  No event other than a click on a controller tab ever makes a
    trigger set smaller. *)
Theorem resolution_only_reset_by_tab_click (w : World) (e : Event) :
  (forall i, e <> TabClick i) ->
  let tt := triggerTracking (tester w) in
  let tt' := triggerTracking (tester (step w e)) in
  JsSet.size (tt_left tt) <= JsSet.size (tt_left tt')
  /\ JsSet.size (tt_right tt) <= JsSet.size (tt_right tt').
Proof.
  intros Hne. cbn zeta.
  destruct e as [g | g | i | v | | v | | ts pads]; cbn [step];
    try (split; apply Nat.le_refl).
  - rewrite tester_handleGamepadConnected. split; apply Nat.le_refl.
  - rewrite tester_handleGamepadDisconnected. split; apply Nat.le_refl.
  - exfalso. apply (Hne i). reflexivity.
  - apply tick_resolution_monotone.
Qed.

Lemma resolution_only_reset_by_tab_click_witness :
  let w := session (Some []) Sample.page Sample.two_pads_session in
  let e := GamepadDisconnectedEvent (Sample.pad 0 [] 0 0) in
  JsSet.size (tt_left (triggerTracking (tester w)))
  <= JsSet.size (tt_left (triggerTracking (tester (step w e)))).
Proof.
  intros w e.
  apply (proj1 (resolution_only_reset_by_tab_click w e
                  (fun i (H : e = TabClick i) =>
                     eq_ind e (fun x => match x with
                                        | GamepadDisconnectedEvent _ => True
                                        | _ => False
                                        end) I _ H))).
Defined.

(* ================================================================== *)
(** ** Oscilloscope: selection and clearing                            *)
(* ================================================================== *)

(** X12.  The oscilloscope keeps one trace per stick: a tick appends to the
    selected stick's trace and leaves the other stick's trace as it is, and
    switching the tracked stick clears neither. *)
Theorem oscilloscope_traces_independent
  (w : World) (gamepad : Gamepad) (timestamp : float) (v : Stick) :
  osc_get (oscilloscopeData (tester (updateOscilloscope gamepad timestamp w)))
          (other_stick (selectedScope (tester w)))
  = osc_get (oscilloscopeData (tester w)) (other_stick (selectedScope (tester w)))
  /\ oscilloscopeData (tester (scope_axis_change v w)) = oscilloscopeData (tester w)
  /\ selectedScope (tester (scope_axis_change v w)) = v.
Proof.
  repeat split. rewrite tester_updateOscilloscope. cbn zeta.
  cbn [set_oscilloscopeData oscilloscopeData]. rewrite osc_get_set.
  destruct (selectedScope (tester w)); reflexivity.
Qed.

(** X13.  A clear empties the traces of both sticks and redraws the bare
    grid; the tick that follows stores at most one sample and again draws the
    bare grid only, since a polyline needs two samples. *)
Theorem oscilloscope_clear_then_first_sample
  (w : World) (gamepad : Gamepad) (timestamp : float) :
  let canvas := oscilloscope_canvas (doc w) in
  let grid := drawOscilloscopeGrid (canvas_width canvas) (canvas_height canvas) in
  let w1 := clearOscilloscope w in
  let w2 := updateOscilloscope gamepad timestamp w1 in
  (forall s, osc_get (oscilloscopeData (tester w1)) s = {| trace_x := []; trace_y := [] |})
  /\ canvas_ops (oscilloscope_canvas (doc w1)) = canvas_ops canvas ++ grid
  /\ List.length (trace_x (osc_get (oscilloscopeData (tester w2))
                                   (selectedScope (tester w)))) <= 1
  /\ canvas_ops (oscilloscope_canvas (doc w2)) = (canvas_ops canvas ++ grid) ++ grid.
Proof.
  cbn zeta. split; [intros []; reflexivity |]. split; [reflexivity |].
  unfold updateOscilloscope. cbn zeta.
  cbn [clearOscilloscope on_tester on_doc tester doc set_oscilloscopeData
         oscilloscopeData selectedScope osc_maxPoints set_oscilloscope_canvas
         oscilloscope_canvas draw canvas_ops canvas_width canvas_height].
  assert (E : osc_get
                {| osc_left := {| trace_x := []; trace_y := [] |};
                   osc_right := {| trace_x := []; trace_y := [] |};
                   osc_maxPoints := osc_maxPoints (oscilloscopeData (tester w));
                   osc_timeOffset := osc_timeOffset (oscilloscopeData (tester w)) |}
                (selectedScope (tester w))
              = {| trace_x := []; trace_y := [] |})
    by (destruct (selectedScope (tester w)); reflexivity).
  rewrite E. cbn [trace_x trace_y app List.length tl].
  rewrite osc_get_set.
  replace (match selectedScope (tester w) with StickLeft => _ | StickRight => _ end)
    with true by (destruct (selectedScope (tester w)); reflexivity).
  unfold drawOscilloscopeGraph.
  destruct (osc_maxPoints (oscilloscopeData (tester w)) <? 1);
    cbn [trace_x trace_y List.length Nat.ltb Nat.leb]; rewrite app_nil_r;
    split; (lia || reflexivity).
Qed.

(* ================================================================== *)
(** ** Circularity error: where it reads zero                          *)
(* ================================================================== *)

Section ZeroError.

Lemma totalError_zero (data : list Point) :
  Forall (fun p => Js.gt (distance p) 0.5 = false \/ distance p = 1%float) data ->
  totalError data = zero.
Proof.
  intros H. unfold totalError.
  assert (G : forall acc, acc = zero ->
              fold_left (fun total point =>
                           if Js.gt (distance point) 0.5
                           then add total (abs (sub (distance point) 1.0))
                           else total) data acc = zero).
  { induction H as [| p data Hp _ IH]; intros acc Hacc; cbn [fold_left].
    - exact Hacc.
    - apply IH. destruct Hp as [-> | ->]; [exact Hacc |].
      rewrite Hacc. reflexivity. }
  apply G. reflexivity.
Qed.

Lemma zero_error_shown (n : nat) :
  10 < n <= 1000 -> Js.toFixed 2 (mul (div zero (Js.of_nat n)) 100) = "0.00".
Proof.
  intros Hn.
  assert (Hall : forallb (fun k => String.eqb
                                     (Js.toFixed 2 (mul (div zero (Js.of_nat k)) 100))
                                     "0.00")
                         (seq 11 990) = true) by (vm_compute; reflexivity).
  rewrite forallb_forall in Hall. apply String.eqb_eq, Hall, in_seq. lia.
Qed.

End ZeroError.

(** X14.  With more than 10 (and at most 1000) retained samples, none of
    which lies farther than 0.5 from the centre except samples at distance
    exactly 1.0, the reported circularity error is "0.00%": samples near the
    centre are not measured at all, and samples on the unit circle measure
    as perfect. *)
Theorem circularity_error_zero (w : World) :
  let data := circ_get (circularityData (tester w)) (selectedCircle (tester w)) in
  10 < List.length data <= 1000 ->
  Forall (fun p => Js.gt (distance p) 0.5 = false \/ distance p = 1%float) data ->
  text (doc (drawCircularityTest w)) "circularity-error" = "0.00%".
Proof.
  intros data Hlen Hall. rewrite text_drawCircularityTest. cbn zeta. fold data.
  replace (10 <? List.length data) with true by (symmetry; apply Nat.ltb_lt; lia).
  unfold avgError. rewrite (totalError_zero data Hall), (zero_error_shown _ Hlen).
  reflexivity.
Qed.

Lemma circularity_error_zero_witness :
  text (doc (drawCircularityTest
               (Sample.with_circle
                  (repeat Sample.at_half 6
                   ++ repeat {| point_x := Js.JNum 1; point_y := Js.JNum 0 |} 6))))
       "circularity-error" = "0.00%".
Proof.
  apply circularity_error_zero.
  - vm_compute. lia.
  - apply Forall_app. split; apply Forall_forall; intros p Hp;
      apply repeat_spec in Hp; subst p; [left | right]; reflexivity.
Defined.

(* ================================================================== *)
(** ** Stick indicator, raw data table and frame read-outs             *)
(* ================================================================== *)

Section Display.

Lemma is_nan_eq (x : float) : is_nan x = true -> x = nan.
Proof.
  intros H. pose proof (SF2Prim_Prim2SF x) as E. unfold Prim2SF in E.
  rewrite H in E. cbn in E. symmetry. exact E.
Qed.

Lemma nth_error_mapi_from {A B : Type} (f : nat -> A -> B) (l : list A) (k i : nat) :
  nth_error (mapi_from k f l) i = option_map (f (k + i)) (nth_error l i).
Proof.
  revert k i. induction l as [| a l IH]; intros k i; cbn [mapi_from].
  - destruct i; reflexivity.
  - destruct i as [| i]; cbn [nth_error option_map].
    + rewrite Nat.add_0_r. reflexivity.
    + rewrite IH. replace (S k + i) with (k + S i) by lia. reflexivity.
Qed.

Lemma length_mapi_from {A B : Type} (f : nat -> A -> B) (l : list A) (k : nat) :
  List.length (mapi_from k f l) = List.length l.
Proof.
  revert k. induction l as [| a l IH]; intros k; cbn [mapi_from List.length].
  - reflexivity.
  - rewrite IH. reflexivity.
Qed.

Lemma text_frame_delta (w : World) (currentTime gamepadTimestamp : float) :
  let w' := updatePerformanceMetrics currentTime gamepadTimestamp w in
  let p := performance (tester w) in
  text (doc w') "frame-delta"
  = (if Js.gt (lastTimestamp p) 0
     then Js.toFixed 2 (Js.mean (Js.push_shift 60 (frameDeltas p)
                                   (sub currentTime (lastTimestamp p)))) +++ " ms"
     else text (doc w) "frame-delta")
  /\ text (doc w') "timestamp-display" = Js.toFixed 2 gamepadTimestamp.
Proof.
  unfold updatePerformanceMetrics. cbn zeta.
  destruct (Js.gt (lastTimestamp (performance (tester w))) 0); split; reflexivity.
Qed.

End Display.

(** X15.  The displacement given to a stick indicator is either 0 or the
    raw axis value, the latter only when its magnitude exceeds 0.05; it is
    never NaN, and a missing axis gives 0, so the indicator stays centred. *)
Theorem deadzone_output (v : Js.jsval) :
  (deadzone v = zero
   \/ (deadzone v = Js.ToNumber v /\ ltb DEADZONE (abs (Js.ToNumber v)) = true))
  /\ is_nan (deadzone v) = false
  /\ deadzone Js.JUndefined = zero.
Proof.
  unfold deadzone, Js.gt.
  destruct (ltb DEADZONE (abs (Js.ToNumber v))) eqn:E.
  - repeat split; [right; split; reflexivity |].
    destruct (is_nan (Js.ToNumber v)) eqn:En; [| reflexivity].
    apply is_nan_eq in En. rewrite En in E. discriminate E.
  - repeat split. left. reflexivity.
Qed.

(** X16.  The raw-data table is rebuilt on every tick from the snapshot
    alone: one row per axis in index order, then one row per button, each
    with its five-decimal value; an axis is "Active" exactly when its
    magnitude exceeds 0.05 and a button "Pressed" exactly when its pressed
    flag is set. *)
Theorem raw_table_rows (gamepad : Gamepad) (w : World) :
  let rows := raw_data_table (doc (updateRawDataTable gamepad w)) in
  List.length rows = List.length (axes gamepad) + List.length (buttons gamepad)
  /\ (forall i v,
         nth_error (axes gamepad) i = Some v ->
         nth_error rows i
         = Some {| row_name := match AXIS_MAPPING i with
                               | Some name => name
                               | None => "Axis " +++ Js.string_of_nat i
                               end;
                   row_value := Js.toFixed 5 v;
                   row_state := if ltb 0.05 (abs v) then "Active" else "Neutral" |})
  /\ (forall i b,
         nth_error (buttons gamepad) i = Some b ->
         nth_error rows (List.length (axes gamepad) + i)
         = Some {| row_name := match BUTTON_MAPPING i with
                               | Some name => name
                               | None => "Button " +++ Js.string_of_nat i
                               end;
                   row_value := Js.toFixed 5 (value b);
                   row_state := if pressed b then "Pressed" else "Released" |}).
Proof.
  cbn zeta. unfold updateRawDataTable. cbn zeta.
  cbn [on_doc doc set_raw_data_table raw_data_table]. unfold mapi.
  split; [| split].
  - rewrite length_app, !length_mapi_from. reflexivity.
  - intros i v Hv. rewrite nth_error_app1.
    + rewrite nth_error_mapi_from, Hv. reflexivity.
    + rewrite length_mapi_from. apply nth_error_Some. congruence.
  - intros i b Hb. rewrite nth_error_app2 by (rewrite length_mapi_from; lia).
    rewrite length_mapi_from.
    replace (List.length (axes gamepad) + i - List.length (axes gamepad)) with i by lia.
    rewrite nth_error_mapi_from, Hb. reflexivity.
Qed.

Lemma raw_table_rows_witness :
  nth_error (raw_data_table (doc (updateRawDataTable Sample.drifting_pad
                                    (World_init Sample.page)))) 1
  = Some {| row_name := "Left Stick Y"; row_value := "0.50000"; row_state := "Active" |}.
Proof.
  apply (proj1 (proj2 (raw_table_rows Sample.drifting_pad (World_init Sample.page)))
           1 0.5%float).
  reflexivity.
Defined.

(** X17.  After a first tick and at least one further tick, all with
    positive host timestamps, the frame-delta read-out shows the mean of the
    last 60 frame deltas with two decimals, and the timestamp read-out shows
    the device timestamp of the latest tick with two decimals. *)
Theorem frame_delta_readout
  (d : Document) (t0 g0 : float) (ticks : list (float * float)) :
  Js.gt t0 0 = true ->
  Forall (fun t => Js.gt t 0 = true) (map fst ticks) ->
  ticks <> [] ->
  let w := feed (World_init d) ((t0, g0) :: ticks) in
  text (doc w) "frame-delta"
  = Js.toFixed 2 (Js.mean (window 60 (deltas_of t0 (map fst ticks)))) +++ " ms"
  /\ text (doc w) "timestamp-display" = Js.toFixed 2 (last (map snd ticks) g0).
Proof.
  intros Ht0 Hpos Hne. cbn zeta.
  destruct ticks as [| [c g] ticks] using rev_ind; [congruence |]. clear IHticks Hne.
  rewrite map_app in Hpos. apply Forall_app in Hpos. destruct Hpos as [Hpos _].
  destruct (feed_state d t0 g0 ticks Ht0 Hpos) as (Hlast & Hd & _ & _).
  rewrite app_comm_cons, feed_snoc.
  destruct (text_frame_delta (feed (World_init d) ((t0, g0) :: ticks)) c g) as [Hf Hts].
  cbn zeta in Hf, Hts. rewrite Hf, Hts, Hd, Hlast. clear Hf Hts.
  assert (Hgt : Js.gt (last (map fst ticks) t0) 0 = true).
  { destruct (map fst ticks) as [| a l] eqn:E using rev_ind.
    - exact Ht0.
    - rewrite last_last. apply Forall_app in Hpos. destruct Hpos as [_ Ha].
      inversion Ha; assumption. }
  rewrite Hgt, !map_app. cbn [map fst snd]. rewrite !last_last, deltas_of_snoc.
  rewrite push_shift_window by lia. split; reflexivity.
Qed.

Lemma frame_delta_readout_witness :
  let ticks := map (fun t => (t, 0%float)) (tl Sample.stall_ticks) in
  text (doc (feed (World_init Sample.page) ((10%float, 0%float) :: ticks))) "frame-delta"
  = Js.toFixed 2 (Js.mean (window 60 (deltas_of 10 (map fst ticks)))) +++ " ms".
Proof.
  intros ticks.
  assert (H0 : Js.gt 10 0 = true) by reflexivity.
  assert (Hpos : Forall (fun t => Js.gt t 0 = true) (map fst ticks)).
  { apply Forall_forall. intros t Ht. vm_compute in Ht.
    repeat (destruct Ht as [<- | Ht]; [reflexivity |]). destruct Ht. }
  assert (Hne : ticks <> []) by discriminate.
  exact (proj1 (frame_delta_readout Sample.page 10 0 ticks H0 Hpos Hne)).
Defined.

(* ================================================================== *)
(** ** Button highlights                                               *)
(* ================================================================== *)

Section Highlights.

Lemma set_data_button_class_unique (i : nat) (flag : bool) (els : list (nat * bool)) :
  NoDup (map fst els) ->
  set_data_button_class i flag els
  = map (fun '(j, a) => (j, if j =? i then flag else a)) els.
Proof.
  induction els as [| [j a] els IH]; intros Hnd; cbn [set_data_button_class map].
  - reflexivity.
  - cbn [map fst] in Hnd. apply NoDup_cons_iff in Hnd. destruct Hnd as [Hj Hnd].
    destruct (Nat.eqb_spec j i) as [-> | Hne].
    + f_equal. rewrite <- (map_id els) at 1. apply map_ext_in.
      intros [j' a'] Hin. destruct (Nat.eqb_spec j' i) as [-> | _]; [| reflexivity].
      exfalso. apply Hj. apply in_map_iff. exists (i, a'). split; [reflexivity | exact Hin].
    + f_equal. apply IH, Hnd.
Qed.

Lemma fold_highlights (bs : list GamepadButton) (k : nat) (els : list (nat * bool)) :
  NoDup (map fst els) ->
  fold_left (fun els '(i, button) =>
               set_data_button_class i (pressed button || Js.gt (value button) 0.5) els)
            (mapi_from k (fun i b => (i, b)) bs) els
  = map (fun '(j, a) =>
           (j, match (if k <=? j then nth_error bs (j - k) else None) with
               | Some b => highlighted b
               | None => a
               end)) els.
Proof.
  revert k els. induction bs as [| b bs IH]; intros k els Hnd; cbn [mapi_from fold_left].
  - rewrite <- (map_id els) at 1. apply map_ext. intros [j a].
    destruct (k <=? j); [destruct (j - k) |]; reflexivity.
  - rewrite set_data_button_class_unique by exact Hnd.
    rewrite IH.
    + rewrite map_map. apply map_ext. intros [j a]. f_equal.
      destruct (Nat.leb_spec (S k) j) as [Hle | Hgt].
      * replace (k <=? j) with true by (symmetry; apply Nat.leb_le; lia).
        replace (j - k) with (S (j - S k)) by lia. cbn [nth_error].
        replace (j =? k) with false by (symmetry; apply Nat.eqb_neq; lia).
        reflexivity.
      * destruct (Nat.eqb_spec j k) as [-> | Hne].
        -- rewrite Nat.leb_refl, Nat.sub_diag. reflexivity.
        -- replace (k <=? j) with false by (symmetry; apply Nat.leb_gt; lia).
           reflexivity.
    + rewrite map_map.
      replace (map (fun x => fst (let '(j, a) := x in
                                  (j, if j =? k
                                      then pressed b || Js.gt (value b) 0.5 else a))) els)
        with (map fst els); [exact Hnd |].
      apply map_ext. intros [j a]. reflexivity.
Qed.

End Highlights.

(** X18.  On a page where no two elements carry the same button index, a
    tick gives each button element the highlight of the button with its
    index (pressed, or value above 0.5) and leaves the elements whose index
    the controller does not report as they were. *)
Theorem button_highlights (gamepad : Gamepad) (w : World) :
  NoDup (map fst (data_button (doc w))) ->
  data_button (doc (updateVisualController gamepad w))
  = map (fun '(j, a) =>
           (j, match nth_error (buttons gamepad) j with
               | Some b => highlighted b
               | None => a
               end)) (data_button (doc w)).
Proof.
  intros Hnd. unfold updateVisualController. cbn zeta.
  cbn [on_doc doc set_text set_style set_data_button data_button]. unfold mapi.
  rewrite fold_highlights by exact Hnd.
  apply map_ext. intros [j a]. cbn [Nat.leb]. rewrite Nat.sub_0_r. reflexivity.
Qed.

Lemma button_highlights_witness :
  data_button (doc (updateVisualController Sample.drifting_pad
                      (World_init page_with_buttons)))
  = [(0, false); (6, true); (20, true)].
Proof.
  rewrite (button_highlights Sample.drifting_pad (World_init page_with_buttons)).
  - reflexivity.
  - cbn. repeat constructor; cbn; intuition discriminate.
Defined.

(* ================================================================== *)
(** ** Utility functions: clamp and lerp                               *)
(* ================================================================== *)

Section FloatOrder.

Lemma SFcompare_antisym (x y : spec_float) :
  SFcompare y x = option_map CompOpp (SFcompare x y).
Proof.
  destruct x as [sx | sx | | sx mx ex], y as [sy | sy | | sy my ey]; cbn;
    try reflexivity;
    try (destruct sx; reflexivity); try (destruct sy; reflexivity);
    try (destruct sx, sy; reflexivity).
  change (Pos.compare_cont Eq mx my) with (Pos.compare mx my).
  change (Pos.compare_cont Eq my mx) with (Pos.compare my mx).
  rewrite (Z.compare_antisym ex ey), (Pos.compare_antisym mx my).
  destruct sx, sy; cbn; try reflexivity;
    destruct (ex ?= ey)%Z; cbn; try reflexivity;
    destruct (mx ?= my)%positive; reflexivity.
Qed.

Lemma SFcompare_refl (x : spec_float) : x <> S754_nan -> SFcompare x x = Some Eq.
Proof.
  destruct x as [s | s | | s m e]; intros H; cbn.
  - reflexivity.
  - destruct s; reflexivity.
  - congruence.
  - change (Pos.compare_cont Eq m m) with (Pos.compare m m).
    rewrite Z.compare_refl, Pos.compare_refl. destruct s; reflexivity.
Qed.

Lemma SFcompare_Some (x y : spec_float) :
  x <> S754_nan -> y <> S754_nan -> exists c, SFcompare x y = Some c.
Proof.
  destruct x, y; intros Hx Hy; try congruence; cbn; eexists; reflexivity.
Qed.

Lemma Prim2SF_not_nan (x : float) : is_nan x = false -> Prim2SF x <> S754_nan.
Proof.
  intros H. unfold Prim2SF. rewrite H.
  destruct (is_zero x); [discriminate |].
  destruct (is_infinity x); [discriminate |].
  destruct (Z.frexp x) as [r ex].
  destruct (shr_fexp _ _ _ _ _) as [shr e'].
  destruct (shr_m shr); discriminate.
Qed.

Lemma Prim2SF_nan (x : float) : is_nan x = true -> Prim2SF x = S754_nan.
Proof. intros H. unfold Prim2SF. rewrite H. reflexivity. Qed.

Lemma ltb_leb (a b : float) : ltb a b = true -> leb a b = true.
Proof.
  rewrite ltb_spec, leb_spec. unfold SFltb, SFleb.
  destruct (SFcompare _ _) as [[] |]; congruence.
Qed.

Lemma not_ltb_leb (a b : float) :
  is_nan a = false -> is_nan b = false -> ltb a b = false -> leb b a = true.
Proof.
  intros Ha Hb. rewrite ltb_spec, leb_spec. unfold SFltb, SFleb.
  rewrite (SFcompare_antisym (Prim2SF a) (Prim2SF b)).
  destruct (SFcompare_Some _ _ (Prim2SF_not_nan a Ha) (Prim2SF_not_nan b Hb)) as [c ->].
  destruct c; cbn; congruence.
Qed.

Lemma leb_refl (a : float) : is_nan a = false -> leb a a = true.
Proof.
  intros Ha. rewrite leb_spec. unfold SFleb.
  rewrite SFcompare_refl by (apply Prim2SF_not_nan, Ha). reflexivity.
Qed.

Lemma leb_not_nan (a b : float) :
  leb a b = true -> is_nan a = false /\ is_nan b = false.
Proof.
  rewrite leb_spec. unfold SFleb. intros H.
  split.
  - destruct (is_nan a) eqn:E; [| reflexivity].
    rewrite (Prim2SF_nan a E) in H. discriminate H.
  - destruct (is_nan b) eqn:E; [| reflexivity].
    rewrite (Prim2SF_nan b E) in H.
    destruct (Prim2SF a); discriminate H.
Qed.

(** The larger of two numbers is one of them and not below the second. *)
Lemma Math_max_spec (a b : float) :
  is_nan a = false -> is_nan b = false ->
  is_nan (Math_max a b) = false /\ leb b (Math_max a b) = true.
Proof.
  intros Ha Hb. unfold Math_max. rewrite Ha, Hb. cbn [orb].
  destruct (ltb a b) eqn:E1.
  - split; [exact Hb | apply leb_refl, Hb].
  - destruct (ltb b a) eqn:E2.
    + split; [exact Ha | apply ltb_leb, E2].
    + destruct (get_sign a).
      * split; [exact Hb | apply leb_refl, Hb].
      * split; [exact Ha | apply not_ltb_leb; assumption].
Qed.

End FloatOrder.

(** X19.  For a lower bound not above the upper bound and a value that is
    not NaN, [clamp] returns a number between the two bounds, inclusive; and
    a NaN value gives NaN. *)
Theorem clamp_within (value lo hi : float) :
  (is_nan value = false -> leb lo hi = true ->
   leb lo (clamp value lo hi) = true /\ leb (clamp value lo hi) hi = true)
  /\ (is_nan value = true -> is_nan (clamp value lo hi) = true).
Proof.
  split.
  - intros Hv Hle. destruct (leb_not_nan lo hi Hle) as [Hlo Hhi].
    destruct (Math_max_spec value lo Hv Hlo) as [Hm Hlm].
    unfold clamp. set (m := Math_max value lo) in *.
    unfold Js.Math_min. rewrite Hm, Hhi. cbn [orb].
    destruct (ltb m hi) eqn:E1.
    + split; [exact Hlm | apply ltb_leb, E1].
    + destruct (ltb hi m) eqn:E2.
      * split; [exact Hle | apply leb_refl, Hhi].
      * destruct (get_sign m).
        -- split; [exact Hlm | apply not_ltb_leb; assumption].
        -- split; [exact Hle | apply leb_refl, Hhi].
  - intros Hv. unfold clamp, Math_max. rewrite Hv. reflexivity.
Qed.

Lemma clamp_within_witness :
  leb 0 (clamp 1.5 0 1) = true /\ leb (clamp 1.5 0 1) 1 = true.
Proof.
  apply (proj1 (clamp_within 1.5 0 1)); reflexivity.
Defined.

Section Lerp.

Lemma finite_shape (x : float) :
  non_finite x = false ->
  (exists s, Prim2SF x = S754_zero s) \/ (exists s m e, Prim2SF x = S754_finite s m e).
Proof.
  unfold non_finite. intros H. apply orb_false_iff in H. destruct H as [Hn Hi].
  unfold Prim2SF. rewrite Hn, Hi.
  destruct (is_zero x); [left; eexists; reflexivity |].
  destruct (Z.frexp x) as [r ex].
  destruct (shr_fexp _ _ _ _ _) as [shr e'].
  destruct (shr_m shr); [left | right | left]; repeat eexists.
Qed.

End Lerp.

(** X20.  [lerp(start, end, 0)] is numerically equal to [start] whenever
    [start] is finite and [end - start] does not overflow (only the sign of
    a zero [start] may differ). *)
Theorem lerp_at_zero (start end_ : float) :
  non_finite start = false ->
  non_finite (sub end_ start) = false ->
  eqb (lerp start end_ zero) start = true.
Proof.
  intros Hs Hd. unfold lerp.
  rewrite eqb_spec, add_spec, mul_spec.
  change (Prim2SF zero) with (S754_zero false).
  destruct (finite_shape _ Hd) as [[sd ->] | (sd & md & ed & ->)];
    destruct (finite_shape _ Hs) as [[ss ->] | (ss & ms & es & ->)].
  - destruct ss, sd; reflexivity.
  - change (SF64add (S754_finite ss ms es) (SF64mul (S754_zero sd) (S754_zero false)))
      with (S754_finite ss ms es).
    unfold SFeqb. rewrite SFcompare_refl by discriminate. reflexivity.
  - destruct ss, sd; reflexivity.
  - change (SF64add (S754_finite ss ms es)
              (SF64mul (S754_finite sd md ed) (S754_zero false)))
      with (S754_finite ss ms es).
    unfold SFeqb. rewrite SFcompare_refl by discriminate. reflexivity.
Qed.

Lemma lerp_at_zero_witness : eqb (lerp 2 10 zero) 2 = true.
Proof. apply lerp_at_zero; reflexivity. Defined.

(* ================================================================== *)
(** ** Page chrome                                                     *)
(* ================================================================== *)

Section Chrome.
Implicit Types (w : World) (g : Gamepad).

Lemma chrome_of_createControllerTabs w :
  chrome_of (createControllerTabs w) = chrome_of w.
Proof.
  unfold createControllerTabs.
  destruct (_ =? 0); [reflexivity |]. destruct (_ =? 1); reflexivity.
Qed.

Lemma chrome_of_checkVibrationSupport w g :
  chrome_of (checkVibrationSupport g w) = chrome_of w.
Proof. unfold checkVibrationSupport. destruct (_ || _); reflexivity. Qed.

Lemma chrome_of_updatePerformanceMetrics w (c gts : float) :
  chrome_of (updatePerformanceMetrics c gts w) = chrome_of w.
Proof.
  unfold updatePerformanceMetrics. cbn zeta. destruct (Js.gt _ 0); reflexivity.
Qed.

Lemma chrome_of_drawCircularityTest w : chrome_of (drawCircularityTest w) = chrome_of w.
Proof.
  unfold drawCircularityTest.
  destruct (_ =? 0); [reflexivity |]. destruct (10 <? _); reflexivity.
Qed.

Lemma chrome_of_updateCircularity w g : chrome_of (updateCircularity g w) = chrome_of w.
Proof.
  unfold updateCircularity. cbn zeta. rewrite chrome_of_drawCircularityTest.
  destruct (moved_significantly _ _); reflexivity.
Qed.

Lemma chrome_of_store_snapshots (pads : list (option Gamepad)) w :
  chrome_of (store_snapshots pads w) = chrome_of w.
Proof.
  unfold chrome_of. rewrite doc_store_snapshots, active_store_snapshots. reflexivity.
Qed.

Lemma chrome_of_pollGamepads w (ts : float) (pads : list (option Gamepad)) :
  chrome_of (pollGamepads ts pads w) = chrome_of w.
Proof.
  unfold pollGamepads. cbn zeta.
  assert (Hraf : forall w', chrome_of (requestAnimationFrame w') = chrome_of w')
    by reflexivity.
  rewrite Hraf.
  destruct (activeGamepadIndex (tester (store_snapshots pads w))) as [a |];
    [| apply chrome_of_store_snapshots].
  destruct (JsObj.get (gamepads (tester (store_snapshots pads w))) a) as [g |];
    [| apply chrome_of_store_snapshots].
  rewrite chrome_of_updateCircularity.
  change (chrome_of (updatePerformanceMetrics ts (timestamp g) (store_snapshots pads w))
          = chrome_of w).
  rewrite chrome_of_updatePerformanceMetrics. apply chrome_of_store_snapshots.
Qed.

Lemma idle_chrome_ext w w' : chrome_of w' = chrome_of w -> idle_chrome w -> idle_chrome w'.
Proof.
  unfold chrome_of, idle_chrome. intros E H. injection E as Ea Eh Ec.
  rewrite Ea, Eh, Ec. exact H.
Qed.

Lemma idle_chrome_handleGamepadConnected w g : idle_chrome (handleGamepadConnected g w).
Proof.
  intros E. rewrite tester_handleGamepadConnected in E.
  cbn [set_activeGamepadIndex activeGamepadIndex] in E.
  destruct (activeGamepadIndex (tester w)); discriminate E.
Qed.

Lemma idle_chrome_handleGamepadDisconnected w g :
  idle_chrome w -> idle_chrome (handleGamepadDisconnected g w).
Proof.
  intros H. unfold handleGamepadDisconnected. cbn zeta.
  apply (idle_chrome_ext _ _ (chrome_of_createControllerTabs _)).
  cbn [showToast on_doc on_tester tester set_gamepads activeGamepadIndex].
  destruct (activeGamepadIndex (tester w)) as [a |] eqn:Ea.
  - destruct (a =? index g).
    + destruct (JsObj.keys _).
      * intros _. split; reflexivity.
      * intros E. discriminate E.
    + intros E. cbn in E. congruence.
  - intros _. unfold idle_chrome in H. cbn. apply H. exact Ea.
Qed.

Lemma idle_chrome_step w (e : Event) : idle_chrome w -> idle_chrome (step w e).
Proof.
  intros H. destruct e as [g | g | i | v | | v | | ts pads]; cbn [step].
  - apply idle_chrome_handleGamepadConnected.
  - apply idle_chrome_handleGamepadDisconnected, H.
  - destruct (tab_exists i w); [| exact H].
    intros E. rewrite tester_tab_click in E. discriminate E.
  - revert H. apply idle_chrome_ext. reflexivity.
  - revert H. apply idle_chrome_ext. reflexivity.
  - revert H. apply idle_chrome_ext. reflexivity.
  - revert H. apply idle_chrome_ext. reflexivity.
  - revert H. apply idle_chrome_ext, chrome_of_pollGamepads.
Qed.

Lemma idle_chrome_checkExistingGamepads (pads : list (option Gamepad)) w :
  idle_chrome w -> idle_chrome (checkExistingGamepads pads w).
Proof.
  unfold checkExistingGamepads. revert w.
  induction pads as [| [g |] pads IH]; intros w H; cbn [fold_left].
  - exact H.
  - apply IH, idle_chrome_handleGamepadConnected.
  - apply IH, H.
Qed.

End Chrome.

(** X22.  On a page whose app content starts hidden and whose banner starts
    unmarked, in every session: whenever no controller is active, the app
    content is hidden and the banner is not marked connected. *)
Theorem no_active_controller_hides_app
  (nav : option (list (option Gamepad))) (d : Document) (es : list Event) :
  class d "app-content" "hidden" = true ->
  class d "connection-status" "connected" = false ->
  let w := session nav d es in
  activeGamepadIndex (tester w) = None ->
  class (doc w) "app-content" "hidden" = true
  /\ class (doc w) "connection-status" "connected" = false.
Proof.
  intros Hh Hc. cbn zeta. change (idle_chrome (session nav d es)). unfold session.
  assert (H0 : idle_chrome (initializeApp nav (World_init d))).
  { assert (Hi : idle_chrome (World_init d)) by (intros _; split; assumption).
    destruct nav as [pads |]; cbn [initializeApp].
    - apply idle_chrome_checkExistingGamepads.
      revert Hi. apply idle_chrome_ext. reflexivity.
    - revert Hi. apply idle_chrome_ext. reflexivity. }
  revert H0. generalize (initializeApp nav (World_init d)) as w.
  induction es as [| e es IH]; intros w H; cbn [run fold_left].
  - exact H.
  - apply IH, idle_chrome_step, H.
Qed.

Lemma no_active_controller_hides_app_witness :
  let d := set_class "app-content" "hidden" true Sample.page in
  let w := session (Some []) d
             [GamepadConnectedEvent (Sample.pad 0 [] 0 0);
              GamepadDisconnectedEvent (Sample.pad 0 [] 0 0)] in
  class (doc w) "app-content" "hidden" = true
  /\ class (doc w) "connection-status" "connected" = false.
Proof.
  intros d w.
  apply (no_active_controller_hides_app (Some []) d
           [GamepadConnectedEvent (Sample.pad 0 [] 0 0);
            GamepadDisconnectedEvent (Sample.pad 0 [] 0 0)]); reflexivity.
Defined.

(** X23.  [createControllerTabs] leaves no reachable tab while fewer than
    two controllers are stored; with two or more it lists one tab per stored
    controller in ascending index order, labelled "Controller" and the index
    plus one, and marks exactly the tabs of the active controller. *)
Theorem controller_tabs_listing (w : World) :
  let tabs := shown_tabs (doc (createControllerTabs w)) in
  (List.length (stored w) < 2 -> tabs = [])
  /\ (2 <= List.length (stored w) ->
      map tab_index tabs = stored w
      /\ forall t, In t tabs ->
           tab_text t = "Controller " +++ Js.string_of_nat (tab_index t + 1)
           /\ (tab_active t = true <-> activeGamepadIndex (tester w) = Some (tab_index t))).
Proof.
  cbn zeta. unfold createControllerTabs, stored.
  destruct (JsObj.keys (gamepads (tester w))) as [| k1 [| k2 ks]] eqn:Ek;
    cbn [List.length Nat.eqb].
  - split; [reflexivity | lia].
  - split; [reflexivity | lia].
  - split; [lia |]. intros _. unfold shown_tabs. cbn [on_doc doc set_class set_controller_tabs
                                                       class controller_tabs].
    change (upd2 (class (doc w)) "controller-tabs" "hidden" false "controller-tabs" "hidden")
      with false. cbn iota.
    split.
    + rewrite map_map. cbn [tab_index]. apply map_id.
    + intros t Hin. apply in_map_iff in Hin. destruct Hin as (k & <- & _).
      cbn [tab_text tab_index tab_active]. split; [reflexivity |].
      destruct (activeGamepadIndex (tester w)) as [a |].
      * rewrite Nat.eqb_eq. split; congruence.
      * split; discriminate.
Qed.

Lemma controller_tabs_listing_witness :
  let w := session (Some []) Sample.page Sample.two_pads_session in
  map tab_index (shown_tabs (doc (createControllerTabs w))) = stored w.
Proof.
  intros w. apply (proj2 (controller_tabs_listing w)). vm_compute. lia.
Defined.

(** X24.  The estimator treats a last timestamp that is not positive as "no
    previous frame": after a tick whose host timestamp is not above 0, the
    next tick records no delta and no rate sample and leaves the rate and
    frame-delta read-outs alone; it only takes over the new timestamp. *)
Theorem nonpositive_timestamp_restarts
  (w : World) (c1 g1 c2 g2 : float) :
  Js.gt c1 0 = false ->
  let w1 := updatePerformanceMetrics c1 g1 w in
  let w2 := updatePerformanceMetrics c2 g2 w1 in
  frameDeltas (performance (tester w2)) = frameDeltas (performance (tester w1))
  /\ pollingRates (performance (tester w2)) = pollingRates (performance (tester w1))
  /\ lastTimestamp (performance (tester w2)) = c2
  /\ text (doc w2) "polling-rate" = text (doc w1) "polling-rate"
  /\ text (doc w2) "frame-delta" = text (doc w1) "frame-delta".
Proof.
  intros Hc. cbn zeta.
  assert (Hlast : lastTimestamp (performance (tester (updatePerformanceMetrics c1 g1 w)))
                  = c1).
  { rewrite tester_updatePerformanceMetrics. cbn zeta.
    destruct (Js.gt (lastTimestamp (performance (tester w))) 0); reflexivity. }
  rewrite (tester_updatePerformanceMetrics (updatePerformanceMetrics c1 g1 w)).
  rewrite (text_updatePerformanceMetrics (updatePerformanceMetrics c1 g1 w)).
  destruct (text_frame_delta (updatePerformanceMetrics c1 g1 w) c2 g2) as [Hf _].
  cbn zeta in Hf. rewrite Hf. cbn zeta. rewrite Hlast, Hc.
  repeat split.
Qed.

Lemma nonpositive_timestamp_restarts_witness :
  let w1 := updatePerformanceMetrics 0 0 (feed (World_init Sample.page)
                                            [(10%float, 0%float); (20%float, 0%float)]) in
  frameDeltas (performance (tester (updatePerformanceMetrics 30 0 w1)))
  = frameDeltas (performance (tester w1)).
Proof.
  intros w1.
  apply (proj1 (nonpositive_timestamp_restarts
                  (feed (World_init Sample.page) [(10%float, 0%float); (20%float, 0%float)])
                  0 0 30 0 eq_refl)).
Defined.

Section AfterClear.

Lemma push_shift_length_S {A : Type} (n : nat) (l : list A) (v : A) :
  List.length (Js.push_shift n l v) <= S (List.length l).
Proof.
  unfold Js.push_shift. destruct (_ <? _); rewrite ?length_tl, length_app; simpl; lia.
Qed.

Lemma updateCircularity_readout (w : World) (g : Gamepad) :
  let data := circ_get (circularityData (tester w)) (selectedCircle (tester w)) in
  let w' := updateCircularity g w in
  let data' := circ_get (circularityData (tester w')) (selectedCircle (tester w')) in
  List.length data' <= S (List.length data)
  /\ (List.length data' <= 10 ->
      text (doc w') "circularity-error" = text (doc w) "circularity-error").
Proof.
  cbn zeta.
  assert (Hsel : selectedCircle (tester (updateCircularity g w)) = selectedCircle (tester w)).
  { rewrite tester_updateCircularity. cbn zeta.
    destruct (moved_significantly _ _); reflexivity. }
  rewrite Hsel. split.
  - rewrite tester_updateCircularity. cbn zeta.
    destruct (moved_significantly _ _); [| lia].
    cbn [set_circularityData circularityData]. rewrite circ_get_set.
    replace (match selectedCircle (tester w) with StickLeft => _ | StickRight => _ end)
      with true by (destruct (selectedCircle (tester w)); reflexivity).
    apply push_shift_length_S.
  - intros Hlen.
    pose proof (tester_drawCircularityTest) as Ht.
    unfold updateCircularity in *. cbn zeta in *.
    set (w1 := if moved_significantly _ _ then _ else w) in *.
    rewrite Ht in Hlen.
    rewrite text_drawCircularityTest. cbn zeta.
    assert (Hs1 : selectedCircle (tester w1) = selectedCircle (tester w))
      by (subst w1; destruct (moved_significantly _ _); reflexivity).
    rewrite Hs1.
    replace (10 <? _) with false by (symmetry; apply Nat.ltb_ge; exact Hlen).
    subst w1. destruct (moved_significantly _ _); reflexivity.
Qed.

End AfterClear.

(** X25.  After a clear (or a switch of the selected stick) the error
    read-out stays at "0.00%" through the next ten processed ticks, however
    the stick moves: the error is first computed when an eleventh sample is
    retained. *)
Theorem error_readout_after_clear (w : World) (snapshots : list Gamepad) :
  List.length snapshots <= 10 ->
  text (doc (circularity_ticks (clearCircularity w) snapshots)) "circularity-error"
  = "0.00%".
Proof.
  intros Hlen. unfold circularity_ticks.
  assert (G : forall gs w0,
             List.length (circ_get (circularityData (tester w0))
                                   (selectedCircle (tester w0)))
             + List.length gs <= 10 ->
             text (doc w0) "circularity-error" = "0.00%" ->
             text (doc (fold_left (fun w g => updateCircularity g w) gs w0))
                  "circularity-error" = "0.00%").
  { induction gs as [| g gs IH]; intros w0 Hn Ht; cbn [fold_left].
    - exact Ht.
    - destruct (updateCircularity_readout w0 g) as [Hl Hkeep]. cbn zeta in Hl, Hkeep.
      cbn [List.length] in Hn. apply IH.
      + lia.
      + rewrite Hkeep by lia. exact Ht. }
  apply G.
  - destruct (selectedCircle (tester w)) eqn:E; cbn; rewrite E; cbn; lia.
  - reflexivity.
Qed.

Lemma error_readout_after_clear_witness :
  text (doc (circularity_ticks
               (clearCircularity (Sample.with_circle (repeat Sample.at_half 20)))
               (repeat (Sample.pad 0 [1; 0; 0; 0]%float 0 0) 10)))
       "circularity-error" = "0.00%".
Proof. apply error_readout_after_clear. vm_compute. lia. Defined.

(* ================================================================== *)
(** ** Drawing a sample that is missing                                *)
(* ================================================================== *)

Section NanOrdinate.

Lemma mul_nan_l (y : float) : mul nan y = nan.
Proof.
  rewrite <- (SF2Prim_Prim2SF (mul nan y)), mul_spec.
  change (Prim2SF nan) with S754_nan. destruct (Prim2SF y); reflexivity.
Qed.

Lemma sub_nan_r (x : float) : sub x nan = nan.
Proof.
  rewrite <- (SF2Prim_Prim2SF (sub x nan)), sub_spec.
  change (Prim2SF nan) with S754_nan. destruct (Prim2SF x); reflexivity.
Qed.

End NanOrdinate.

(** X26.  A sample recorded as [undefined] is given a NaN ordinate in the
    oscilloscope polyline, whatever the canvas size: the path point built
    for it is a [moveTo] (first sample) or [lineTo] at (x, NaN). *)
Theorem undefined_sample_drawn_at_nan
  (maxPoints : nat) (width height : float) (values : list Js.jsval) (i : nat) :
  nth_error values i = Some Js.JUndefined ->
  exists x,
    nth_error (trace_path maxPoints width height values) i
    = Some (if i =? 0 then MoveTo x nan else LineTo x nan).
Proof.
  intros H. unfold trace_path, mapi. cbn zeta.
  rewrite nth_error_mapi_from, H. cbn [option_map Nat.add Js.ToNumber].
  rewrite mul_nan_l, sub_nan_r. eexists. reflexivity.
Qed.

Lemma undefined_sample_drawn_at_nan_witness :
  exists x,
    nth_error (trace_path 200 300 150 [Js.JNum 0; Js.JUndefined]) 1 = Some (LineTo x nan).
Proof.
  apply (undefined_sample_drawn_at_nan 200 300 150 [Js.JNum 0; Js.JUndefined] 1).
  reflexivity.
Defined.
